(** * duplicaCI: command composition and check-report parsing

    A shallow embedding of two packages of the repository:

    - [internal/executor]: [buildCommandWithStorage], [getStoragePassword],
      [discoverDuplicacyPath], [RunDuplicacyWithStorage],
      [RunDuplicacyCaptureWithStorage], [execute], [executeCapture];
    - [internal/stats]: [ParseCheckOutput], [parseSize], [parseNumber].

    Go strings are byte sequences and are modelled by [string] (a list of
    8-bit [ascii] characters).  Go maps are [gmap]s.  [int] and [int64] are
    both 64 bits wide (amd64 / arm64) and are modelled by [Z]. *)

From Stdlib Require Import ZArith Lia Ascii String List Bool DecimalString.
From stdpp Require Import gmap strings.
Import ListNotations.

Local Open Scope string_scope.
Local Open Scope Z_scope.

(** ** The Go runtime pieces the code relies on *)

(** Go's [error] values, as far as the two packages build them. *)
Inductive NumErrKind := ErrSyntax | ErrRange.

Inductive error :=
| errorString (msg : string)                 (* fmt.Errorf with a constant text *)
| NumError (fn : string) (num : string) (e : NumErrKind)   (* *strconv.NumError *)
| wrapError (msg : string) (inner : error)   (* fmt.Errorf("msg: %w", inner) *)
| wrapErrorQ (msg : string) (arg : string) (inner : error) (* fmt.Errorf("msg %q: %w", arg, inner) *)
| exitCodeError (code : Z) (stderr : option string)
    (* fmt.Errorf("command exited with code %d") and ("... code %d: %s") *)
| ExitError (code : Z)                       (* *exec.ExitError *)
| ExecError (what : string).                 (* another error of os/exec *)

(** IEEE-754 binary64 values: [(-1)^neg * m * 2^e], the infinities and NaN. *)
Inductive float64 :=
| Finite (neg : bool) (m : Z) (e : Z)
| Inf (neg : bool)
| NaN.

(** What Go leaves to the platform or what is outside the fragment of the
    standard library modelled below. *)
Class GoPlatform := {
  (** [strconv.ParseFloat(s, 64)] for [s] that is not a non-empty run of
      decimal digits (signs, fractions, exponents, hexadecimal, inf, nan). *)
  ParseFloat_other : string -> float64 * option error;
  (** [int64(f)] when [f] is NaN, infinite or outside the int64 range: the
      conversion succeeds with an implementation-dependent value. *)
  int64_out_of_range : float64 -> Z;
  (** [strings.ToUpper] on a string with a byte >= 0x80. *)
  ToUpper_unicode : string -> string
}.

Definition MinInt64 : Z := - 2 ^ 63.
Definition MaxInt64 : Z := 2 ^ 63 - 1.

Definition is_digit (c : ascii) : bool :=
  let n := nat_of_ascii c in (48 <=? n)%nat && (n <=? 57)%nat.

Definition digit_val (c : ascii) : Z := Z.of_nat (nat_of_ascii c) - 48.

Definition all_digits (s : string) : bool :=
  forallb is_digit (list_ascii_of_string s).

(** Value of a run of decimal digits, most significant first. *)
Definition decimal_value (s : string) : Z :=
  fold_left (fun acc c => 10 * acc + digit_val c) (list_ascii_of_string s) 0.

Module GoStrings.

(** [strings.Split(s, sep)] for a one-byte separator. *)
Fixpoint Split (s : string) (sep : ascii) : list string :=
  match s with
  | EmptyString => [EmptyString]
  | String c s' =>
      if Ascii.eqb c sep then EmptyString :: Split s' sep
      else match Split s' sep with
           | [] => [String c EmptyString]
           | w :: ws => String c w :: ws
           end
  end.

(** [strings.Join(elems, sep)]. *)
Fixpoint Join (elems : list string) (sep : string) : string :=
  match elems with
  | [] => EmptyString
  | [e] => e
  | e :: rest => e +:+ sep +:+ Join rest sep
  end.

Fixpoint replace_from (old new s : string) (skip : nat) : string :=
  match s with
  | EmptyString => EmptyString
  | String c s' =>
      match skip with
      | S k => replace_from old new s' k
      | O =>
          if String.prefix old s
          then new +:+ replace_from old new s' (String.length old - 1)
          else String c (replace_from old new s' O)
      end
  end.

(** [strings.ReplaceAll(s, old, new)] for a non-empty [old]: the
    non-overlapping occurrences of [old] are replaced from left to right. *)
Definition ReplaceAll (s old new : string) : string :=
  replace_from old new s O.

(** The UTF-8 encodings of the code points for which [unicode.IsSpace]
    holds: U+0009..U+000D, U+0020, U+0085, U+00A0, U+1680, U+2000..U+200A,
    U+2028, U+2029, U+202F, U+205F, U+3000. *)
Definition bytes (l : list nat) : string :=
  string_of_list_ascii (map ascii_of_nat l).

Definition space_runes : list string :=
  map bytes
    [ [9]; [10]; [11]; [12]; [13]; [32];
      [194; 133]; [194; 160]; [225; 154; 128];
      [226; 128; 128]; [226; 128; 129]; [226; 128; 130]; [226; 128; 131];
      [226; 128; 132]; [226; 128; 133]; [226; 128; 134]; [226; 128; 135];
      [226; 128; 136]; [226; 128; 137]; [226; 128; 138];
      [226; 128; 168]; [226; 128; 169]; [226; 128; 175];
      [226; 129; 159]; [227; 128; 128] ]%nat.

Fixpoint drop (n : nat) (s : string) : string :=
  match n, s with
  | S k, String _ s' => drop k s'
  | _, _ => s
  end.

Definition string_rev (s : string) : string :=
  string_of_list_ascii (rev (list_ascii_of_string s)).

(** One leading white-space rune of [s], if there is one, among [runes]. *)
Definition leading_rune (runes : list string) (s : string) : option string :=
  find (fun r => String.prefix r s) runes.

Fixpoint trim_left (runes : list string) (fuel : nat) (s : string) : string :=
  match fuel with
  | O => s
  | S k =>
      match leading_rune runes s with
      | Some r => trim_left runes k (drop (String.length r) s)
      | None => s
      end
  end.

(** [strings.TrimSpace(s)]: leading and trailing white space removed.  A
    rune has at least one byte, so [length s] rounds are enough. *)
Definition TrimSpace (s : string) : string :=
  let s1 := trim_left space_runes (String.length s) s in
  let r := string_rev s1 in
  string_rev (trim_left (map string_rev space_runes) (String.length r) r).

Definition is_ascii (c : ascii) : bool := (nat_of_ascii c <? 128)%nat.

Definition upper_byte (c : ascii) : ascii :=
  let n := nat_of_ascii c in
  if (97 <=? n)%nat && (n <=? 122)%nat then ascii_of_nat (n - 32) else c.

(** [strings.ToUpper(s)]. *)
Definition ToUpper `{GoPlatform} (s : string) : string :=
  if forallb is_ascii (list_ascii_of_string s)
  then string_of_list_ascii (map upper_byte (list_ascii_of_string s))
  else ToUpper_unicode s.

(** [strings.Contains(s, substr)]. *)
Fixpoint Contains (s substr : string) : bool :=
  String.prefix substr s ||
  match s with
  | EmptyString => false
  | String _ s' => Contains s' substr
  end.

End GoStrings.

Module GoStrconv.

(** [strconv.ParseInt(s, 10, 64)]: an optional sign, then decimal digits.
    On a syntax error the value is 0; on a range error it is the nearest
    bound of int64. *)
Definition ParseInt (s : string) : Z * option error :=
  let '(neg, body) :=
    match s with
    | String "+" r => (false, r)
    | String "-" r => (true, r)
    | _ => (false, s)
    end in
  match body with
  | EmptyString => (0, Some (NumError "ParseInt" s ErrSyntax))
  | _ =>
      if all_digits body then
        let un := decimal_value body in
        if negb neg && (2 ^ 63 <=? un) then (MaxInt64, Some (NumError "ParseInt" s ErrRange))
        else if neg && (2 ^ 63 <? un) then (MinInt64, Some (NumError "ParseInt" s ErrRange))
        else (if neg then - un else un, None)
      else (0, Some (NumError "ParseInt" s ErrSyntax))
  end.

(** Round a positive integer to 53 significant bits, ties to even. *)
Definition round53 (n : Z) : Z * Z :=
  let bits := Z.log2 n + 1 in
  if bits <=? 53 then (n, 0)
  else
    let sh := bits - 53 in
    let q := Z.shiftr n sh in
    let r := n mod 2 ^ sh in
    let half := 2 ^ (sh - 1) in
    if (half <? r) || ((r =? half) && Z.odd q) then (q + 1, sh) else (q, sh).

(** [strconv.ParseFloat(s, 64)].  A run of decimal digits is rounded to
    the nearest binary64 value; a value that rounds beyond the largest
    finite one gives +Inf with a range error. *)
Definition ParseFloat `{GoPlatform} (s : string) : float64 * option error :=
  match s with
  | EmptyString => (Finite false 0 0, Some (NumError "ParseFloat" s ErrSyntax))
  | _ =>
      if all_digits s then
        let '(m, e) := round53 (decimal_value s) in
        if 2 ^ 1024 <=? m * 2 ^ e
        then (Inf false, Some (NumError "ParseFloat" s ErrRange))
        else (Finite false m e, None)
      else ParseFloat_other s
  end.

End GoStrconv.

(** [float64(n)] for [n] a power of two below 2^53 (exact). *)
Definition float64_of_pow2 (n : Z) : float64 := Finite false 1 (Z.log2 n).

(** [x * y] where [y] is a power of two not below 1: the product is exact
    unless it overflows. *)
Definition float64_mul_pow2 (x y : float64) : float64 :=
  match x, y with
  | Finite neg m e, Finite _ _ k =>
      if (m =? 0) then Finite neg 0 0
      else if 2 ^ 1024 <=? m * 2 ^ (e + k) then Inf neg
      else Finite neg m (e + k)
  | _, _ => x
  end.

(** [int64(f)]: truncation toward zero. *)
Definition int64_of_float `{GoPlatform} (f : float64) : Z :=
  match f with
  | Finite neg m e =>
      let t := if 0 <=? e then m * 2 ^ e else Z.shiftr m (- e) in
      let v := if neg then - t else t in
      if (MinInt64 <=? v) && (v <=? MaxInt64) then v else int64_out_of_range f
  | _ => int64_out_of_range f
  end.

(** ** Go's [regexp], for the patterns of the stats package

    The three patterns are sequences of literals, of a character class under
    [*], [+] or [?], of [^] and of capture groups over such sequences.  The
    matcher is the prioritised backtracking search that defines Go's
    leftmost-first semantics: every repetition is greedy and gives characters
    back one at a time.  It runs on bytes: every class of the patterns either
    contains only ASCII bytes or contains every byte >= 0x80, and each class
    that accepts those bytes is followed by an ASCII literal or class, so no
    match can end inside a multi-byte rune. *)
Module GoRegexp.

Inductive atom :=
| Lit (s : string)
| Star (cls : ascii -> bool)
| Plus (cls : ascii -> bool)
| Opt (cls : ascii -> bool)
| Bol.

Inductive node :=
| Atom (a : atom)
| Group (body : list atom).

Definition Regexp := list node.

Section Matcher.
Context {R : Type}.

(** A continuation receives the position reached and the text left. *)
Definition cont := nat -> string -> option R.

Fixpoint match_lit (l inp : string) : option string :=
  match l, inp with
  | EmptyString, _ => Some inp
  | String a l', String b inp' => if Ascii.eqb a b then match_lit l' inp' else None
  | String _ _, EmptyString => None
  end.

Fixpoint match_star (cls : ascii -> bool) (pos : nat) (inp : string) (k : cont) : option R :=
  match inp with
  | String c rest =>
      if cls c then
        match match_star cls (S pos) rest k with
        | Some r => Some r
        | None => k pos inp
        end
      else k pos inp
  | EmptyString => k pos inp
  end.

Definition match_atom (a : atom) (pos : nat) (inp : string) (k : cont) : option R :=
  match a with
  | Lit l =>
      match match_lit l inp with
      | Some rest => k (pos + String.length l)%nat rest
      | None => None
      end
  | Star cls => match_star cls pos inp k
  | Plus cls =>
      match inp with
      | String c rest => if cls c then match_star cls (S pos) rest k else None
      | EmptyString => None
      end
  | Opt cls =>
      match inp with
      | String c rest =>
          if cls c then
            match k (S pos) rest with
            | Some r => Some r
            | None => k pos inp
            end
          else k pos inp
      | EmptyString => k pos inp
      end
  | Bol => if Nat.eqb pos 0 then k pos inp else None
  end.

Fixpoint match_atoms (l : list atom) (pos : nat) (inp : string) (k : cont) : option R :=
  match l with
  | [] => k pos inp
  | a :: l' => match_atom a pos inp (fun p i => match_atoms l' p i k)
  end.
End Matcher.

(** Match [re] at position [pos]; [caps] are the groups closed so far, last
    first.  The result is the end position and the groups in order. *)
Fixpoint match_nodes (re : Regexp) (pos : nat) (inp : string) (caps : list string)
  : option (nat * list string) :=
  match re with
  | [] => Some (pos, rev caps)
  | Atom a :: re' => match_atom a pos inp (fun p i => match_nodes re' p i caps)
  | Group body :: re' =>
      match_atoms body pos inp
        (fun p i => match_nodes re' p i (substring 0 (p - pos) inp :: caps))
  end.

Fixpoint find_from (re : Regexp) (pos : nat) (inp : string) : option (list string) :=
  match match_nodes re pos inp [] with
  | Some (p, caps) => Some (substring 0 (p - pos) inp :: caps)
  | None =>
      match inp with
      | String _ rest => find_from re (S pos) rest
      | EmptyString => None
      end
  end.

(** [re.FindStringSubmatch(s)]: the leftmost match and its groups, element
    0 being the whole match; [None] is Go's nil slice. *)
Definition FindStringSubmatch (re : Regexp) (s : string) : option (list string) :=
  find_from re 0 s.

(** [\d], [\s] (RE2: tab, newline, form feed, carriage return, space),
    [\S], [[\d,]], [[KMGT]] and [[^|]]. *)
Definition cls_d : ascii -> bool := is_digit.
Definition cls_s (c : ascii) : bool :=
  let n := nat_of_ascii c in
  Nat.eqb n 9 || Nat.eqb n 10 || Nat.eqb n 12 || Nat.eqb n 13 || Nat.eqb n 32.
Definition cls_S (c : ascii) : bool := negb (cls_s c).
Definition cls_d_comma (c : ascii) : bool := is_digit c || Ascii.eqb c ",".
Definition cls_KMGT (c : ascii) : bool :=
  Ascii.eqb c "K" || Ascii.eqb c "M" || Ascii.eqb c "G" || Ascii.eqb c "T".
Definition cls_not_pipe (c : ascii) : bool := negb (Ascii.eqb c "|").

End GoRegexp.
Import GoRegexp.

(** ** Package stats *)

(** DayStats represents statistics for a single day. *)
Record RepoStats := {
  Revisions : Z;
  RepoTotalSize : Z;
  UniqueSize : Z;
  RepoTotalChunks : Z
}.

Record DayStats := {
  TotalSize : Z;
  TotalChunks : Z;
  PrunedChunks : Z;
  PrunedRevisions : Z;
  Status : string;
  Repositories : gmap string RepoStats
}.

(** [Total chunk size is ([\d,]+[KMGT]?) in ([\d,]+) chunks] *)
Definition totalChunksRe : Regexp :=
  [ Atom (Lit "Total chunk size is ");
    Group [Plus cls_d_comma; Opt cls_KMGT];
    Atom (Lit " in ");
    Group [Plus cls_d_comma];
    Atom (Lit " chunks") ].

(** [^\s*(\S+)\s*\|\s*all\s*\|[^|]*\|[^|]*\|[^|]*\|\s*([\d,]+)\s*\|\s*([\d,]+[KMGT]?)\s*\|\s*([\d,]+)\s*\|\s*([\d,]+[KMGT]?)\s*\|] *)
Definition allRowRe : Regexp :=
  [ Atom Bol; Atom (Star cls_s); Group [Plus cls_S]; Atom (Star cls_s); Atom (Lit "|");
    Atom (Star cls_s); Atom (Lit "all"); Atom (Star cls_s); Atom (Lit "|");
    Atom (Star cls_not_pipe); Atom (Lit "|");
    Atom (Star cls_not_pipe); Atom (Lit "|");
    Atom (Star cls_not_pipe); Atom (Lit "|");
    Atom (Star cls_s); Group [Plus cls_d_comma]; Atom (Star cls_s); Atom (Lit "|");
    Atom (Star cls_s); Group [Plus cls_d_comma; Opt cls_KMGT]; Atom (Star cls_s); Atom (Lit "|");
    Atom (Star cls_s); Group [Plus cls_d_comma]; Atom (Star cls_s); Atom (Lit "|");
    Atom (Star cls_s); Group [Plus cls_d_comma; Opt cls_KMGT]; Atom (Star cls_s); Atom (Lit "|") ].

(** [^\s*(\S+)\s*\|\s*(\d+)\s*\|\s*@] *)
Definition revisionRe : Regexp :=
  [ Atom Bol; Atom (Star cls_s); Group [Plus cls_S]; Atom (Star cls_s); Atom (Lit "|");
    Atom (Star cls_s); Group [Plus cls_d]; Atom (Star cls_s); Atom (Lit "|");
    Atom (Star cls_s); Atom (Lit "@") ].

(** [s[len(s)-1]] and [s[:len(s)-1]] of a non-empty string. *)
Fixpoint last_byte (s : string) : ascii :=
  match s with
  | EmptyString => "000"%char
  | String c EmptyString => c
  | String _ s' => last_byte s'
  end.

Fixpoint drop_last (s : string) : string :=
  match s with
  | EmptyString => EmptyString
  | String _ EmptyString => EmptyString
  | String c s' => String c (drop_last s')
  end.

(** parseSize converts size strings like "4,617M", "8,853K", "123G", "456"
    to bytes. *)
Definition parseSize `{GoPlatform} (s : string) : Z * option error :=
  let s := GoStrings.TrimSpace s in
  let s := GoStrings.ReplaceAll s "," "" in
  if String.eqb s "" then (0, None)
  else
    let lastChar := last_byte s in
    let '(multiplier, s) :=
      if Ascii.eqb lastChar "K" then (1024, drop_last s)
      else if Ascii.eqb lastChar "M" then (1024 * 1024, drop_last s)
      else if Ascii.eqb lastChar "G" then (1024 * 1024 * 1024, drop_last s)
      else if Ascii.eqb lastChar "T" then (1024 * 1024 * 1024 * 1024, drop_last s)
      else (1, s) in
    match GoStrconv.ParseFloat s with
    | (_, Some err) => (0, Some (wrapErrorQ "failed to parse size" s err))
    | (val, None) =>
        (int64_of_float (float64_mul_pow2 val (float64_of_pow2 multiplier)), None)
    end.

(** parseNumber removes commas and parses an integer. *)
Definition parseNumber (s : string) : Z * option error :=
  let s := GoStrings.TrimSpace s in
  let s := GoStrings.ReplaceAll s "," "" in
  if String.eqb s "" then (0, None)
  else GoStrconv.ParseInt s.

(** [matches[i]]. *)
Definition group (matches : list string) (i : nat) : string := nth i matches "".

(** The state of the loop of [ParseCheckOutput]. *)
Record parseState := {
  stats : DayStats;
  revisionCounts : gmap string Z
}.

Definition set_TotalSize (d : DayStats) (v : Z) : DayStats :=
  {| TotalSize := v; TotalChunks := TotalChunks d; PrunedChunks := PrunedChunks d;
     PrunedRevisions := PrunedRevisions d; Status := Status d;
     Repositories := Repositories d |}.

Definition set_TotalChunks (d : DayStats) (v : Z) : DayStats :=
  {| TotalSize := TotalSize d; TotalChunks := v; PrunedChunks := PrunedChunks d;
     PrunedRevisions := PrunedRevisions d; Status := Status d;
     Repositories := Repositories d |}.

Definition set_Repository (d : DayStats) (name : string) (r : RepoStats) : DayStats :=
  {| TotalSize := TotalSize d; TotalChunks := TotalChunks d; PrunedChunks := PrunedChunks d;
     PrunedRevisions := PrunedRevisions d; Status := Status d;
     Repositories := <[name := r]> (Repositories d) |}.

(** [revisionCounts[repoName]]: a missing key reads as zero. *)
Definition count_of (m : gmap string Z) (name : string) : Z := default 0 (m !! name).

(** One iteration of the loop over the lines. *)
Definition parseLine `{GoPlatform} (st : parseState) (line : string) : parseState :=
  match FindStringSubmatch totalChunksRe line with
  | Some matches =>
      let '(size, err) := parseSize (group matches 1) in
      let d := match err with None => set_TotalSize (stats st) size | Some _ => stats st end in
      let '(chunks, err) := parseNumber (group matches 2) in
      let d := match err with None => set_TotalChunks d chunks | Some _ => d end in
      {| stats := d; revisionCounts := revisionCounts st |}
  | None =>
      match FindStringSubmatch revisionRe line with
      | Some matches =>
          let repoName := group matches 1 in
          {| stats := stats st;
             revisionCounts :=
               <[repoName := count_of (revisionCounts st) repoName + 1]> (revisionCounts st) |}
      | None =>
          match FindStringSubmatch allRowRe line with
          | Some matches =>
              let repoName := group matches 1 in
              let chunks := fst (parseNumber (group matches 2)) in
              let totalSize := fst (parseSize (group matches 3)) in
              let uniqueSize := fst (parseSize (group matches 5)) in
              {| stats :=
                   set_Repository (stats st) repoName
                     {| RepoTotalChunks := chunks;
                        RepoTotalSize := totalSize;
                        UniqueSize := uniqueSize;
                        Revisions := count_of (revisionCounts st) repoName |};
                 revisionCounts := revisionCounts st |}
          | None => st
          end
      end
  end.

Definition initState : parseState :=
  {| stats := {| TotalSize := 0; TotalChunks := 0; PrunedChunks := 0;
                 PrunedRevisions := 0; Status := "Checked"; Repositories := ∅ |};
     revisionCounts := ∅ |}.

Definition noReposError : error :=
  errorString "no repository statistics found in check output".

(** ParseCheckOutput parses duplicacy check -tabular output and returns
    DayStats; [(None, Some err)] is Go's [(nil, err)]. *)
Definition ParseCheckOutput `{GoPlatform} (output : string) : option DayStats * option error :=
  let lines := GoStrings.Split output "010" in
  let st := fold_left parseLine lines initState in
  if Nat.eqb (size (Repositories (stats st))) 0
  then (None, Some noReposError)
  else (Some (stats st), None).

(** ** Package executor *)

(** The bytes the literals of the source escape: double quote, backslash,
    newline. *)
Definition dquote : string := String "034" "".
Definition backslash : string := String "092" "".
Definition squote : string := "'".

(** Options configures the executor. *)
Record Options := {
  DryRun : bool;
  Verbose : bool;
  DockerContainer : string;
  SSHHost : string;
  SSHPassword : string;
  DuplicacyPath : string;
  RepoPath : string;
  CacheDir : string;
  StoragePassword : string;
  StoragePasswords : gmap string string;
  GCDToken : string
}.

(** Executor runs duplicacy commands.  [discoverOnce] is the done flag of
    the [sync.Once]. *)
Record Executor := {
  opts : Options;
  discoveredPath : string;
  discoverOnce : bool;
  discoverErr : option error
}.

(** New creates a new Executor. *)
Definition New (o : Options) : Executor :=
  {| opts := o; discoveredPath := ""; discoverOnce := false; discoverErr := None |}.

Definition nonempty (s : string) : bool := negb (String.eqb s "").

(** getStoragePassword returns the password for a storage, checking
    per-storage first then default. *)
Definition getStoragePassword (o : Options) (storageName : string) : string :=
  if nonempty storageName then
    match StoragePasswords o !! storageName with
    | Some pw => pw
    | None => StoragePassword o
    end
  else StoragePassword o.

(** The replacement text for a single quote: ['"'"']. *)
Definition squote_escape : string := squote +:+ dquote +:+ squote +:+ dquote +:+ squote.

Definition ssh_prefix : string := "ssh -o StrictHostKeyChecking=no -o LogLevel=ERROR ".

(** buildCommandWithStorage constructs the full command string with
    storage-specific password. *)
Definition buildCommandWithStorage `{GoPlatform} (o : Options)
    (duplicacyBin : string) (args : list string) (storageName : string) : string :=
  let duplicacyCmd := duplicacyBin +:+ " " +:+ GoStrings.Join args " " in
  let workDir := if nonempty (CacheDir o) then CacheDir o else RepoPath o in
  let duplicacyCmd :=
    if nonempty workDir then "cd " +:+ workDir +:+ " && " +:+ duplicacyCmd
    else duplicacyCmd in
  let duplicacyCmd :=
    if nonempty (DockerContainer o) then
      let password := getStoragePassword o storageName in
      if nonempty workDir || nonempty password then
        let shellCmd := duplicacyCmd in
        let shellCmd :=
          if nonempty password then
            let escapedPw := password in
            let escapedPw := GoStrings.ReplaceAll escapedPw backslash (backslash +:+ backslash) in
            let escapedPw := GoStrings.ReplaceAll escapedPw dquote (backslash +:+ dquote) in
            let escapedPw := GoStrings.ReplaceAll escapedPw "$" (backslash +:+ "$") in
            let escapedPw := GoStrings.ReplaceAll escapedPw "`" (backslash +:+ "`") in
            let exports := "export DUPLICACY_PASSWORD=" +:+ dquote +:+ escapedPw +:+ dquote in
            let exports :=
              if nonempty storageName then
                let upperName := GoStrings.ToUpper (GoStrings.ReplaceAll storageName "-" "_") in
                exports +:+ " && export DUPLICACY_" +:+ upperName +:+ "_PASSWORD="
                        +:+ dquote +:+ escapedPw +:+ dquote
              else exports in
            exports +:+ " && " +:+ shellCmd
          else shellCmd in
        let shellCmd :=
          if nonempty (GCDToken o) && nonempty storageName then
            let upperName := GoStrings.ToUpper (GoStrings.ReplaceAll storageName "-" "_") in
            let tokenExport := "export DUPLICACY_" +:+ upperName +:+ "_GCD_TOKEN="
                               +:+ dquote +:+ GCDToken o +:+ dquote in
            tokenExport +:+ " && " +:+ shellCmd
          else shellCmd in
        "docker exec " +:+ DockerContainer o +:+ " sh -c '" +:+ shellCmd +:+ "'"
      else
        "docker exec " +:+ DockerContainer o +:+ " " +:+ duplicacyCmd
    else duplicacyCmd in
  if nonempty (SSHHost o) then
    let escapedCmd := GoStrings.ReplaceAll duplicacyCmd squote squote_escape in
    let duplicacyCmd := ssh_prefix +:+ SSHHost o +:+ " '" +:+ escapedCmd +:+ "'" in
    if nonempty (SSHPassword o) then
      "sshpass -p '" +:+ GoStrings.ReplaceAll (SSHPassword o) squote squote_escape +:+ "' "
        +:+ duplicacyCmd
    else duplicacyCmd
  else duplicacyCmd.

(** buildCommand constructs the full command string (for backward
    compatibility). *)
Definition buildCommand `{GoPlatform} (o : Options) (duplicacyBin : string)
    (args : list string) : string :=
  buildCommandWithStorage o duplicacyBin args "".

(** *** Running processes

    [exec.Command("bash", "-c", cmd).Run()] is the only way the package
    starts a process.  Its outcome belongs to the environment: it is read
    from an oracle that sees the commands launched before. *)
Record RunResult := {
  run_err : option error;    (* what Run returned *)
  run_stdout : string;
  run_stderr : string
}.

Record World := {
  launched : list string;   (* the commands given to bash -c, latest first *)
  printed : list string     (* what was written to standard output, latest first *)
}.

Class OS := { bash_c : list string -> string -> RunResult }.

Definition launch `{OS} (cmd : string) (w : World) : RunResult * World :=
  (bash_c (launched w) cmd, {| launched := cmd :: launched w; printed := printed w |}).

Definition print (text : string) (w : World) : World :=
  {| launched := launched w; printed := text :: printed w |}.

(** A computation of the package: it reads and updates the executor and the
    world. *)
Definition Run (A : Type) : Type := Executor -> World -> A * Executor * World.

#[local] Instance run_ret : MRet Run := fun A a e w => (a, e, w).

#[local] Instance run_bind : MBind Run :=
  fun A B f m e w => let '(a, e', w') := m e w in f a e' w'.

Definition getOpts : Run Options := fun e w => (opts e, e, w).
Definition printf (text : string) : Run unit := fun e w => (tt, e, print text w).
Definition bash `{OS} (cmd : string) : Run RunResult :=
  fun e w => let '(r, w') := launch cmd w in (r, e, w').
Definition when (b : bool) (m : Run unit) : Run unit := if b then m else mret tt.

Definition newline : string := String "010" "".

Definition setDiscovered (path : string) : Run unit :=
  fun e w => (tt, {| opts := opts e; discoveredPath := path;
                     discoverOnce := discoverOnce e; discoverErr := discoverErr e |}, w).

Definition setDiscoverErr (err : error) : Run unit :=
  fun e w => (tt, {| opts := opts e; discoveredPath := discoveredPath e;
                     discoverOnce := discoverOnce e; discoverErr := Some err |}, w).

(** The function given to [discoverOnce.Do]. *)
Definition discoverBody `{OS} : Run unit :=
  o ← getOpts;
  if nonempty (DuplicacyPath o) then setDiscovered (DuplicacyPath o)
  else if negb (nonempty (DockerContainer o)) then setDiscovered "duplicacy"
  else if DryRun o then setDiscovered "duplicacy"
  else
    let searchCmd := "docker exec " +:+ DockerContainer o
      +:+ " sh -c 'ls /config/bin/duplicacy_linux_x64_* 2>/dev/null | head -1'" in
    let searchCmd :=
      if nonempty (SSHHost o) then
        let escapedCmd := GoStrings.ReplaceAll searchCmd squote squote_escape in
        let searchCmd := ssh_prefix +:+ SSHHost o +:+ " '" +:+ escapedCmd +:+ "'" in
        if nonempty (SSHPassword o) then
          "sshpass -p '" +:+ GoStrings.ReplaceAll (SSHPassword o) squote squote_escape +:+ "' "
            +:+ searchCmd
        else searchCmd
      else searchCmd in
    r ← bash searchCmd;
    match run_err r with
    | Some err => setDiscoverErr (wrapError "failed to discover duplicacy path" err)
    | None =>
        let path := GoStrings.TrimSpace (run_stdout r) in
        if String.eqb path "" then
          setDiscoverErr (errorString "duplicacy CLI not found in /config/bin/")
        else
          setDiscovered path;;
          when (Verbose o) (printf ("    Discovered duplicacy at: " +:+ path +:+ newline))
    end.

Definition getDiscovered : Run (string * option error) :=
  fun e w => ((discoveredPath e, discoverErr e), e, w).

(** [discoverOnce.Do(f)]: [f] runs on the first call only. *)
Definition onceDo (f : Run unit) : Run unit :=
  fun e w =>
    if discoverOnce e then (tt, e, w)
    else
      let '(_, e', w') := f e w in
      (tt, {| opts := opts e'; discoveredPath := discoveredPath e';
              discoverOnce := true; discoverErr := discoverErr e' |}, w').

(** discoverDuplicacyPath finds the duplicacy CLI binary in a Docker
    container. *)
Definition discoverDuplicacyPath `{OS} : Run (string * option error) :=
  onceDo discoverBody;;
  getDiscovered.

(** execute runs the command and streams output. *)
Definition execute `{OS} (cmdStr : string) : Run (option error) :=
  r ← bash cmdStr;
  match run_err r with
  | Some (ExitError code) => mret (Some (exitCodeError code None))
  | Some err => mret (Some err)
  | None => mret None
  end.

(** executeCapture runs the command and captures stdout. *)
Definition executeCapture `{OS} (cmdStr : string) : Run (string * option error) :=
  r ← bash cmdStr;
  match run_err r with
  | Some (ExitError code) =>
      mret (run_stdout r, Some (exitCodeError code (Some (run_stderr r))))
  | Some err => mret (run_stdout r, Some err)
  | None => mret (run_stdout r, None)
  end.

(** RunDuplicacyWithStorage executes a duplicacy command with
    storage-specific password. *)
Definition RunDuplicacyWithStorage `{GoPlatform} `{OS}
    (storageName : string) (args : list string) : Run (option error) :=
  '(duplicacyBin, err) ← discoverDuplicacyPath;
  match err with
  | Some err => mret (Some (wrapError "cannot find duplicacy" err))
  | None =>
      o ← getOpts;
      let cmdStr := buildCommandWithStorage o duplicacyBin args storageName in
      when (Verbose o || DryRun o) (printf ("    Command: " +:+ cmdStr +:+ newline));;
      if DryRun o then mret None
      else execute cmdStr
  end.

(** RunDuplicacy executes a duplicacy command with the given arguments. *)
Definition RunDuplicacy `{GoPlatform} `{OS} (args : list string) : Run (option error) :=
  RunDuplicacyWithStorage "" args.

(** RunDuplicacyCaptureWithStorage executes a duplicacy command and captures
    stdout. *)
Definition RunDuplicacyCaptureWithStorage `{GoPlatform} `{OS}
    (storageName : string) (args : list string) : Run (string * option error) :=
  '(duplicacyBin, err) ← discoverDuplicacyPath;
  match err with
  | Some err => mret ("", Some (wrapError "cannot find duplicacy" err))
  | None =>
      o ← getOpts;
      let cmdStr := buildCommandWithStorage o duplicacyBin args storageName in
      when (Verbose o || DryRun o) (printf ("    Command: " +:+ cmdStr +:+ newline));;
      if DryRun o then mret ("", None)
      else executeCapture cmdStr
  end.

(** ** Notions the properties are stated with *)

(** *** The layers of [buildCommandWithStorage] *)

(** The chain of replacements applied to the password (local [escapedPw]). *)
Definition escapedPw (password : string) : string :=
  let escapedPw := password in
  let escapedPw := GoStrings.ReplaceAll escapedPw backslash (backslash +:+ backslash) in
  let escapedPw := GoStrings.ReplaceAll escapedPw dquote (backslash +:+ dquote) in
  let escapedPw := GoStrings.ReplaceAll escapedPw "$" (backslash +:+ "$") in
  GoStrings.ReplaceAll escapedPw "`" (backslash +:+ "`").

(** The name of an entity inside a variable name (local [upperName]). *)
Definition upperName `{GoPlatform} (storageName : string) : string :=
  GoStrings.ToUpper (GoStrings.ReplaceAll storageName "-" "_").

(** Embedding of a string in a single-quoted word of the remote shell. *)
Definition singleQuoted (s : string) : string :=
  "'" +:+ GoStrings.ReplaceAll s squote squote_escape +:+ "'".

Definition workDirOf (o : Options) : string :=
  if nonempty (CacheDir o) then CacheDir o else RepoPath o.

Definition baseCommand (duplicacyBin : string) (args : list string) : string :=
  duplicacyBin +:+ " " +:+ GoStrings.Join args " ".

Definition cdLayer (o : Options) (cmd : string) : string :=
  if nonempty (workDirOf o) then "cd " +:+ workDirOf o +:+ " && " +:+ cmd else cmd.

(** The export statements of the credential, joined by [&&]. *)
Definition passwordExports `{GoPlatform} (password storageName : string) : string :=
  "export DUPLICACY_PASSWORD=" +:+ dquote +:+ escapedPw password +:+ dquote +:+
  (if nonempty storageName then
     " && export DUPLICACY_" +:+ upperName storageName +:+ "_PASSWORD="
       +:+ dquote +:+ escapedPw password +:+ dquote
   else "").

Definition tokenExport `{GoPlatform} (o : Options) (storageName : string) : string :=
  "export DUPLICACY_" +:+ upperName storageName +:+ "_GCD_TOKEN="
    +:+ dquote +:+ GCDToken o +:+ dquote.

Definition exportLayer `{GoPlatform} (o : Options) (storageName cmd : string) : string :=
  let password := getStoragePassword o storageName in
  (if nonempty (GCDToken o) && nonempty storageName
   then tokenExport o storageName +:+ " && " else "") +:+
  (if nonempty password
   then passwordExports password storageName +:+ " && " else "") +:+ cmd.

Definition containerLayer `{GoPlatform} (o : Options) (storageName cmd : string) : string :=
  if nonempty (DockerContainer o) then
    if nonempty (workDirOf o) || nonempty (getStoragePassword o storageName)
    then "docker exec " +:+ DockerContainer o +:+ " sh -c '"
           +:+ exportLayer o storageName cmd +:+ "'"
    else "docker exec " +:+ DockerContainer o +:+ " " +:+ cmd
  else cmd.

Definition remoteLayer (o : Options) (cmd : string) : string :=
  if nonempty (SSHHost o) then
    (if nonempty (SSHPassword o)
     then "sshpass -p " +:+ singleQuoted (SSHPassword o) +:+ " " else "") +:+
    ssh_prefix +:+ SSHHost o +:+ " " +:+ singleQuoted cmd
  else cmd.

(** *** Quoting in the POSIX shell (XCU 2.2.2 and 2.2.3)

    [dq_eval s] is the string denoted by the text [s] standing between two
    double quotes, when it denotes one without any expansion: a backslash
    escapes [$], a backquote, a double quote or a backslash, and is removed
    together with a following newline; before any other byte it stands for
    itself.  An unescaped [$] or backquote starts an expansion and an
    unescaped double quote ends the quoted text: there is no value then. *)
Definition dq_special (c : ascii) : bool :=
  Ascii.eqb c "$" || Ascii.eqb c "`" || Ascii.eqb c "034" || Ascii.eqb c "092".

Fixpoint dq_eval (s : string) : option string :=
  match s with
  | EmptyString => Some EmptyString
  | String c rest =>
      if Ascii.eqb c "092" then
        match rest with
        | EmptyString => None
        | String d rest' =>
            if dq_special d then String d <$> dq_eval rest'
            else if Ascii.eqb d "010" then dq_eval rest'
            else String c <$> dq_eval rest
        end
      else if dq_special c then None
      else String c <$> dq_eval rest
  end.

(** [word_eval Unquoted w] is the string denoted by a shell word [w] made of
    single-quoted and double-quoted pieces only; inside single quotes every
    byte stands for itself.  A byte outside quotes, an expansion or a quote
    left open give no value. *)
Inductive quoting := Unquoted | InSingle | InDouble.

Fixpoint word_eval (q : quoting) (w : string) : option string :=
  match w with
  | EmptyString => match q with Unquoted => Some EmptyString | _ => None end
  | String c rest =>
      match q with
      | Unquoted =>
          if Ascii.eqb c "'" then word_eval InSingle rest
          else if Ascii.eqb c "034" then word_eval InDouble rest
          else None
      | InSingle =>
          if Ascii.eqb c "'" then word_eval Unquoted rest
          else String c <$> word_eval InSingle rest
      | InDouble =>
          if Ascii.eqb c "034" then word_eval Unquoted rest
          else if Ascii.eqb c "092" then
            match rest with
            | EmptyString => None
            | String d rest' =>
                if dq_special d then String d <$> word_eval InDouble rest'
                else if Ascii.eqb d "010" then word_eval InDouble rest'
                else String c <$> word_eval InDouble rest
            end
          else if dq_special c then None
          else String c <$> word_eval InDouble rest
      end
  end.

(** *** Lines of a report *)

(** The branch of the loop body a line takes. *)
Inductive lineKind :=
| SummaryLine (matches : list string)
| RevisionLine (matches : list string)
| AllRow (matches : list string)
| OtherLine.

Definition classify (line : string) : lineKind :=
  match FindStringSubmatch totalChunksRe line with
  | Some m => SummaryLine m
  | None =>
      match FindStringSubmatch revisionRe line with
      | Some m => RevisionLine m
      | None =>
          match FindStringSubmatch allRowRe line with
          | Some m => AllRow m
          | None => OtherLine
          end
      end
  end.

Definition isRevisionOf (name line : string) : bool :=
  match classify line with
  | RevisionLine m => String.eqb (group m 1) name
  | _ => false
  end.

Definition isAllRowOf (name line : string) : bool :=
  match classify line with
  | AllRow m => String.eqb (group m 1) name
  | _ => false
  end.

(** *** Executors in use *)

(** The executors a program can hold: built by [New], then used through the
    two run operations, in any world. *)
Inductive reachable `{GoPlatform} `{OS} (o : Options) : Executor -> Prop :=
| reach_New : reachable o (New o)
| reach_Run e w storageName args :
    reachable o e ->
    reachable o (RunDuplicacyWithStorage storageName args e w).1.2
| reach_Capture e w storageName args :
    reachable o e ->
    reachable o (RunDuplicacyCaptureWithStorage storageName args e w).1.2.

(** *** Values used in the examples *)

(** A platform for evaluating the definitions on inputs that stay inside the
    modelled fragment: amd64 conversion of out-of-range floats, and no answer
    of its own elsewhere (never consulted by the examples). *)
Definition amd64 : GoPlatform :=
  {| ParseFloat_other := fun s => (NaN, Some (NumError "ParseFloat" s ErrSyntax));
     int64_out_of_range := fun _ => MinInt64;
     ToUpper_unicode := fun s => s |}.

(** A system on which every command fails with exit status 1. *)
Definition failingOS : OS :=
  {| bash_c := fun _ _ => {| run_err := Some (ExitError 1); run_stdout := ""; run_stderr := "" |} |}.

Definition emptyWorld : World := {| launched := []; printed := [] |}.

Definition noOptions : Options :=
  {| DryRun := false; Verbose := false; DockerContainer := ""; SSHHost := "";
     SSHPassword := ""; DuplicacyPath := ""; RepoPath := ""; CacheDir := "";
     StoragePassword := ""; StoragePasswords := ∅; GCDToken := "" |}.

Definition unlines (l : list string) : string := GoStrings.Join l newline.

(** *** Auxiliary notions of the proofs *)

(** Replacement of one byte: every occurrence of [a] becomes [new]. *)
Fixpoint subst_byte (a : ascii) (new s : string) : string :=
  match s with
  | EmptyString => EmptyString
  | String c s' =>
      if Ascii.eqb a c then new +:+ subst_byte a new s'
      else String c (subst_byte a new s')
  end.

Definition escape_byte (c : ascii) : string :=
  if dq_special c then String "092" (String c "") else String c "".

Fixpoint escape_bytes (s : string) : string :=
  match s with
  | EmptyString => EmptyString
  | String c s' => escape_byte c +:+ escape_bytes s'
  end.

(** The three fields the parser never writes. *)
Definition untouched (d : DayStats) : Prop :=
  Status d = "Checked" /\ PrunedChunks d = 0 /\ PrunedRevisions d = 0.

(** The bytes of the tokens the patterns capture: digits, commas and the
    four suffix letters. *)
Definition token_byte (c : ascii) : bool := cls_d_comma c || cls_KMGT c.

Definition token_bytes (s : string) : bool :=
  forallb token_byte (list_ascii_of_string s).

Definition commaDigits (s : string) : bool :=
  forallb cls_d_comma (list_ascii_of_string s).

Definition stripCommas (s : string) : string := subst_byte "," "" s.

(** The multiplier of a suffix. *)
Definition suffixMultiplier (sfx : string) : option Z :=
  if String.eqb sfx "" then Some 1
  else if String.eqb sfx "K" then Some 1024
  else if String.eqb sfx "M" then Some (1024 * 1024)
  else if String.eqb sfx "G" then Some (1024 * 1024 * 1024)
  else if String.eqb sfx "T" then Some (1024 * 1024 * 1024 * 1024)
  else None.

(** *** Further values used in the examples *)

Definition dockerDryRun : Options :=
  {| DryRun := true; Verbose := false; DockerContainer := "Duplicacy"; SSHHost := "";
     SSHPassword := ""; DuplicacyPath := ""; RepoPath := ""; CacheDir := "";
     StoragePassword := ""; StoragePasswords := ∅; GCDToken := "" |}.

Definition passwordOnly : Options :=
  {| DryRun := false; Verbose := false; DockerContainer := ""; SSHHost := "";
     SSHPassword := ""; DuplicacyPath := ""; RepoPath := ""; CacheDir := "";
     StoragePassword := "secret123"; StoragePasswords := ∅; GCDToken := "" |}.

Definition dockerWithPassword : Options :=
  {| DryRun := false; Verbose := false; DockerContainer := "Duplicacy"; SSHHost := "";
     SSHPassword := ""; DuplicacyPath := ""; RepoPath := ""; CacheDir := "";
     StoragePassword := "secret123"; StoragePasswords := ∅; GCDToken := "" |}.

Definition revisionLineX (rev : string) : string :=
  " X |   " +:+ rev +:+ " | @ 2025-10-13 20:34 -hash |    28 | 3,384M |    195 | 991,477K |   32 | 164,900K | 195 | 991,477K |".

Definition allRowX : string :=
  " X | all |                          |       |        |     25 |   4,608M |   25 |   4,608M |     |          |".

Definition fiveRevisionsX : list string :=
  map revisionLineX ["1"; "2"; "3"; "4"; "5"].

Definition summaryLine : string :=
  "2025-12-29 01:02:45.064 INFO SNAPSHOT_CHECK Total chunk size is 4,617M in 975 chunks".

(** ** Package config *)

(** Go's [int] arithmetic wraps around at 64 bits. *)
Definition wrap64 (z : Z) : Z := (z + 2 ^ 63) mod 2 ^ 64 - 2 ^ 63.

(** [fmt.Sprintf("%d", n)]. *)
Definition FormatInt (n : Z) : string := NilZero.string_of_int (Z.to_int n).

Module config.

(** RetentionConfig defines backup retention policy. *)
Record RetentionConfig := {
  Daily : Z;
  Weekly : Z;
  Monthly : Z;
  Days : Z;
  Weeks : Z
}.

(** StorageConfig defines per-storage settings. *)
Record StorageConfig := {
  StorageConfig_Retention : RetentionConfig
}.

(** ConnectionConfig holds connection settings. *)
Record ConnectionConfig := {
  Host : string;
  Container : string;
  GCDToken : string
}.

(** BackupConfig defines what to backup and where. *)
Record BackupConfig := {
  Name : string;
  Path : string;
  CacheDir : string;
  Destinations : list string;
  Retention : RetentionConfig;
  Threads : Z
}.

Record ForgejoNotificationConfig := {
  URL : string;
  Repo : string;
  Token : string;
  TokenEnv : string;
  Assignee : string
}.

Record NotificationConfig := {
  Forgejo : ForgejoNotificationConfig
}.

Record SSHConfig := {
  SSHConfig_Host : string;
  PasswordEnv : string
}.

Record DockerConfig := {
  DockerConfig_Container : string
}.

Record RepositoryConfig := {
  ID : string;
  RepositoryConfig_Path : string;
  Storage : list string;
  BackupOptions : string;
  Prune : bool;
  PruneOptions : string;
  Check : bool
}.

(** Config represents the duplicaci configuration file. *)
Record Config := {
  Connection : ConnectionConfig;
  Backups : list BackupConfig;
  Storages : gmap string StorageConfig;
  Maintenance : list string;
  Notifications : NotificationConfig;
  SSH : SSHConfig;
  Docker : DockerConfig;
  Repositories : list RepositoryConfig
}.

(** toPruneOptions is the internal implementation. *)
Definition toPruneOptions (r : RetentionConfig) (includeAll : bool) : string :=
  let allFlag := if includeAll then " -a" else "" in
  if (0 <? Days r) || (0 <? Weeks r) then
    let days := if Days r =? 0 then 14 else Days r in
    let weeks := if Weeks r =? 0 then 180 else Weeks r in
    "-keep 0:" +:+ FormatInt weeks +:+ " -keep 7:" +:+ FormatInt days
      +:+ " -keep 1:1" +:+ allFlag
  else
    let daily := if Daily r =? 0 then 7 else Daily r in
    let weekly := if Weekly r =? 0 then 4 else Weekly r in
    let monthly := Monthly r in
    let dailyEnd := daily in
    let weeklyEnd := wrap64 (dailyEnd + wrap64 (weekly * 7)) in
    if 0 <? monthly then
      let monthlyEnd := wrap64 (weeklyEnd + wrap64 (monthly * 30)) in
      "-keep 0:" +:+ FormatInt monthlyEnd +:+ " -keep 30:" +:+ FormatInt weeklyEnd
        +:+ " -keep 7:" +:+ FormatInt dailyEnd +:+ " -keep 1:1" +:+ allFlag
    else
      "-keep 0:" +:+ FormatInt weeklyEnd +:+ " -keep 7:" +:+ FormatInt dailyEnd
        +:+ " -keep 1:1" +:+ allFlag.

(** ToPruneOptions converts retention config to duplicacy prune options
    (with -a flag). *)
Definition ToPruneOptions (r : RetentionConfig) : string := toPruneOptions r true.

(** ToPruneOptionsWithoutAll converts retention config to prune options
    without -a flag. *)
Definition ToPruneOptionsWithoutAll (r : RetentionConfig) : string := toPruneOptions r false.

(** The body of the loop of [applyDefaults] over the backups. *)
Definition applyBackupDefaults (b : BackupConfig) : BackupConfig :=
  let r := Retention b in
  let r :=
    if (Days r =? 0) && (Weeks r =? 0) then
      {| Daily := if Daily r =? 0 then 7 else Daily r;
         Weekly := if Weekly r =? 0 then 4 else Weekly r;
         Monthly := Monthly r; Days := Days r; Weeks := Weeks r |}
    else r in
  {| Name := Name b; Path := Path b; CacheDir := CacheDir b;
     Destinations := Destinations b; Retention := r;
     Threads := if Threads b =? 0 then 1 else Threads b |}.

(** applyDefaults sets default values for optional fields. *)
Definition applyDefaults (c : Config) : Config :=
  let conn := Connection c in
  let gcd := if String.eqb (GCDToken conn) "" then "/config/gcd-token.json" else GCDToken conn in
  let backups := map applyBackupDefaults (Backups c) in
  let host :=
    if String.eqb (Host conn) "" && negb (String.eqb (SSHConfig_Host (SSH c)) "")
    then SSHConfig_Host (SSH c) else Host conn in
  let container :=
    if String.eqb (Container conn) "" && negb (String.eqb (DockerConfig_Container (Docker c)) "")
    then DockerConfig_Container (Docker c) else Container conn in
  {| Connection := {| Host := host; Container := container; GCDToken := gcd |};
     Backups := backups; Storages := Storages c; Maintenance := Maintenance c;
     Notifications := Notifications c; SSH := SSH c; Docker := Docker c;
     Repositories := Repositories c |}.

(** The loop of [Validate], from index [i] on. *)
Fixpoint validateBackups (i : Z) (bs : list BackupConfig) : option error :=
  match bs with
  | [] => None
  | b :: bs' =>
      if String.eqb (Name b) "" then
        Some (errorString ("backup[" +:+ FormatInt i +:+ "]: name is required"))
      else if Nat.eqb (length (Destinations b)) 0 then
        Some (errorString ("backup[" +:+ FormatInt i +:+ "] (" +:+ Name b
                             +:+ "): at least one destination is required"))
      else validateBackups (i + 1) bs'
  end.

(** Validate checks the config for required fields. *)
Definition Validate (c : Config) : option error :=
  if Nat.eqb (length (Backups c)) 0 && Nat.eqb (length (Repositories c)) 0
  then Some (errorString "no backups defined")
  else validateBackups 0 (Backups c).

(** [if !seen[x] { seen[x] = true; storages = append(storages, x) }] *)
Definition addStorage (st : gmap string bool * list string) (x : string)
  : gmap string bool * list string :=
  if negb (default false (st.1 !! x))
  then (<[x := true]> st.1, (st.2 ++ [x])%list)
  else st.

(** AllStorages returns a deduplicated list of all storage backends. *)
Definition AllStorages (c : Config) : list string :=
  let st := (∅, []) in
  let st := fold_left (fun st b => fold_left addStorage (Destinations b) st) (Backups c) st in
  let st := fold_left addStorage (Maintenance c) st in
  st.2.

Definition zeroRetention : RetentionConfig :=
  {| Daily := 0; Weekly := 0; Monthly := 0; Days := 0; Weeks := 0 |}.

(** GetStorageRetention returns the retention config for a storage, if
    defined. *)
Definition GetStorageRetention (c : Config) (storage : string) : RetentionConfig * bool :=
  match Storages c !! storage with
  | Some sc => (StorageConfig_Retention sc, true)
  | None => (zeroRetention, false)
  end.

(** GetBackupRetention returns the retention config for a specific backup. *)
Definition GetBackupRetention (c : Config) (backupName : string) : RetentionConfig :=
  match List.find (fun b => String.eqb (Name b) backupName) (Backups c) with
  | Some b => Retention b
  | None => {| Daily := 7; Weekly := 4; Monthly := 0; Days := 0; Weeks := 0 |}
  end.

(** HasStorageLevelRetention checks if any storage has retention defined. *)
Definition HasStorageLevelRetention (c : Config) : bool :=
  (0 <? size (Storages c))%nat.

(** BackupsForStorage returns all backup names that target a specific
    storage. *)
Definition BackupsForStorage (c : Config) (storage : string) : list string :=
  fold_left
    (fun backups b =>
       if existsb (fun d => String.eqb d storage) (Destinations b)
       then (backups ++ [Name b])%list else backups)
    (Backups c) [].

End config.

(** ** Package stats: FormatBytes *)

(** [float64(n)] for an integer [n]: the nearest binary64 value. *)
Definition float64_of_int (n : Z) : float64 :=
  let '(m, e) := GoStrconv.round53 (Z.abs n) in Finite (n <? 0) m e.

(** [x / y] where [y] is a positive power of two: the quotient is exact. *)
Definition float64_div_pow2 (x y : float64) : float64 :=
  match x, y with
  | Finite neg m e, Finite false my ey => Finite neg m (e - ey - Z.log2 my)
  | _, _ => x
  end.

(** [fmt.Sprintf("%.1f", f)]: the exact value rounded to one decimal, ties
    to the even digit. *)
Definition FormatFloat1 (f : float64) : string :=
  match f with
  | Finite neg m e =>
      let num := if 0 <=? e then 10 * m * 2 ^ e else 10 * m in
      let den := if 0 <=? e then 1 else 2 ^ (- e) in
      let t := num / den in
      let r := num mod den in
      let t := if (den <? 2 * r) || ((2 * r =? den) && Z.odd t) then t + 1 else t in
      (if neg then "-" else "") +:+ FormatInt (t / 10) +:+ "." +:+ FormatInt (t mod 10)
  | Inf neg => if neg then "-Inf" else "+Inf"
  | NaN => "NaN"
  end.

(** The loop [for n := bytes / unit; n >= unit; n /= unit { div *= unit; exp++ }]. *)
Fixpoint formatBytesLoop (fuel : nat) (n div exp : Z) : Z * Z :=
  match fuel with
  | O => (div, exp)
  | S fuel' =>
      if 1024 <=? n
      then formatBytesLoop fuel' (Z.quot n 1024) (wrap64 (div * 1024)) (exp + 1)
      else (div, exp)
  end.

(** ["KMGTPE"[exp]]; [None] is the run-time panic of an index out of range. *)
Definition unitLetter (exp : Z) : option ascii :=
  if (exp <? 0) then None else String.get (Z.to_nat exp) "KMGTPE".

(** FormatBytes formats bytes into human-readable format (e.g., "1.5 GB").
    The loop divides [n] by 1024 at each round, so 64 rounds exhaust every
    int64. *)
Definition FormatBytes (bytes : Z) : option string :=
  if bytes <? 1024 then Some (FormatInt bytes +:+ " B")
  else
    let '(div, exp) := formatBytesLoop 64 (Z.quot bytes 1024) 1024 0 in
    match unitLetter exp with
    | None => None
    | Some c =>
        Some (FormatFloat1 (float64_div_pow2 (float64_of_int bytes) (float64_of_int div))
                +:+ " " +:+ String c "B")
    end.

(** The state of the loops of [AllStorages]: [seen] marks exactly the
    entries of [storages], which are pairwise distinct. *)
Definition storagesInv (st : gmap string bool * list string) : Prop :=
  (forall x, default false (st.1 !! x) = true <-> In x st.2) /\ List.NoDup st.2.

(** ** Package executor: notions for the properties of discovery *)

(** The command of the discovery, before the remote wrapping. *)
Definition searchCommand (o : Options) : string :=
  "docker exec " +:+ DockerContainer o
    +:+ " sh -c 'ls /config/bin/duplicacy_linux_x64_* 2>/dev/null | head -1'".

(** [Options] with one more per-storage password. *)
Definition withStoragePassword (o : Options) (k v : string) : Options :=
  {| DryRun := DryRun o; Verbose := Verbose o; DockerContainer := DockerContainer o;
     SSHHost := SSHHost o; SSHPassword := SSHPassword o; DuplicacyPath := DuplicacyPath o;
     RepoPath := RepoPath o; CacheDir := CacheDir o; StoragePassword := StoragePassword o;
     StoragePasswords := <[k := v]> (StoragePasswords o); GCDToken := GCDToken o |}.

(** An executor that must discover the binary inside the container, with a
    system on which every command fails. *)
Definition dockerOptions : Options :=
  {| DryRun := false; Verbose := false; DockerContainer := "Duplicacy"; SSHHost := "";
     SSHPassword := ""; DuplicacyPath := ""; RepoPath := ""; CacheDir := "";
     StoragePassword := ""; StoragePasswords := ∅; GCDToken := "" |}.

Definition explicitPathOptions : Options :=
  {| DryRun := false; Verbose := false; DockerContainer := "Duplicacy"; SSHHost := "";
     SSHPassword := ""; DuplicacyPath := "/usr/bin/duplicacy"; RepoPath := ""; CacheDir := "";
     StoragePassword := ""; StoragePasswords := ∅; GCDToken := "" |}.

(** ** Package stats: the writer of the stats files *)

Module writer.

(** Writer handles updating stats files via SSH/Docker. *)
Record Writer := {
  SSHHost : string;
  SSHPassword : string;
  DockerContainer : string;
  StatsPath : string;
  DryRun : bool;
  Verbose : bool
}.

(** NewWriter creates a new stats writer. *)
Definition NewWriter (sshHost sshPassword dockerContainer : string) : Writer :=
  {| SSHHost := sshHost; SSHPassword := sshPassword; DockerContainer := dockerContainer;
     StatsPath := "/config/stats/storages"; DryRun := false; Verbose := false |}.

(** StorageStats represents the stats file structure (date -> stats); a
    value is a pointer, [None] being the nil pointer. *)
Definition StorageStats : Type := gmap string (option DayStats).

(** The errors the writer builds. *)
Inductive werror :=
| runError (err : error)                       (* what cmd.Run returned *)
| commandFailed (err : error) (stderr : string) (* "command failed: %w (stderr: %s)" *)
| readFailed (inner : werror)                   (* "failed to read stats file: %w" *)
| marshalFailed (err : error)                   (* "failed to marshal stats: %w" *)
| writeFailed (inner : werror).                 (* "failed to write stats file: %w" *)

(** The result of [json.Unmarshal] into a nil [StorageStats] variable: an
    error, no error with the variable left nil (the JSON value null), or no
    error with a map. *)
Inductive Unmarshaled :=
| UnmarshalError (err : error)
| UnmarshalNil
| UnmarshalMap (m : StorageStats).

(** [encoding/json] and the clock are outside the model. *)
Class Env := {
  json_Unmarshal : string -> Unmarshaled;
  json_MarshalIndent : StorageStats -> string * option error;
  TodayDate : World -> string
}.

(** A call either returns or panics (assignment to an entry of a nil map). *)
Inductive outcome (A : Type) :=
| Returned (a : A)
| Panicked.
Arguments Returned {A} a.
Arguments Panicked {A}.

(** buildDockerCommand constructs a command to run inside the Docker
    container. *)
Definition buildDockerCommand (w : Writer) (shellCmd : string) : string :=
  let dockerCmd := "docker exec " +:+ DockerContainer w +:+ " sh -c '" +:+ shellCmd +:+ "'" in
  if nonempty (SSHHost w) then
    let escapedCmd := GoStrings.ReplaceAll dockerCmd squote squote_escape in
    let dockerCmd := ssh_prefix +:+ SSHHost w +:+ " '" +:+ escapedCmd +:+ "'" in
    if nonempty (SSHPassword w) then
      "sshpass -p '" +:+ GoStrings.ReplaceAll (SSHPassword w) squote squote_escape +:+ "' "
        +:+ dockerCmd
    else dockerCmd
  else dockerCmd.

(** executeCapture runs a command and returns stdout. *)
Definition executeCapture `{OS} (cmdStr : string) (wd : World)
  : (string * option werror) * World :=
  let '(r, wd) := launch cmdStr wd in
  match run_err r with
  | Some err => (("", Some (commandFailed err (run_stderr r))), wd)
  | None => ((GoStrings.TrimSpace (run_stdout r), None), wd)
  end.

(** execute runs a command and streams output. *)
Definition execute `{OS} (cmdStr : string) (wd : World) : option werror * World :=
  let '(r, wd) := launch cmdStr wd in
  (option_map runError (run_err r), wd).

(** readStatsFile reads and parses a stats file from the Docker container;
    the first component is [None] for a nil map. *)
Definition readStatsFile `{OS} `{Env} (w : Writer) (path : string) (wd : World)
  : (option StorageStats * option werror) * World :=
  let cmd := buildDockerCommand w ("cat " +:+ path +:+ " 2>/dev/null || echo '{}'") in
  let wd := if Verbose w then print ("    Reading stats: " +:+ path +:+ newline) wd else wd in
  let '((output, err), wd) := executeCapture cmd wd in
  match err with
  | Some err => ((None, Some (readFailed err)), wd)
  | None =>
      match json_Unmarshal output with
      | UnmarshalError _ => ((Some ∅, None), wd)
      | UnmarshalNil => ((None, None), wd)
      | UnmarshalMap m => ((Some m, None), wd)
      end
  end.

(** writeStatsFile writes stats to a file in the Docker container. *)
Definition writeStatsFile `{OS} `{Env} (w : Writer) (path : string) (stats : StorageStats)
    (wd : World) : option werror * World :=
  let '(data, err) := json_MarshalIndent stats in
  match err with
  | Some err => (Some (marshalFailed err), wd)
  | None =>
      if DryRun w then
        (None, print ("    [DRY-RUN] Would write to " +:+ path +:+ ":" +:+ newline
                        +:+ data +:+ newline) wd)
      else
        let escapedJSON := GoStrings.ReplaceAll data squote squote_escape in
        let cmd := buildDockerCommand w
                     ("cat > " +:+ path +:+ " << 'STATSEOF'" +:+ newline
                        +:+ escapedJSON +:+ newline +:+ "STATSEOF") in
        let wd := if Verbose w then print ("    Writing stats: " +:+ path +:+ newline) wd
                  else wd in
        let '(err, wd) := execute cmd wd in
        match err with
        | Some err => (Some (writeFailed err), wd)
        | None => (None, wd)
        end
  end.

(** UpdateStorageStats reads existing stats, adds today's entry, writes
    back. *)
Definition UpdateStorageStats `{OS} `{Env} (w : Writer) (storage : string)
    (dayStats : option DayStats) (wd : World) : outcome (option werror) * World :=
  let statsFile := StatsPath w +:+ "/" +:+ storage +:+ ".stats" in
  let '((existingStats, err), wd) := readStatsFile w statsFile wd in
  let existingStats := match err with Some _ => Some ∅ | None => existingStats end in
  let today := TodayDate wd in
  match existingStats with
  | None => (Panicked, wd)
  | Some m =>
      let '(err, wd) := writeStatsFile w statsFile (<[today := dayStats]> m) wd in
      (Returned err, wd)
  end.

(** The command that reads the stats file of a storage. *)
Definition readCommand (w : Writer) (storage : string) : string :=
  buildDockerCommand w
    ("cat " +:+ StatsPath w +:+ "/" +:+ storage +:+ ".stats" +:+ " 2>/dev/null || echo '{}'").

End writer.

(** An environment in which every stats file decodes to JSON null. *)
Definition nullEnv : writer.Env :=
  {| writer.json_Unmarshal := fun _ => writer.UnmarshalNil;
     writer.json_MarshalIndent := fun _ => ("{}", None);
     writer.TodayDate := fun _ => "2025-01-01" |}.

(** A system on which every command succeeds and prints nothing. *)
Definition silentOS : OS :=
  {| bash_c := fun _ _ => {| run_err := None; run_stdout := ""; run_stderr := "" |} |}.

(** ** The texts the patterns capture *)

(** The texts an atom matches at position [pos]. *)
Definition atom_lang (a : atom) (pos : nat) (s : string) : Prop :=
  match a with
  | Lit l => s = l
  | Star cls => forallb cls (list_ascii_of_string s) = true
  | Plus cls => s <> "" /\ forallb cls (list_ascii_of_string s) = true
  | Opt cls => s = "" \/ exists c, s = String c "" /\ cls c = true
  | Bol => s = "" /\ pos = 0%nat
  end.

(** The texts a sequence of atoms matches: one text per atom, in a row. *)
Fixpoint atoms_lang (l : list atom) (pos : nat) (s : string) : Prop :=
  match l with
  | [] => s = ""
  | a :: l' =>
      exists s1 s2, s = s1 +:+ s2 /\ atom_lang a pos s1 /\
                    atoms_lang l' (pos + String.length s1) s2
  end.

(** The bodies of the capture groups of a pattern, in order. *)
Fixpoint groups (re : Regexp) : list (list atom) :=
  match re with
  | [] => []
  | Atom _ :: re' => groups re'
  | Group body :: re' => body :: groups re'
  end.

(** A size token: digits and commas, at least one, then at most one of the
    letters K, M, G, T.  A number token: digits and commas, at least one. *)
Definition number_token (s : string) : Prop := s <> "" /\ commaDigits s = true.

Definition size_token (s : string) : Prop :=
  exists t sfx, s = t +:+ sfx /\ number_token t /\
                (sfx = "" \/ exists c, sfx = String c "" /\ cls_KMGT c = true).

(** ** Single quotes inside the container command *)

(** Whether a string holds a single quote. *)
Definition hasQuote (s : string) : bool :=
  existsb (Ascii.eqb "'") (list_ascii_of_string s).

(** The bytes a word must spend on quotes in each state of [word_eval]. *)
Definition closing_cost (q : quoting) : nat :=
  match q with Unquoted => 0 | InSingle => 1 | InDouble => 1 end.

Definition quotedPasswordOptions : Options :=
  {| DryRun := false; Verbose := false; DockerContainer := "Duplicacy"; SSHHost := "";
     SSHPassword := ""; DuplicacyPath := ""; RepoPath := ""; CacheDir := "";
     StoragePassword := "it's"; StoragePasswords := ∅; GCDToken := "" |}.

Definition tokenOnlyOptions : Options :=
  {| DryRun := false; Verbose := false; DockerContainer := "Duplicacy"; SSHHost := "";
     SSHPassword := ""; DuplicacyPath := ""; RepoPath := ""; CacheDir := "";
     StoragePassword := ""; StoragePasswords := ∅; GCDToken := "/config/gcd-token.json" |}.

(** A configuration with one backup to two storages and a maintenance-only
    storage. *)
Definition sampleBackup : config.BackupConfig :=
  {| config.Name := "appdata"; config.Path := "/mnt/appdata"; config.CacheDir := "";
     config.Destinations := ["gdrive"; "local"]; config.Retention := config.zeroRetention;
     config.Threads := 0 |}.

Definition sampleConfig : config.Config :=
  {| config.Connection := {| config.Host := ""; config.Container := ""; config.GCDToken := "" |};
     config.Backups := [sampleBackup];
     config.Storages := ∅;
     config.Maintenance := ["offsite"; "gdrive"];
     config.Notifications :=
       {| config.Forgejo := {| config.URL := ""; config.Repo := ""; config.Token := "";
                               config.TokenEnv := ""; config.Assignee := "" |} |};
     config.SSH := {| config.SSHConfig_Host := "root@nas"; config.PasswordEnv := "" |};
     config.Docker := {| config.DockerConfig_Container := "Duplicacy" |};
     config.Repositories := [] |}.

(** ** Strings *)

#[local] Arguments String.append !s1 s2.

Lemma append_assoc (a b c : string) : (a +:+ b) +:+ c = a +:+ (b +:+ c).
Proof. induction a as [|x a IH]; simpl; [reflexivity | f_equal; exact IH]. Qed.

Lemma append_empty_r (a : string) : a +:+ "" = a.
Proof. induction a as [|x a IH]; simpl; [reflexivity | f_equal; exact IH]. Qed.

Lemma ReplaceAll_byte (a : ascii) (new s : string) :
  GoStrings.ReplaceAll s (String a "") new = subst_byte a new s.
Proof.
  unfold GoStrings.ReplaceAll.
  induction s as [|c s IH]; simpl; [reflexivity|].
  destruct (ascii_dec a c) as [->|Hne].
  - rewrite Ascii.eqb_refl, IH. destruct s; reflexivity.
  - apply Ascii.eqb_neq in Hne. rewrite Hne, IH. reflexivity.
Qed.

Lemma subst_byte_app (a : ascii) (new x y : string) :
  subst_byte a new (x +:+ y) = subst_byte a new x +:+ subst_byte a new y.
Proof.
  induction x as [|c x IH]; [reflexivity|].
  change (String c x +:+ y) with (String c (x +:+ y)).
  cbn [subst_byte]. rewrite IH.
  destruct (Ascii.eqb a c); [symmetry; apply append_assoc | reflexivity].
Qed.

Section Composer.
Context {P : GoPlatform}.

Lemma buildCommandWithStorage_layers o duplicacyBin args storageName :
  buildCommandWithStorage o duplicacyBin args storageName =
  remoteLayer o (containerLayer o storageName (cdLayer o (baseCommand duplicacyBin args))).
Proof.
  unfold buildCommandWithStorage, remoteLayer, containerLayer, cdLayer, exportLayer,
    passwordExports, tokenExport, singleQuoted, baseCommand, upperName, escapedPw.
  fold (workDirOf o).
  destruct (nonempty (workDirOf o)), (nonempty (DockerContainer o)),
    (nonempty (getStoragePassword o storageName)), (nonempty storageName),
    (nonempty (GCDToken o)), (nonempty (SSHHost o)), (nonempty (SSHPassword o));
    cbn [orb andb]; repeat rewrite !append_assoc; reflexivity.
Qed.
End Composer.

(** ** The command composer *)

Section ComposerProperties.
Context {P : GoPlatform}.

Lemma nonempty_true (s : string) : s <> "" -> nonempty s = true.
Proof. intros Hs. unfold nonempty. now destruct (String.eqb_spec s ""). Qed.

Lemma buildCommandWithStorage_exports o duplicacyBin args storageName :
  DockerContainer o <> "" ->
  getStoragePassword o storageName <> "" ->
  buildCommandWithStorage o duplicacyBin args storageName =
  remoteLayer o
    ("docker exec " +:+ DockerContainer o +:+ " sh -c '" +:+
     ((if nonempty (GCDToken o) && nonempty storageName
       then tokenExport o storageName +:+ " && " else "") +:+
      ("export DUPLICACY_PASSWORD=" +:+ dquote
         +:+ escapedPw (getStoragePassword o storageName) +:+ dquote +:+
       (if nonempty storageName then
          " && export DUPLICACY_"
            +:+ GoStrings.ToUpper (GoStrings.ReplaceAll storageName "-" "_")
            +:+ "_PASSWORD=" +:+ dquote
            +:+ escapedPw (getStoragePassword o storageName) +:+ dquote
        else "")) +:+ " && " +:+
      cdLayer o (baseCommand duplicacyBin args)) +:+ "'").
Proof.
  intros Hc Hp. rewrite buildCommandWithStorage_layers.
  unfold containerLayer, exportLayer, passwordExports, upperName.
  rewrite (nonempty_true _ Hc), (nonempty_true _ Hp), orb_true_r.
  rewrite !append_assoc. reflexivity.
Qed.

Lemma buildCommandWithStorage_no_container o duplicacyBin args storageName :
  DockerContainer o = "" ->
  buildCommandWithStorage o duplicacyBin args storageName =
  remoteLayer o (cdLayer o (baseCommand duplicacyBin args)).
Proof.
  intros Hc. rewrite buildCommandWithStorage_layers.
  unfold containerLayer. rewrite Hc. reflexivity.
Qed.

(** C1 (as amended): when a container name is set and the effective
    credential of the entity (the result of [getStoragePassword]) is not
    empty, the command run by the shell inside the container is the
    working-directory-prefixed command preceded by the export of the
    generic credential variable and, when an entity name was given, of the
    entity-specific variable, all joined by [&&] (the token export, if any,
    comes first); the remote wrapping is applied around it.  When no
    container name is set, no credential is exported, whatever the
    credential: the command is the working-directory-prefixed command
    itself, inside the remote wrapping. *)
Theorem buildCommand_exports_in_container o duplicacyBin args storageName :
  (DockerContainer o <> "" ->
   getStoragePassword o storageName <> "" ->
   buildCommandWithStorage o duplicacyBin args storageName =
   remoteLayer o
     ("docker exec " +:+ DockerContainer o +:+ " sh -c '" +:+
      ((if nonempty (GCDToken o) && nonempty storageName
        then tokenExport o storageName +:+ " && " else "") +:+
       ("export DUPLICACY_PASSWORD=" +:+ dquote
          +:+ escapedPw (getStoragePassword o storageName) +:+ dquote +:+
        (if nonempty storageName then
           " && export DUPLICACY_"
             +:+ GoStrings.ToUpper (GoStrings.ReplaceAll storageName "-" "_")
             +:+ "_PASSWORD=" +:+ dquote
             +:+ escapedPw (getStoragePassword o storageName) +:+ dquote
         else "")) +:+ " && " +:+
       cdLayer o (baseCommand duplicacyBin args)) +:+ "'")) /\
  (DockerContainer o = "" ->
   buildCommandWithStorage o duplicacyBin args storageName =
   remoteLayer o
     (if nonempty (workDirOf o)
      then "cd " +:+ workDirOf o +:+ " && " +:+ duplicacyBin +:+ " " +:+ GoStrings.Join args " "
      else duplicacyBin +:+ " " +:+ GoStrings.Join args " ")).
Proof.
  split.
  - apply buildCommandWithStorage_exports.
  - intros Hc. rewrite (buildCommandWithStorage_no_container _ _ _ _ Hc).
    unfold cdLayer, baseCommand. reflexivity.
Qed.

(** C6: the layers are applied in the order base command, working
    directory, exports, container, remote shell: the container wrapping
    (with the exports and the directory change inside its shell) is the
    argument of the remote wrapping.  With container [C] only, the
    arguments [list -storage test] give [docker exec C <binary> list
    -storage test], without an inner shell. *)
Theorem buildCommand_layer_order :
  (forall o duplicacyBin args storageName,
      buildCommandWithStorage o duplicacyBin args storageName =
      remoteLayer o
        (containerLayer o storageName (cdLayer o (baseCommand duplicacyBin args)))) /\
  (forall duplicacyBin,
      buildCommand
        {| DryRun := false; Verbose := false; DockerContainer := "C"; SSHHost := "";
           SSHPassword := ""; DuplicacyPath := ""; RepoPath := ""; CacheDir := "";
           StoragePassword := ""; StoragePasswords := ∅; GCDToken := "" |}
        duplicacyBin ["list"; "-storage"; "test"] =
      "docker exec C " +:+ duplicacyBin +:+ " list -storage test") /\
  (forall duplicacyBin host,
      buildCommand
        {| DryRun := false; Verbose := false; DockerContainer := "C"; SSHHost := host;
           SSHPassword := ""; DuplicacyPath := ""; RepoPath := ""; CacheDir := "";
           StoragePassword := ""; StoragePasswords := ∅; GCDToken := "" |}
        duplicacyBin ["list"; "-storage"; "test"] =
      if nonempty host
      then ssh_prefix +:+ host +:+ " " +:+
           singleQuoted ("docker exec C " +:+ duplicacyBin +:+ " list -storage test")
      else "docker exec C " +:+ duplicacyBin +:+ " list -storage test").
Proof.
  split; [exact buildCommandWithStorage_layers|].
  split; intros; unfold buildCommand; rewrite buildCommandWithStorage_layers.
  - reflexivity.
  - unfold remoteLayer. cbn [SSHHost SSHPassword]. destruct (nonempty host); reflexivity.
Qed.
End ComposerProperties.

(** *** Quoting *)

Lemma escapedPw_bytes (pw : string) : escapedPw pw = escape_bytes pw.
Proof.
  unfold escapedPw, backslash, dquote.
  change "$" with (String "$"%char "") at 1. change "`" with (String "`"%char "") at 1.
  rewrite !ReplaceAll_byte.
  induction pw as [|c pw IH]; [reflexivity|].
  cbn [subst_byte escape_bytes].
  destruct (Ascii.eqb_spec "092" c) as [<-|H1].
  { rewrite !subst_byte_app, IH. reflexivity. }
  cbn [subst_byte].
  destruct (Ascii.eqb_spec "034" c) as [<-|H2].
  { rewrite !subst_byte_app, IH. reflexivity. }
  cbn [subst_byte].
  destruct (Ascii.eqb_spec "$" c) as [<-|H3].
  { rewrite !subst_byte_app, IH. reflexivity. }
  cbn [subst_byte].
  destruct (Ascii.eqb_spec "`" c) as [<-|H4].
  { rewrite IH. reflexivity. }
  rewrite IH. unfold escape_byte, dq_special.
  rewrite (proj2 (Ascii.eqb_neq c "$")), (proj2 (Ascii.eqb_neq c "`")),
    (proj2 (Ascii.eqb_neq c "034")), (proj2 (Ascii.eqb_neq c "092")) by congruence.
  reflexivity.
Qed.

Lemma dq_eval_escapedPw (pw : string) : dq_eval (escapedPw pw) = Some pw.
Proof.
  rewrite escapedPw_bytes.
  induction pw as [|c pw IH]; [reflexivity|].
  cbn [escape_bytes]. unfold escape_byte.
  destruct (dq_special c) eqn:Hc.
  - cbn [String.append dq_eval]. rewrite Ascii.eqb_refl, Hc, IH. reflexivity.
  - cbn [String.append dq_eval]. rewrite Hc.
    assert (Ascii.eqb c "092" = false) as ->.
    { unfold dq_special in Hc. rewrite !orb_false_iff in Hc. tauto. }
    rewrite IH. reflexivity.
Qed.

(** C4: the password escaped by the four replacements (backslash, double
    quote, dollar, backquote, in this order), read back as the content of a
    double-quoted string of the POSIX shell, is the password itself; and
    this escaped text is what [buildCommandWithStorage] puts between the
    double quotes of every credential export it composes: the text found
    there reads back as the effective credential, for every credential. *)
Theorem escapedPw_roundtrip `{GoPlatform} :
  (forall pw, dq_eval (escapedPw pw) = Some pw) /\
  (forall o duplicacyBin args storageName,
      DockerContainer o <> "" ->
      getStoragePassword o storageName <> "" ->
      exists quoted,
        dq_eval quoted = Some (getStoragePassword o storageName) /\
        buildCommandWithStorage o duplicacyBin args storageName =
        remoteLayer o
          ("docker exec " +:+ DockerContainer o +:+ " sh -c '" +:+
           ((if nonempty (GCDToken o) && nonempty storageName
             then tokenExport o storageName +:+ " && " else "") +:+
            ("export DUPLICACY_PASSWORD=" +:+ dquote +:+ quoted +:+ dquote +:+
             (if nonempty storageName then
                " && export DUPLICACY_"
                  +:+ GoStrings.ToUpper (GoStrings.ReplaceAll storageName "-" "_")
                  +:+ "_PASSWORD=" +:+ dquote +:+ quoted +:+ dquote
              else "")) +:+ " && " +:+
            cdLayer o (baseCommand duplicacyBin args)) +:+ "'")).
Proof.
  split; [exact dq_eval_escapedPw|].
  intros o duplicacyBin args storageName Hc Hp.
  exists (escapedPw (getStoragePassword o storageName)).
  split; [apply dq_eval_escapedPw|].
  now apply buildCommandWithStorage_exports.
Qed.

Lemma word_eval_single_quoted (s : string) :
  word_eval InSingle (subst_byte "'" squote_escape s +:+ "'") = Some s.
Proof.
  induction s as [|c s IH]; [reflexivity|].
  cbn [subst_byte].
  destruct (Ascii.eqb_spec "'" c) as [<-|Hc].
  - rewrite append_assoc.
    remember (subst_byte "'" squote_escape s +:+ "'") as t eqn:Ht.
    unfold squote_escape, squote, dquote. cbn. rewrite IH. reflexivity.
  - cbn [String.append word_eval].
    rewrite (proj2 (Ascii.eqb_neq c "'")) by congruence.
    rewrite IH. reflexivity.
Qed.

(** C5: a string embedded in single quotes for the remote shell, every
    single quote replaced by ['"'"'], is read back by the POSIX shell as the
    string itself; the remote layer embeds both the command and the password
    of the password-injection wrapper in this way. *)
Theorem singleQuoted_roundtrip `{GoPlatform} :
  (forall s, word_eval Unquoted (singleQuoted s) = Some s) /\
  (forall o duplicacyBin args storageName,
      buildCommandWithStorage o duplicacyBin args storageName =
      if nonempty (SSHHost o) then
        (if nonempty (SSHPassword o)
         then "sshpass -p " +:+ singleQuoted (SSHPassword o) +:+ " " else "") +:+
        ssh_prefix +:+ SSHHost o +:+ " " +:+
        singleQuoted (containerLayer o storageName (cdLayer o (baseCommand duplicacyBin args)))
      else containerLayer o storageName (cdLayer o (baseCommand duplicacyBin args))).
Proof.
  split.
  - intros s. unfold singleQuoted, squote.
    change "'" with (String "'"%char "") at 2. rewrite ReplaceAll_byte.
    cbn [String.append word_eval]. rewrite Ascii.eqb_refl.
    apply word_eval_single_quoted.
  - intros. rewrite buildCommandWithStorage_layers. reflexivity.
Qed.

(** ** Dry runs *)

Section DryRun.
Context {P : GoPlatform} {os : OS}.

(** In dry-run mode the discovery takes one of the three default
    branches, or returns what an earlier call stored. *)
Lemma discoverDuplicacyPath_dry e w :
  DryRun (opts e) = true -> discoverErr e = None ->
  exists path e',
    discoverDuplicacyPath e w = ((path, None), e', w) /\
    opts e' = opts e /\ discoverErr e' = None.
Proof.
  intros Hdry Herr.
  unfold discoverDuplicacyPath, mbind, run_bind, onceDo, getDiscovered.
  destruct (discoverOnce e) eqn:Honce.
  - exists (discoveredPath e), e. rewrite Herr. auto.
  - unfold discoverBody, mbind, run_bind, getOpts, setDiscovered.
    destruct (nonempty (DuplicacyPath (opts e)));
      [|destruct (nonempty (DockerContainer (opts e))); cbn [negb]; [rewrite Hdry|]];
      cbn; rewrite Herr; eexists _, _; (split; [reflexivity|]); auto.
Qed.

Lemma RunDuplicacyWithStorage_dry e w storageName args :
  DryRun (opts e) = true -> discoverErr e = None ->
  exists e' w',
    RunDuplicacyWithStorage storageName args e w = (None, e', w') /\
    launched w' = launched w /\ opts e' = opts e /\ discoverErr e' = None.
Proof.
  intros Hdry Herr.
  destruct (discoverDuplicacyPath_dry e w Hdry Herr) as (path & e' & Hd & Ho & He).
  unfold RunDuplicacyWithStorage, mbind, run_bind. rewrite Hd.
  unfold getOpts, when, printf, mret, run_ret.
  rewrite Ho, Hdry, orb_true_r. cbn.
  eexists _, _. split; [reflexivity|]. auto.
Qed.

Lemma RunDuplicacyCaptureWithStorage_dry e w storageName args :
  DryRun (opts e) = true -> discoverErr e = None ->
  exists e' w',
    RunDuplicacyCaptureWithStorage storageName args e w = (("", None), e', w') /\
    launched w' = launched w /\ opts e' = opts e /\ discoverErr e' = None.
Proof.
  intros Hdry Herr.
  destruct (discoverDuplicacyPath_dry e w Hdry Herr) as (path & e' & Hd & Ho & He).
  unfold RunDuplicacyCaptureWithStorage, mbind, run_bind. rewrite Hd.
  unfold getOpts, when, printf, mret, run_ret.
  rewrite Ho, Hdry, orb_true_r. cbn.
  eexists _, _. split; [reflexivity|]. auto.
Qed.

Lemma reachable_dry o e :
  DryRun o = true -> reachable o e -> opts e = o /\ discoverErr e = None.
Proof.
  intros Hdry Hr. induction Hr as [|e w s a _ [Ho He]|e w s a _ [Ho He]].
  - split; reflexivity.
  - rewrite <- Ho in Hdry.
    destruct (RunDuplicacyWithStorage_dry e w s a Hdry He) as (e' & w' & Hrun & _ & Ho' & He').
    rewrite Hrun. cbn. split; congruence.
  - rewrite <- Ho in Hdry.
    destruct (RunDuplicacyCaptureWithStorage_dry e w s a Hdry He)
      as (e' & w' & Hrun & _ & Ho' & He').
    rewrite Hrun. cbn. split; congruence.
Qed.

(** C9: in dry-run mode, on every executor obtained from [New] by any
    number of run operations, in every world and for every entity name and
    argument list, the streaming run returns no error, the capturing run
    returns the empty string and no error, and neither launches a process
    (discovery included): the list of launched commands is unchanged. *)
Theorem dry_run_never_executes o e w storageName args :
  DryRun o = true ->
  reachable o e ->
  (RunDuplicacyWithStorage storageName args e w).1.1 = None /\
  launched (RunDuplicacyWithStorage storageName args e w).2 = launched w /\
  (RunDuplicacyCaptureWithStorage storageName args e w).1.1 = ("", None) /\
  launched (RunDuplicacyCaptureWithStorage storageName args e w).2 = launched w /\
  (RunDuplicacy args e w).1.1 = None /\
  launched (RunDuplicacy args e w).2 = launched w.
Proof.
  intros Hdry Hr. destruct (reachable_dry o e Hdry Hr) as [Ho He].
  rewrite <- Ho in Hdry.
  destruct (RunDuplicacyWithStorage_dry e w storageName args Hdry He)
    as (e1 & w1 & H1 & L1 & _).
  destruct (RunDuplicacyCaptureWithStorage_dry e w storageName args Hdry He)
    as (e2 & w2 & H2 & L2 & _).
  destruct (RunDuplicacyWithStorage_dry e w "" args Hdry He)
    as (e3 & w3 & H3 & L3 & _).
  unfold RunDuplicacy. rewrite H1, H2, H3. cbn. repeat split; assumption.
Qed.
End DryRun.

(** ** Examples for the composer and the runner *)

Lemma dry_run_never_executes_witness :
  (@RunDuplicacyWithStorage amd64 failingOS "gdrive" ["backup"]
     (@RunDuplicacyCaptureWithStorage amd64 failingOS "gdrive" ["check"]
        (New dockerDryRun) emptyWorld).1.2 emptyWorld).1.1 = None.
Proof.
  apply (@dry_run_never_executes amd64 failingOS dockerDryRun _ emptyWorld "gdrive" ["backup"]).
  - reflexivity.
  - apply reach_Capture, reach_New.
Defined.

(** Without a container the credential is not exported at all. *)
Lemma exports_need_container :
  getStoragePassword passwordOnly "gdrive" = "secret123" /\
  @buildCommandWithStorage amd64 passwordOnly "duplicacy" ["backup"] "gdrive"
    = "duplicacy backup" /\
  @buildCommandWithStorage amd64 passwordOnly "duplicacy" ["backup"] "gdrive"
    <> @passwordExports amd64 "secret123" "gdrive" +:+ " && " +:+ "duplicacy backup".
Proof. split; [|split]; [reflexivity | reflexivity | discriminate]. Qed.

Lemma buildCommand_exports_in_container_witness :
  @buildCommandWithStorage amd64 dockerWithPassword "duplicacy" ["backup"] "my-storage" =
  "docker exec Duplicacy sh -c 'export DUPLICACY_PASSWORD=" +:+ dquote +:+ "secret123"
    +:+ dquote +:+ " && export DUPLICACY_MY_STORAGE_PASSWORD=" +:+ dquote +:+ "secret123"
    +:+ dquote +:+ " && duplicacy backup'" /\
  @buildCommandWithStorage amd64 passwordOnly "duplicacy" ["backup"] "gdrive"
  = "duplicacy backup".
Proof.
  split.
  - rewrite (proj1 (@buildCommand_exports_in_container amd64 dockerWithPassword "duplicacy"
                      ["backup"] "my-storage"));
      [reflexivity | discriminate | discriminate].
  - rewrite (proj2 (@buildCommand_exports_in_container amd64 passwordOnly "duplicacy"
                      ["backup"] "gdrive") eq_refl).
    reflexivity.
Defined.

Lemma escapedPw_roundtrip_witness :
  exists quoted,
    dq_eval quoted = Some ("a$b`c" +:+ dquote +:+ backslash) /\
    @buildCommandWithStorage amd64
      {| DryRun := false; Verbose := false; DockerContainer := "Duplicacy"; SSHHost := "";
         SSHPassword := ""; DuplicacyPath := ""; RepoPath := ""; CacheDir := "";
         StoragePassword := "a$b`c" +:+ dquote +:+ backslash; StoragePasswords := ∅;
         GCDToken := "" |}
      "duplicacy" ["backup"] ""
    = "docker exec Duplicacy sh -c 'export DUPLICACY_PASSWORD=" +:+ dquote +:+ quoted
        +:+ dquote +:+ " && duplicacy backup'".
Proof.
  destruct (proj2 (@escapedPw_roundtrip amd64)
              {| DryRun := false; Verbose := false; DockerContainer := "Duplicacy";
                 SSHHost := ""; SSHPassword := ""; DuplicacyPath := ""; RepoPath := "";
                 CacheDir := ""; StoragePassword := "a$b`c" +:+ dquote +:+ backslash;
                 StoragePasswords := ∅; GCDToken := "" |}
              "duplicacy" ["backup"] "") as (quoted & Hq & Hc);
    [discriminate | discriminate |].
  exists quoted. split; [exact Hq|].
  rewrite Hc. cbn. rewrite ?append_assoc. reflexivity.
Defined.

(** ** The report parser *)

Section Parser.
Context {P : GoPlatform}.

(** The loop body, by the kind of the line. *)
Lemma parseLine_classify st line :
  parseLine st line =
  match classify line with
  | SummaryLine m =>
      let d := match snd (parseSize (group m 1)) with
               | None => set_TotalSize (stats st) (fst (parseSize (group m 1)))
               | Some _ => stats st
               end in
      let d := match snd (parseNumber (group m 2)) with
               | None => set_TotalChunks d (fst (parseNumber (group m 2)))
               | Some _ => d
               end in
      {| stats := d; revisionCounts := revisionCounts st |}
  | RevisionLine m =>
      {| stats := stats st;
         revisionCounts :=
           <[group m 1 := count_of (revisionCounts st) (group m 1) + 1]> (revisionCounts st) |}
  | AllRow m =>
      {| stats :=
           set_Repository (stats st) (group m 1)
             {| RepoTotalChunks := fst (parseNumber (group m 2));
                RepoTotalSize := fst (parseSize (group m 3));
                UniqueSize := fst (parseSize (group m 5));
                Revisions := count_of (revisionCounts st) (group m 1) |};
         revisionCounts := revisionCounts st |}
  | OtherLine => st
  end.
Proof.
  unfold parseLine, classify.
  destruct (FindStringSubmatch totalChunksRe line) as [m|].
  - destruct (parseSize (group m 1)) as [size [e1|]];
      destruct (parseNumber (group m 2)) as [chunks [e2|]]; reflexivity.
  - destruct (FindStringSubmatch revisionRe line) as [m|]; [reflexivity|].
    destruct (FindStringSubmatch allRowRe line) as [m|]; reflexivity.
Qed.

Lemma parseLine_untouched st line :
  untouched (stats st) -> untouched (stats (parseLine st line)).
Proof.
  intros Hu. rewrite parseLine_classify.
  destruct (classify line) as [m|m|m|]; cbn [stats]; try exact Hu.
  destruct (snd (parseSize (group m 1))), (snd (parseNumber (group m 2))); exact Hu.
Qed.

Lemma fold_parseLine_untouched lines st :
  untouched (stats st) -> untouched (stats (fold_left parseLine lines st)).
Proof.
  revert st. induction lines as [|l lines IH]; intros st Hu; [exact Hu|].
  cbn [fold_left]. apply IH, parseLine_untouched, Hu.
Qed.

(** C10: whenever parsing succeeds, the status label of the result is the
    literal "Checked" and the pruned-chunks and pruned-revisions counters
    are zero, whatever the report says. *)
Theorem ParseCheckOutput_fixed_fields output d :
  ParseCheckOutput output = (Some d, None) ->
  Status d = "Checked" /\ PrunedChunks d = 0 /\ PrunedRevisions d = 0.
Proof.
  unfold ParseCheckOutput.
  destruct (Nat.eqb _ 0); [discriminate|].
  intros [= <-]. apply fold_parseLine_untouched. repeat split.
Qed.

Lemma parseLine_no_all_row st line :
  FindStringSubmatch allRowRe line = None ->
  Repositories (stats (parseLine st line)) = Repositories (stats st).
Proof.
  intros Hn. rewrite parseLine_classify. unfold classify. rewrite Hn.
  destruct (FindStringSubmatch totalChunksRe line) as [m|]; cbn [stats].
  - destruct (snd (parseSize (group m 1))), (snd (parseNumber (group m 2))); reflexivity.
  - destruct (FindStringSubmatch revisionRe line); reflexivity.
Qed.

Lemma fold_parseLine_no_all_row lines st :
  (forall line, In line lines -> FindStringSubmatch allRowRe line = None) ->
  Repositories (stats (fold_left parseLine lines st)) = Repositories (stats st).
Proof.
  revert st. induction lines as [|l lines IH]; intros st Hn; [reflexivity|].
  cbn [fold_left]. rewrite IH by (intros; apply Hn; now right).
  apply parseLine_no_all_row, Hn. now left.
Qed.

(** C8: when no line of the report matches the pattern of the "all" rows,
    parsing returns no statistics and the error "no repository statistics
    found in check output", whatever summary and revision lines the report
    contains. *)
Theorem ParseCheckOutput_no_all_row output :
  (forall line, In line (GoStrings.Split output "010") ->
                FindStringSubmatch allRowRe line = None) ->
  ParseCheckOutput output
    = (None, Some (errorString "no repository statistics found in check output")) /\
  GoStrings.Contains "no repository statistics found in check output"
                     "no repository statistics found" = true.
Proof.
  intros Hn. split; [|reflexivity].
  unfold ParseCheckOutput. rewrite (fold_parseLine_no_all_row _ _ Hn).
  reflexivity.
Qed.

(** The revision counter of [name] after the lines [lines]. *)
Lemma fold_parseLine_revisions lines st name :
  count_of (revisionCounts (fold_left parseLine lines st)) name =
  count_of (revisionCounts st) name
    + Z.of_nat (length (List.filter (isRevisionOf name) lines)).
Proof.
  revert st. induction lines as [|l lines IH]; intros st.
  - cbn. lia.
  - cbn [fold_left List.filter]. rewrite IH, parseLine_classify.
    unfold isRevisionOf at 2.
    destruct (classify l) as [m|m|m|]; cbn [revisionCounts length]; try lia.
    unfold count_of at 1.
    destruct (String.eqb_spec (group m 1) name) as [->|Hne].
    + rewrite lookup_insert_eq. cbn [default from_option length]. unfold id. lia.
    + rewrite lookup_insert_ne by exact Hne. fold (count_of (revisionCounts st) name). lia.
Qed.

Lemma parseLine_other_row st line name :
  isAllRowOf name line = false ->
  Repositories (stats (parseLine st line)) !! name = Repositories (stats st) !! name.
Proof.
  intros Hn. rewrite parseLine_classify. unfold isAllRowOf in Hn.
  destruct (classify line) as [m|m|m|]; cbn [stats]; try reflexivity.
  - destruct (snd (parseSize (group m 1))), (snd (parseNumber (group m 2))); reflexivity.
  - cbn [set_Repository Repositories]. apply String.eqb_neq in Hn.
    now rewrite lookup_insert_ne.
Qed.

Lemma fold_parseLine_other_rows lines st name :
  (forall line, In line lines -> isAllRowOf name line = false) ->
  Repositories (stats (fold_left parseLine lines st)) !! name
    = Repositories (stats st) !! name.
Proof.
  revert st. induction lines as [|l lines IH]; intros st Hn; [reflexivity|].
  cbn [fold_left]. rewrite IH by (intros; apply Hn; now right).
  apply parseLine_other_row, Hn. now left.
Qed.

(** C2 (as amended): the lines are processed in order.  When the report
    holds an "all" row for an entity and no later "all" row for it, the
    statistics of the entity carry the chunk count of that row and, as
    revision count, the number of revision lines of the entity that stand
    before the row. *)
Theorem ParseCheckOutput_revisions_before_all_row output pre row post name m :
  GoStrings.Split output "010" = (pre ++ row :: post)%list ->
  classify row = AllRow m ->
  group m 1 = name ->
  (forall line, In line post -> isAllRowOf name line = false) ->
  exists d r,
    ParseCheckOutput output = (Some d, None) /\
    Repositories d !! name = Some r /\
    Revisions r = Z.of_nat (length (List.filter (isRevisionOf name) pre)) /\
    RepoTotalChunks r = fst (parseNumber (group m 2)).
Proof.
  intros Hsplit Hrow Hname Hpost.
  unfold ParseCheckOutput. rewrite Hsplit, fold_left_app. cbn [fold_left].
  set (st1 := fold_left parseLine pre initState).
  assert (Hlook : Repositories (stats (fold_left parseLine post (parseLine st1 row))) !! name
                  = Some {| RepoTotalChunks := fst (parseNumber (group m 2));
                            RepoTotalSize := fst (parseSize (group m 3));
                            UniqueSize := fst (parseSize (group m 5));
                            Revisions := count_of (revisionCounts st1) name |}).
  { rewrite (fold_parseLine_other_rows _ _ _ Hpost), parseLine_classify, Hrow.
    cbn [stats set_Repository Repositories]. rewrite Hname. apply lookup_insert_eq. }
  destruct (Nat.eqb_spec (size (Repositories (stats (fold_left parseLine post (parseLine st1 row))))) 0)
    as [Hz|Hnz].
  - apply map_size_empty_inv in Hz. rewrite Hz, lookup_empty in Hlook. discriminate.
  - eexists _, _. split; [reflexivity|]. split; [exact Hlook|].
    cbn [Revisions RepoTotalChunks]. split; [|reflexivity].
    unfold st1. rewrite fold_parseLine_revisions.
    unfold initState, count_of. cbn [revisionCounts]. rewrite lookup_empty.
    cbn [default from_option]. lia.
Qed.

End Parser.

(** ** Examples for the parser *)

(** The "all" row first, the five revision lines after it: no revision is
    counted. *)
Lemma revisions_after_all_row_not_counted :
  exists d r,
    @ParseCheckOutput amd64 (unlines (allRowX :: fiveRevisionsX)) = (Some d, None) /\
    Repositories d !! "X" = Some r /\
    RepoTotalChunks r = 25 /\ Revisions r = 0 /\ Revisions r <> 5.
Proof.
  eexists _, _. split; [vm_compute; reflexivity|].
  split; [vm_compute; reflexivity|].
  cbn. repeat split; discriminate.
Qed.

Lemma ParseCheckOutput_revisions_before_all_row_witness :
  exists d r,
    @ParseCheckOutput amd64 (unlines (fiveRevisionsX ++ [allRowX])) = (Some d, None) /\
    Repositories d !! "X" = Some r /\
    Revisions r = 5 /\ RepoTotalChunks r = 25.
Proof.
  edestruct (@ParseCheckOutput_revisions_before_all_row amd64
               (unlines (fiveRevisionsX ++ [allRowX])) fiveRevisionsX allRowX [] "X")
    as (d & r & Hd & Hr & Hrev & Hchunks).
  - vm_compute. reflexivity.
  - vm_compute. reflexivity.
  - reflexivity.
  - intros line [].
  - exists d, r. split; [exact Hd|]. split; [exact Hr|].
    split; [rewrite Hrev | rewrite Hchunks]; vm_compute; reflexivity.
Defined.

(** A chunk count with a trailing letter, in the summary line or in an "all"
    row: the line is skipped and parsing succeeds.  A chunk count beyond
    int64 in an "all" row: parsing succeeds and the field holds the largest
    int64. *)
Lemma trailing_letter_is_no_error :
  snd (parseNumber "975K") <> None /\
  (exists d,
      @ParseCheckOutput amd64
        (unlines ["Total chunk size is 4,617M in 975K chunks"; allRowX]) = (Some d, None) /\
      TotalSize d = 0 /\ TotalChunks d = 0) /\
  (exists d,
      @ParseCheckOutput amd64
        (unlines [" Y | all | | | | 25K | 4,608M | 25 | 4,608M | | |"; allRowX])
        = (Some d, None) /\
      Repositories d !! "Y" = None) /\
  snd (parseNumber "99999999999999999999") <> None /\
  (exists d r,
      @ParseCheckOutput amd64
        (unlines [" X | all | | | | 99999999999999999999 | 4,608M | 25 | 4,608M | | |"])
        = (Some d, None) /\
      Repositories d !! "X" = Some r /\ RepoTotalChunks r = 9223372036854775807).
Proof.
  split; [vm_compute; discriminate|]. split; [|split; [|split]].
  - eexists. split; [vm_compute; reflexivity|]. split; reflexivity.
  - eexists. split; [vm_compute; reflexivity|]. vm_compute. reflexivity.
  - vm_compute. discriminate.
  - eexists _, _. split; [vm_compute; reflexivity|].
    split; [vm_compute; reflexivity|]. reflexivity.
Qed.

Lemma ParseCheckOutput_no_all_row_witness :
  @ParseCheckOutput amd64 (unlines (summaryLine :: fiveRevisionsX))
    = (None, Some (errorString "no repository statistics found in check output")).
Proof.
  apply (@ParseCheckOutput_no_all_row amd64 (unlines (summaryLine :: fiveRevisionsX))).
  intros line Hin. vm_compute in Hin.
  repeat (destruct Hin as [<-|Hin]; [vm_compute; reflexivity|]).
  destruct Hin.
Defined.

Lemma ParseCheckOutput_fixed_fields_witness :
  exists d,
    @ParseCheckOutput amd64 (unlines (summaryLine :: fiveRevisionsX ++ [allRowX]))
      = (Some d, None) /\
    Status d = "Checked" /\ PrunedChunks d = 0 /\ PrunedRevisions d = 0.
Proof.
  eexists. split; [vm_compute; reflexivity|].
  apply (@ParseCheckOutput_fixed_fields amd64
           (unlines (summaryLine :: fiveRevisionsX ++ [allRowX]))).
  vm_compute. reflexivity.
Defined.

(** ** The size and number lexer *)

Ltac each_byte c H :=
  destruct c as [[] [] [] [] [] [] [] []]; vm_compute in H; try discriminate H.

Lemma leading_rune_token c s :
  token_byte c = true ->
  GoStrings.leading_rune GoStrings.space_runes (String c s) = None.
Proof. intros H. each_byte c H; reflexivity. Qed.

Lemma leading_rune_rev_token c s :
  token_byte c = true ->
  GoStrings.leading_rune (map GoStrings.string_rev GoStrings.space_runes) (String c s) = None.
Proof. intros H. each_byte c H; reflexivity. Qed.

Lemma trim_left_none runes fuel s :
  GoStrings.leading_rune runes s = None -> GoStrings.trim_left runes fuel s = s.
Proof. intros H. destruct fuel; cbn; [reflexivity | now rewrite H]. Qed.

Lemma string_rev_involutive s : GoStrings.string_rev (GoStrings.string_rev s) = s.
Proof.
  unfold GoStrings.string_rev.
  now rewrite list_ascii_of_string_of_list_ascii, rev_involutive, string_of_list_ascii_of_string.
Qed.

Lemma TrimSpace_token s : token_bytes s = true -> GoStrings.TrimSpace s = s.
Proof.
  intros H. unfold GoStrings.TrimSpace.
  assert (H1 : GoStrings.trim_left GoStrings.space_runes (String.length s) s = s).
  { apply trim_left_none. destruct s as [|c s]; [reflexivity|].
    apply leading_rune_token. cbn in H. now apply andb_prop in H. }
  rewrite H1.
  rewrite trim_left_none; [apply string_rev_involutive|].
  destruct (GoStrings.string_rev s) as [|c r] eqn:Hr; [reflexivity|].
  apply leading_rune_rev_token.
  unfold token_bytes in H. rewrite forallb_forall in H. apply H.
  apply in_rev. unfold GoStrings.string_rev in Hr.
  apply (f_equal list_ascii_of_string) in Hr.
  rewrite list_ascii_of_string_of_list_ascii in Hr. rewrite Hr. now left.
Qed.

Lemma commaDigits_token s : commaDigits s = true -> token_bytes s = true.
Proof.
  unfold commaDigits, token_bytes. rewrite !forallb_forall.
  intros H c Hc. unfold token_byte. now rewrite (H c Hc).
Qed.

Lemma stripCommas_digits s : commaDigits s = true -> all_digits (stripCommas s) = true.
Proof.
  unfold commaDigits, all_digits, stripCommas.
  induction s as [|c s IH]; [reflexivity|].
  cbn [list_ascii_of_string forallb subst_byte]. intros [Hc Hs]%andb_prop.
  destruct (Ascii.eqb_spec "," c) as [<-|Hne]; [now apply IH|].
  cbn [list_ascii_of_string forallb]. rewrite (IH Hs), andb_true_r.
  unfold cls_d_comma in Hc. apply orb_prop in Hc as [Hd|Hd]; [exact Hd|].
  apply Ascii.eqb_eq in Hd. congruence.
Qed.

Lemma decimal_value_nonneg s : all_digits s = true -> 0 <= decimal_value s.
Proof.
  unfold all_digits, decimal_value.
  assert (G : forall l acc, forallb is_digit l = true -> 0 <= acc ->
                            0 <= fold_left (fun a c => 10 * a + digit_val c) l acc).
  { induction l as [|c l IH]; intros acc Hl Hacc; [exact Hacc|].
    cbn [forallb] in Hl. apply andb_prop in Hl as [Hc Hl].
    cbn [fold_left]. apply IH; [exact Hl|].
    unfold is_digit in Hc. apply andb_prop in Hc as [Hlo _].
    apply Nat.leb_le in Hlo. unfold digit_val. lia. }
  intros H. apply G; [exact H | lia].
Qed.

Lemma digit_not_sign c r (s : string) :
  is_digit c = true ->
  match String c r with
  | String "+" r' => (false, r')
  | String "-" r' => (true, r')
  | _ => (false, s)
  end = (false, s).
Proof. intros H. each_byte c H; reflexivity. Qed.

Lemma ParseInt_digits s :
  s <> "" -> all_digits s = true -> decimal_value s <= MaxInt64 ->
  GoStrconv.ParseInt s = (decimal_value s, None).
Proof.
  intros Hne Hd Hmax. destruct s as [|c r]; [contradiction|].
  unfold GoStrconv.ParseInt.
  assert (Hc : is_digit c = true).
  { unfold all_digits in Hd. cbn in Hd. now apply andb_prop in Hd. }
  rewrite (digit_not_sign c r (String c r) Hc). rewrite Hd.
  cbn [negb andb]. unfold MaxInt64 in Hmax.
  destruct (Z.leb_spec (2 ^ 63) (decimal_value (String c r))); [lia | reflexivity].
Qed.

(** Numeric tokens are parsed as plain integers, commas removed. *)
Lemma parseNumber_commaDigits t :
  commaDigits t = true ->
  decimal_value (stripCommas t) <= MaxInt64 ->
  parseNumber t = (decimal_value (stripCommas t), None).
Proof.
  intros Ht Hmax. unfold parseNumber.
  rewrite (TrimSpace_token t (commaDigits_token t Ht)).
  change "," with (String ","%char "") at 1. rewrite ReplaceAll_byte.
  fold (stripCommas t).
  destruct (String.eqb_spec (stripCommas t) "") as [->|Hne]; [reflexivity|].
  apply ParseInt_digits; [exact Hne | now apply stripCommas_digits | exact Hmax].
Qed.

Lemma last_byte_snoc a c : last_byte (a +:+ String c "") = c.
Proof.
  induction a as [|x a IH]; [reflexivity|].
  change (String x a +:+ String c "") with (String x (a +:+ String c "")).
  cbn [last_byte]. destruct (a +:+ String c "") eqn:E; [|exact IH].
  destruct a; discriminate E.
Qed.

Lemma drop_last_snoc a c : drop_last (a +:+ String c "") = a.
Proof.
  induction a as [|x a IH]; [reflexivity|].
  change (String x a +:+ String c "") with (String x (a +:+ String c "")).
  cbn [drop_last]. destruct (a +:+ String c "") eqn:E.
  - destruct a; discriminate E.
  - now rewrite IH.
Qed.

Lemma last_byte_digit s :
  s <> "" -> all_digits s = true -> is_digit (last_byte s) = true.
Proof.
  unfold all_digits. induction s as [|c s IH]; [contradiction|].
  intros _ H. cbn [list_ascii_of_string forallb] in H. apply andb_prop in H as [Hc Hs].
  destruct s as [|d s]; [exact Hc|].
  change (last_byte (String c (String d s))) with (last_byte (String d s)).
  apply IH; [discriminate | exact Hs].
Qed.

Lemma digit_not_suffix c :
  is_digit c = true ->
  Ascii.eqb c "K" = false /\ Ascii.eqb c "M" = false /\
  Ascii.eqb c "G" = false /\ Ascii.eqb c "T" = false.
Proof. intros H. each_byte c H; repeat split; reflexivity. Qed.

Lemma round53_exact n : 0 <= n < 2 ^ 53 -> GoStrconv.round53 n = (n, 0).
Proof.
  intros [H0 H1]. unfold GoStrconv.round53.
  assert (Z.log2 n + 1 <= 53) as Hb.
  { destruct (Z.eq_dec n 0) as [->|Hn]; [cbn; lia|].
    assert (Z.log2 n < 53) by (apply Z.log2_lt_pow2; lia). lia. }
  destruct (Z.leb_spec (Z.log2 n + 1) 53); [reflexivity | lia].
Qed.

Section Lexer.
Context {P : GoPlatform}.

Lemma ParseFloat_digits s :
  s <> "" -> all_digits s = true -> decimal_value s < 2 ^ 53 ->
  GoStrconv.ParseFloat s = (Finite false (decimal_value s) 0, None).
Proof.
  intros Hne Hd Hn. pose proof (decimal_value_nonneg s Hd) as H0.
  unfold GoStrconv.ParseFloat. destruct s as [|c r]; [contradiction|].
  rewrite Hd, round53_exact by lia.
  assert (2 ^ 53 < 2 ^ 1024) by (apply Z.pow_lt_mono_r; lia).
  destruct (Z.leb_spec (2 ^ 1024) (decimal_value (String c r) * 2 ^ 0)); [lia|reflexivity].
Qed.

(** The value computed from the digits [n] and the multiplier [2^k]. *)
Lemma scaled_value n k :
  0 <= n -> 0 <= k -> n * 2 ^ k <= MaxInt64 ->
  int64_of_float (float64_mul_pow2 (Finite false n 0) (Finite false 1 k)) = n * 2 ^ k.
Proof.
  intros Hn Hk Hmax. unfold float64_mul_pow2.
  destruct (Z.eqb_spec n 0) as [->|Hnz]; [reflexivity|].
  assert (0 < 2 ^ k) by (apply Z.pow_pos_nonneg; lia).
  assert (2 ^ 63 < 2 ^ 1024) by (apply Z.pow_lt_mono_r; lia).
  unfold MaxInt64 in Hmax.
  destruct (Z.leb_spec (2 ^ 1024) (n * 2 ^ (0 + k))) as [Hov|_].
  { rewrite Z.add_0_l in Hov. lia. }
  unfold int64_of_float. rewrite Z.add_0_l.
  destruct (Z.leb_spec 0 k); [|lia].
  unfold MinInt64, MaxInt64.
  assert (0 <= n * 2 ^ k) by (apply Z.mul_nonneg_nonneg; lia).
  destruct (Z.leb_spec (- 2 ^ 63) (n * 2 ^ k)); [|lia].
  destruct (Z.leb_spec (n * 2 ^ k) (2 ^ 63 - 1)); [reflexivity | lia].
Qed.

(** Size tokens: the digits, commas removed, times the binary multiplier
    of the suffix. *)
Lemma parseSize_commaDigits t sfx mult :
  commaDigits t = true ->
  stripCommas t <> "" ->
  suffixMultiplier sfx = Some mult ->
  decimal_value (stripCommas t) < 2 ^ 53 ->
  decimal_value (stripCommas t) * mult <= MaxInt64 ->
  parseSize (t +:+ sfx) = (decimal_value (stripCommas t) * mult, None).
Proof.
  intros Ht Hne Hsfx Hn Hmax.
  pose proof (stripCommas_digits t Ht) as Hd.
  pose proof (decimal_value_nonneg _ Hd) as H0.
  assert (Hs : forall x, GoStrings.ReplaceAll (t +:+ x) "," ""
                         = stripCommas t +:+ stripCommas x).
  { intros x. change "," with (String ","%char "") at 1. rewrite ReplaceAll_byte.
    apply subst_byte_app. }
  assert (Hnonempty : forall x, String.eqb (stripCommas t +:+ x) "" = false).
  { intros x. destruct (stripCommas t); [contradiction | reflexivity]. }
  unfold suffixMultiplier in Hsfx.
  destruct (String.eqb_spec sfx "") as [->|_].
  { injection Hsfx as <-. rewrite append_empty_r in *.
    unfold parseSize. rewrite (TrimSpace_token t (commaDigits_token t Ht)).
    change "," with (String ","%char "") at 1. rewrite ReplaceAll_byte.
    fold (stripCommas t).
    destruct (String.eqb_spec (stripCommas t) "") as [E|_]; [contradiction|].
    destruct (digit_not_suffix _ (last_byte_digit _ Hne Hd)) as (-> & -> & -> & ->).
    rewrite (ParseFloat_digits _ Hne Hd Hn).
    change (float64_of_pow2 1) with (Finite false 1 0).
    rewrite scaled_value; [reflexivity | lia | lia | exact Hmax]. }
  assert (Htok : forall c, cls_KMGT c = true ->
                           token_bytes (t +:+ String c "") = true).
  { intros c Hc. unfold token_bytes.
    assert (list_ascii_of_string (t +:+ String c "")
            = (list_ascii_of_string t ++ [c])%list) as ->.
    { clear. induction t as [|x t IH]; [reflexivity|].
      change (String x t +:+ String c "") with (String x (t +:+ String c "")).
      cbn [list_ascii_of_string]. now rewrite IH. }
    rewrite forallb_app. fold (token_bytes t). rewrite (commaDigits_token t Ht).
    cbn. unfold token_byte. now rewrite Hc, orb_true_r. }
  assert (Hgen : forall c k,
             cls_KMGT c = true ->
             (if Ascii.eqb c "K" then (1024, stripCommas t)
              else if Ascii.eqb c "M" then (1024 * 1024, stripCommas t)
              else if Ascii.eqb c "G" then (1024 * 1024 * 1024, stripCommas t)
              else if Ascii.eqb c "T" then (1024 * 1024 * 1024 * 1024, stripCommas t)
              else (1, stripCommas t +:+ String c "")) = (2 ^ k, stripCommas t) ->
             0 <= k -> float64_of_pow2 (2 ^ k) = Finite false 1 k ->
             decimal_value (stripCommas t) * 2 ^ k <= MaxInt64 ->
             parseSize (t +:+ String c "")
               = (decimal_value (stripCommas t) * 2 ^ k, None)).
  { intros c k Hc Hsel Hk Hf Hm. unfold parseSize.
    rewrite (TrimSpace_token _ (Htok c Hc)), Hs.
    assert (stripCommas (String c "") = String c "") as ->.
    { unfold stripCommas. cbn [subst_byte].
      destruct (Ascii.eqb_spec "," c) as [<-|_]; [discriminate Hc | reflexivity]. }
    rewrite Hnonempty, last_byte_snoc, drop_last_snoc, Hsel.
    rewrite (ParseFloat_digits _ Hne Hd Hn), Hf.
    rewrite scaled_value; [reflexivity | lia | exact Hk | exact Hm]. }
  destruct (String.eqb_spec sfx "K") as [->|_].
  { injection Hsfx as <-. apply (Hgen "K"%char 10); try reflexivity; [lia | exact Hmax]. }
  destruct (String.eqb_spec sfx "M") as [->|_].
  { injection Hsfx as <-. apply (Hgen "M"%char 20); try reflexivity; [lia | exact Hmax]. }
  destruct (String.eqb_spec sfx "G") as [->|_].
  { injection Hsfx as <-. apply (Hgen "G"%char 30); try reflexivity; [lia | exact Hmax]. }
  destruct (String.eqb_spec sfx "T") as [->|_]; [|discriminate].
  injection Hsfx as <-. apply (Hgen "T"%char 40); try reflexivity; [lia | exact Hmax].
Qed.

Lemma parseLine_not_summary st line :
  (forall m, classify line <> SummaryLine m) ->
  TotalSize (stats (parseLine st line)) = TotalSize (stats st) /\
  TotalChunks (stats (parseLine st line)) = TotalChunks (stats st).
Proof.
  intros Hn. rewrite parseLine_classify.
  destruct (classify line) as [m|m|m|]; [destruct (Hn m); reflexivity | | |];
    split; reflexivity.
Qed.

Lemma fold_parseLine_not_summary lines st :
  (forall line m, In line lines -> classify line <> SummaryLine m) ->
  TotalSize (stats (fold_left parseLine lines st)) = TotalSize (stats st) /\
  TotalChunks (stats (fold_left parseLine lines st)) = TotalChunks (stats st).
Proof.
  revert st. induction lines as [|l lines IH]; intros st Hn; [split; reflexivity|].
  cbn [fold_left].
  destruct (IH (parseLine st l)) as [-> ->]; [intros ? ? ?; apply Hn; now right|].
  apply parseLine_not_summary. intros m. apply Hn. now left.
Qed.

(** C7: a size token made of digits and commas followed by one of the
    suffixes K, M, G, T (or none) is worth the digits, commas removed,
    times 1024, 1024^2, 1024^3, 1024^4 (or 1), as long as the digits are
    below 2^53 and the product fits int64; a numeric token is worth its
    digits, commas removed.  A report whose last summary line reads "Total
    chunk size is 4,617M in 975 chunks", when it parses, has a day total
    size of 4617 * 1024 * 1024 bytes and a total chunk count of 975. *)
Theorem lexer_binary_multipliers :
  (forall t sfx mult,
      commaDigits t = true -> stripCommas t <> "" ->
      suffixMultiplier sfx = Some mult ->
      decimal_value (stripCommas t) < 2 ^ 53 ->
      decimal_value (stripCommas t) * mult <= MaxInt64 ->
      parseSize (t +:+ sfx) = (decimal_value (stripCommas t) * mult, None)) /\
  (forall t,
      commaDigits t = true -> decimal_value (stripCommas t) <= MaxInt64 ->
      parseNumber t = (decimal_value (stripCommas t), None)) /\
  (suffixMultiplier "K" = Some 1024 /\ suffixMultiplier "M" = Some (1024 * 1024) /\
   suffixMultiplier "G" = Some (1024 * 1024 * 1024) /\
   suffixMultiplier "T" = Some (1024 * 1024 * 1024 * 1024)) /\
  (forall output pre line post m d,
      GoStrings.Split output "010" = (pre ++ line :: post)%list ->
      classify line = SummaryLine m ->
      group m 1 = "4,617M" -> group m 2 = "975" ->
      (forall l m', In l post -> classify l <> SummaryLine m') ->
      ParseCheckOutput output = (Some d, None) ->
      TotalSize d = 4617 * 1024 * 1024 /\ TotalChunks d = 975).
Proof.
  split; [exact parseSize_commaDigits|].
  split; [exact parseNumber_commaDigits|].
  split; [repeat split; reflexivity|].
  intros output pre line post m d Hsplit Hline H1 H2 Hpost.
  unfold ParseCheckOutput. rewrite Hsplit, fold_left_app. cbn [fold_left].
  destruct (Nat.eqb _ 0); [discriminate|]. intros [= <-].
  destruct (fold_parseLine_not_summary post
              (parseLine (fold_left parseLine pre initState) line) Hpost) as [-> ->].
  rewrite parseLine_classify, Hline, H1, H2.
  assert (Hsize : parseSize "4,617M" = (4617 * 1024 * 1024, None)).
  { apply (parseSize_commaDigits "4,617" "M" (1024 * 1024));
      [reflexivity | discriminate | reflexivity | vm_compute; reflexivity
      | vm_compute; discriminate]. }
  assert (Hnum : parseNumber "975" = (975, None)).
  { apply (parseNumber_commaDigits "975"); [reflexivity | vm_compute; discriminate]. }
  rewrite Hsize, Hnum. split; reflexivity.
Qed.
End Lexer.

Lemma lexer_binary_multipliers_witness :
  @parseSize amd64 "8,853K" = (8853 * 1024, None) /\
  parseNumber "10,000,000" = (10000000, None) /\
  exists d,
    @ParseCheckOutput amd64 (unlines (summaryLine :: fiveRevisionsX ++ [allRowX]))
      = (Some d, None) /\
    TotalSize d = 4617 * 1024 * 1024 /\ TotalChunks d = 975.
Proof.
  pose proof (@lexer_binary_multipliers amd64) as (Hsize & Hnum & _ & Hreport).
  split; [|split].
  - apply (Hsize "8,853" "K" 1024);
      [reflexivity | discriminate | reflexivity | vm_compute; reflexivity
      | vm_compute; discriminate].
  - apply (Hnum "10,000,000"); [reflexivity | vm_compute; discriminate].
  - eexists. split; [vm_compute; reflexivity|].
    eapply (Hreport (unlines (summaryLine :: fiveRevisionsX ++ [allRowX]))
                    [] summaryLine (fiveRevisionsX ++ [allRowX])%list);
      [vm_compute; reflexivity | vm_compute; reflexivity | reflexivity | reflexivity
      | | vm_compute; reflexivity].
    intros l m' Hin. vm_compute in Hin.
    repeat (destruct Hin as [<-|Hin]; [vm_compute; discriminate|]).
    destruct Hin.
Defined.

(** ** Package config: retention, defaults, validation, storages *)

Lemma wrap64_small (z : Z) : - 2 ^ 63 <= z < 2 ^ 63 -> wrap64 z = z.
Proof. intros H. unfold wrap64. rewrite Z.mod_small; lia. Qed.

(** The options with the [-a] flag are the options without it, followed by
    [ -a], for every retention policy. *)
Theorem ToPruneOptions_adds_all_flag (r : config.RetentionConfig) :
  config.ToPruneOptions r = config.ToPruneOptionsWithoutAll r +:+ " -a".
Proof.
  unfold config.ToPruneOptions, config.ToPruneOptionsWithoutAll, config.toPruneOptions.
  destruct ((0 <? config.Days r) || (0 <? config.Weeks r));
    [|destruct (0 <? config.Monthly r)];
    rewrite !append_assoc; reflexivity.
Qed.

(** In the count format, with counts between 0 and 2^40, the thresholds of
    the [-keep] options are those of the day boundaries and strictly
    decrease from left to right: daily end < weekly end (< monthly end). *)
Theorem toPruneOptions_boundaries (r : config.RetentionConfig) (includeAll : bool) :
  config.Days r <= 0 -> config.Weeks r <= 0 ->
  0 <= config.Daily r <= 2 ^ 40 ->
  0 <= config.Weekly r <= 2 ^ 40 ->
  0 <= config.Monthly r <= 2 ^ 40 ->
  exists dailyEnd weeklyEnd monthlyEnd,
    dailyEnd = (if config.Daily r =? 0 then 7 else config.Daily r) /\
    weeklyEnd = dailyEnd + 7 * (if config.Weekly r =? 0 then 4 else config.Weekly r) /\
    monthlyEnd = weeklyEnd + 30 * config.Monthly r /\
    0 < dailyEnd < weeklyEnd /\ weeklyEnd <= monthlyEnd /\
    config.toPruneOptions r includeAll =
      (if 0 <? config.Monthly r
       then "-keep 0:" +:+ FormatInt monthlyEnd +:+ " -keep 30:" +:+ FormatInt weeklyEnd
       else "-keep 0:" +:+ FormatInt weeklyEnd)
      +:+ " -keep 7:" +:+ FormatInt dailyEnd +:+ " -keep 1:1"
      +:+ (if includeAll then " -a" else "").
Proof.
  intros Hd Hw HD HW HM.
  assert (2 ^ 40 = 1099511627776) as E40 by reflexivity.
  assert (2 ^ 63 = 9223372036854775808) as E63 by reflexivity.
  eexists _, _, _. split; [reflexivity|]. split; [reflexivity|]. split; [reflexivity|].
  split; [|split].
  - destruct (Z.eqb_spec (config.Daily r) 0), (Z.eqb_spec (config.Weekly r) 0); lia.
  - lia.
  - unfold config.toPruneOptions.
    destruct (Z.ltb_spec 0 (config.Days r)); [lia|].
    destruct (Z.ltb_spec 0 (config.Weeks r)); [lia|]. cbn [orb].
    set (d := if config.Daily r =? 0 then 7 else config.Daily r).
    set (w := if config.Weekly r =? 0 then 4 else config.Weekly r).
    assert (0 < d <= 2 ^ 40) by (unfold d; destruct (Z.eqb_spec (config.Daily r) 0); lia).
    assert (0 < w <= 2 ^ 40) by (unfold w; destruct (Z.eqb_spec (config.Weekly r) 0); lia).
    rewrite (wrap64_small (w * 7)) by lia.
    rewrite (wrap64_small (d + w * 7)) by lia.
    rewrite (wrap64_small (config.Monthly r * 30)) by lia.
    rewrite (wrap64_small (d + w * 7 + config.Monthly r * 30)) by lia.
    replace (w * 7) with (7 * w) by lia.
    replace (config.Monthly r * 30) with (30 * config.Monthly r) by lia.
    destruct (0 <? config.Monthly r); rewrite !append_assoc; reflexivity.
Qed.

Lemma applyBackupDefaults_idempotent (b : config.BackupConfig) :
  config.applyBackupDefaults (config.applyBackupDefaults b) = config.applyBackupDefaults b.
Proof.
  destruct b as [n p cd ds [da we mo dy wk] th]. unfold config.applyBackupDefaults. cbn.
  destruct (Z.eqb_spec dy 0), (Z.eqb_spec wk 0); cbn;
    destruct (Z.eqb_spec da 0), (Z.eqb_spec we 0), (Z.eqb_spec th 0); cbn;
    repeat match goal with
           | |- context [?x =? 0] => destruct (Z.eqb_spec x 0); [try lia|]; cbn
           end; try reflexivity; try lia.
Qed.

(** Applying the defaults twice is applying them once. *)
Theorem applyDefaults_idempotent (c : config.Config) :
  config.applyDefaults (config.applyDefaults c) = config.applyDefaults c.
Proof.
  destruct c as [[h ct g] bs st mt nt [sh pe] [dc] rs]. unfold config.applyDefaults. cbn.
  rewrite map_map, (map_ext _ _ applyBackupDefaults_idempotent).
  f_equal. f_equal.
  - destruct (String.eqb_spec h ""), (String.eqb_spec sh ""); cbn; subst; try reflexivity.
    + destruct (String.eqb_spec sh ""); [contradiction | reflexivity].
    + destruct (String.eqb_spec h ""); [contradiction | reflexivity].
    + destruct (String.eqb_spec h ""); [contradiction | reflexivity].
  - destruct (String.eqb_spec ct ""), (String.eqb_spec dc ""); cbn; subst; try reflexivity.
    + destruct (String.eqb_spec dc ""); [contradiction | reflexivity].
    + destruct (String.eqb_spec ct ""); [contradiction | reflexivity].
    + destruct (String.eqb_spec ct ""); [contradiction | reflexivity].
  - destruct (String.eqb_spec g ""); cbn; [reflexivity|].
    destruct (String.eqb_spec g ""); [contradiction | reflexivity].
Qed.

Lemma default_twice (x d : Z) :
  d <> 0 ->
  (if (if x =? 0 then d else x) =? 0 then d else (if x =? 0 then d else x))
  = (if x =? 0 then d else x).
Proof.
  intros Hd. destruct (Z.eqb_spec x 0) as [->|Hx].
  - destruct (Z.eqb_spec d 0); [contradiction | reflexivity].
  - destruct (Z.eqb_spec x 0); [contradiction | reflexivity].
Qed.

Lemma applyBackupDefaults_prune (b : config.BackupConfig) (includeAll : bool) :
  config.toPruneOptions (config.Retention (config.applyBackupDefaults b)) includeAll
  = config.toPruneOptions (config.Retention b) includeAll.
Proof.
  destruct b as [n p cd ds [da we mo dy wk] th].
  unfold config.applyBackupDefaults.
  cbn [config.Retention config.Days config.Weeks config.Daily config.Weekly config.Monthly].
  destruct (Z.eqb_spec dy 0) as [->|Hdy]; [|reflexivity].
  destruct (Z.eqb_spec wk 0) as [->|Hwk]; [|reflexivity].
  cbn [andb]. unfold config.toPruneOptions.
  cbn [config.Days config.Weeks config.Daily config.Weekly config.Monthly].
  rewrite !default_twice by lia. reflexivity.
Qed.

Lemma find_applyBackupDefaults name bs :
  List.find (fun b => String.eqb (config.Name b) name) (map config.applyBackupDefaults bs)
  = option_map config.applyBackupDefaults
      (List.find (fun b => String.eqb (config.Name b) name) bs).
Proof.
  induction bs as [|b bs IH]; [reflexivity|]. cbn [map List.find].
  change (config.Name (config.applyBackupDefaults b)) with (config.Name b).
  destruct (String.eqb (config.Name b) name); [reflexivity | exact IH].
Qed.

(** The defaults written into the configuration are the defaults the prune
    options assume: the prune options of every backup, looked up by name
    (known or not), are the same before and after [applyDefaults]; and the
    fallback retention of an unknown backup prunes like an empty retention
    block. *)
Theorem applyDefaults_keeps_prune_options (c : config.Config) (name : string)
    (includeAll : bool) :
  config.toPruneOptions (config.GetBackupRetention (config.applyDefaults c) name) includeAll
  = config.toPruneOptions (config.GetBackupRetention c name) includeAll /\
  (List.find (fun b => String.eqb (config.Name b) name) (config.Backups c) = None ->
   config.toPruneOptions (config.GetBackupRetention c name) includeAll
   = config.toPruneOptions config.zeroRetention includeAll).
Proof.
  split.
  - unfold config.GetBackupRetention, config.applyDefaults. cbn [config.Backups].
    rewrite find_applyBackupDefaults.
    destruct (List.find _ (config.Backups c)) as [b|]; cbn [option_map];
      [apply applyBackupDefaults_prune | reflexivity].
  - intros Hn. unfold config.GetBackupRetention. rewrite Hn. reflexivity.
Qed.

Lemma validateBackups_applyDefaults i bs :
  config.validateBackups i (map config.applyBackupDefaults bs) = config.validateBackups i bs.
Proof.
  revert i. induction bs as [|b bs IH]; intros i; [reflexivity|].
  cbn [map config.validateBackups].
  change (config.Name (config.applyBackupDefaults b)) with (config.Name b).
  change (config.Destinations (config.applyBackupDefaults b)) with (config.Destinations b).
  now rewrite IH.
Qed.

(** After [applyDefaults] no backup has zero threads and the token path is
    not empty; names, destinations and the verdict of [Validate] are those
    of the configuration as loaded. *)
Theorem applyDefaults_postconditions (c : config.Config) :
  Forall (fun b => config.Threads b <> 0) (config.Backups (config.applyDefaults c)) /\
  config.GCDToken (config.Connection (config.applyDefaults c)) <> "" /\
  map config.Name (config.Backups (config.applyDefaults c)) = map config.Name (config.Backups c) /\
  map config.Destinations (config.Backups (config.applyDefaults c))
    = map config.Destinations (config.Backups c) /\
  config.Validate (config.applyDefaults c) = config.Validate c.
Proof.
  unfold config.applyDefaults. cbn [config.Backups config.Connection config.GCDToken].
  split; [|split; [|split; [|split]]].
  - apply List.Forall_forall. intros b' Hin. apply in_map_iff in Hin as (b & <- & _).
    unfold config.applyBackupDefaults. cbn [config.Threads].
    destruct (Z.eqb_spec (config.Threads b) 0); [discriminate | assumption].
  - destruct (String.eqb_spec (config.GCDToken (config.Connection c)) "");
      [discriminate | assumption].
  - rewrite map_map. reflexivity.
  - rewrite map_map. reflexivity.
  - unfold config.Validate. cbn [config.Backups config.Repositories].
    rewrite length_map, validateBackups_applyDefaults. reflexivity.
Qed.

Lemma validateBackups_None i bs :
  config.validateBackups i bs = None <->
  Forall (fun b => config.Name b <> "" /\ config.Destinations b <> []) bs.
Proof.
  revert i. induction bs as [|b bs IH]; intros i; cbn [config.validateBackups].
  - split; [intros _; constructor | intros _; reflexivity].
  - destruct (String.eqb_spec (config.Name b) "") as [E|E].
    { split; [discriminate|]. intros H. inversion H; subst. tauto. }
    destruct (config.Destinations b) as [|d ds] eqn:Ed; cbn [length Nat.eqb].
    { split; [discriminate|]. intros H. inversion H; subst. tauto. }
    rewrite IH. split.
    + intros H. constructor; [split; [assumption | rewrite Ed; discriminate] | assumption].
    + intros H. now inversion H.
Qed.

(** [Validate] accepts a configuration exactly when it defines a backup or
    a legacy repository and every backup has a name and a destination. *)
Theorem Validate_accepts_iff (c : config.Config) :
  config.Validate c = None <->
  (config.Backups c <> [] \/ config.Repositories c <> []) /\
  Forall (fun b => config.Name b <> "" /\ config.Destinations b <> []) (config.Backups c).
Proof.
  unfold config.Validate.
  destruct (config.Backups c) as [|b bs] eqn:Eb; cbn [length Nat.eqb andb].
  - destruct (config.Repositories c) as [|r rs]; cbn [length Nat.eqb].
    + split; [discriminate | intros [[H|H] _]; contradiction].
    + cbn. split; [intros _; split; [right; discriminate | constructor] | intros _; reflexivity].
  - rewrite validateBackups_None. split; [intros H; split; [left; discriminate | exact H] | tauto].
Qed.

Lemma addStorage_inv st x :
  storagesInv st ->
  storagesInv (config.addStorage st x) /\
  (forall y, In y (config.addStorage st x).2 <-> In y st.2 \/ y = x).
Proof.
  intros [Hseen Hnd]. unfold config.addStorage.
  destruct (default false (st.1 !! x)) eqn:Hx; cbn [negb].
  - split; [split; assumption|]. intros y. split; [tauto|].
    intros [H| ->]; [assumption | now apply Hseen].
  - assert (~ In x st.2) as Hnin by (rewrite <- Hseen, Hx; discriminate).
    split; [split|]; cbn [fst snd].
    + intros y. rewrite in_app_iff. cbn [In].
      destruct (String.eqb_spec x y) as [->|Hne].
      * rewrite lookup_insert_eq. cbn. tauto.
      * rewrite lookup_insert_ne by assumption. rewrite Hseen. intuition congruence.
    + apply NoDup_ListNoDup, NoDup_app.
      split; [now apply NoDup_ListNoDup|]. split; [|apply NoDup_singleton].
      intros a Ha Hk. apply list_elem_of_In in Ha. apply list_elem_of_singleton in Hk.
      congruence.
    + intros y. rewrite in_app_iff. cbn [In]. intuition congruence.
Qed.

Lemma fold_addStorage_inv l st :
  storagesInv st ->
  storagesInv (fold_left config.addStorage l st) /\
  (forall y, In y (fold_left config.addStorage l st).2 <-> In y st.2 \/ In y l).
Proof.
  revert st. induction l as [|x l IH]; intros st Hinv; cbn [fold_left].
  - split; [assumption|]. intros y. cbn [In]. tauto.
  - destruct (addStorage_inv st x Hinv) as [Hinv' Hin'].
    destruct (IH _ Hinv') as [Hinv'' Hin'']. split; [assumption|].
    intros y. rewrite Hin'', Hin'. cbn [In]. intuition congruence.
Qed.

Lemma fold_backups_inv bs st :
  storagesInv st ->
  storagesInv (fold_left (fun st b => fold_left config.addStorage (config.Destinations b) st) bs st) /\
  (forall y,
      In y (fold_left (fun st b => fold_left config.addStorage (config.Destinations b) st) bs st).2
      <-> In y st.2 \/ exists b, In b bs /\ In y (config.Destinations b)).
Proof.
  revert st. induction bs as [|b bs IH]; intros st Hinv; cbn [fold_left].
  - split; [assumption|]. intros y. split; [tauto|]. intros [H|(b & [] & _)]. assumption.
  - destruct (fold_addStorage_inv (config.Destinations b) st Hinv) as [Hinv' Hin'].
    destruct (IH _ Hinv') as [Hinv'' Hin'']. split; [assumption|].
    intros y. rewrite Hin'', Hin'. cbn [In]. split.
    + intros [[H|H]|(b' & Hb' & Hy)]; [tauto | right; exists b; tauto | right; exists b'; tauto].
    + intros [H|(b' & [<-|Hb'] & Hy)]; [tauto | tauto | right; exists b'; tauto].
Qed.

Lemma AllStorages_members (c : config.Config) :
  List.NoDup (config.AllStorages c) /\
  forall x,
    In x (config.AllStorages c) <->
    (exists b, In b (config.Backups c) /\ In x (config.Destinations b)) \/
    In x (config.Maintenance c).
Proof.
  unfold config.AllStorages.
  assert (storagesInv (∅, [])) as H0.
  { split; [|constructor]. intros x. cbn. rewrite lookup_empty. cbn. split; [discriminate | tauto]. }
  destruct (fold_backups_inv (config.Backups c) _ H0) as [H1 Hin1].
  destruct (fold_addStorage_inv (config.Maintenance c) _ H1) as [[_ H2] Hin2].
  split; [exact H2|]. intros x. rewrite Hin2, Hin1. cbn [snd In]. tauto.
Qed.

(** [AllStorages] lists every destination of a backup and every
    maintenance-only storage, and nothing else, each of them once. *)
Theorem AllStorages_distinct_and_complete (c : config.Config) :
  List.NoDup (config.AllStorages c) /\
  forall x,
    In x (config.AllStorages c) <->
    (exists b, In b (config.Backups c) /\ In x (config.Destinations b)) \/
    In x (config.Maintenance c).
Proof. exact (AllStorages_members c). Qed.

Lemma fold_append_filter {A B} (p : A -> bool) (f : A -> B) (l : list A) (acc : list B) :
  fold_left (fun acc a => if p a then (acc ++ [f a])%list else acc) l acc
  = (acc ++ map f (List.filter p l))%list.
Proof.
  revert acc. induction l as [|a l IH]; intros acc; cbn [fold_left List.filter map].
  - now rewrite app_nil_r.
  - rewrite IH. destruct (p a); [|reflexivity].
    cbn [map]. now rewrite <- app_assoc.
Qed.

(** [BackupsForStorage] names, in order, the backups that have the storage
    among their destinations, one entry per backup even when the storage is
    listed several times; when it names a backup, the storage is one of
    [AllStorages]. *)
Theorem BackupsForStorage_targets (c : config.Config) (storage : string) :
  config.BackupsForStorage c storage =
    map config.Name
      (List.filter (fun b => bool_decide (storage ∈ config.Destinations b))
                   (config.Backups c)) /\
  (length (config.BackupsForStorage c storage) <= length (config.Backups c))%nat /\
  (config.BackupsForStorage c storage <> [] -> In storage (config.AllStorages c)).
Proof.
  assert (E : config.BackupsForStorage c storage =
              map config.Name
                (List.filter (fun b => bool_decide (storage ∈ config.Destinations b))
                             (config.Backups c))).
  { unfold config.BackupsForStorage. rewrite fold_append_filter. cbn [app].
    f_equal. apply filter_ext. intros b.
    destruct (existsb (fun d => String.eqb d storage) (config.Destinations b)) eqn:Hex.
    - apply existsb_exists in Hex as (d & Hd & Heq). apply String.eqb_eq in Heq. subst d.
      symmetry. apply bool_decide_eq_true. now apply list_elem_of_In.
    - symmetry. apply bool_decide_eq_false. intros Hin. apply list_elem_of_In in Hin.
      assert (existsb (fun d => String.eqb d storage) (config.Destinations b) = true).
      { apply existsb_exists. exists storage. split; [assumption | apply String.eqb_refl]. }
      congruence. }
  split; [exact E|]. split.
  - rewrite E, length_map. apply filter_length_le.
  - rewrite E. intros Hne.
    destruct (List.filter _ (config.Backups c)) as [|b l] eqn:Hf; [contradiction|].
    assert (In b (List.filter (fun b => bool_decide (storage ∈ config.Destinations b))
                              (config.Backups c))) as Hb by (rewrite Hf; now left).
    apply filter_In in Hb as [Hb Hs]. apply bool_decide_eq_true, list_elem_of_In in Hs.
    apply AllStorages_members. left. exists b. tauto.
Qed.

(** ** FormatBytes *)

Lemma formatBytesLoop_exit fuel bytes n div exp :
  0 <= exp -> div = 1024 ^ (exp + 1) -> 1 <= n -> n = bytes / div ->
  bytes < 2 ^ 63 -> n < 1024 ^ Z.of_nat fuel ->
  exists div' exp',
    formatBytesLoop fuel n div exp = (div', exp') /\
    exp <= exp' /\ div' = 1024 ^ (exp' + 1) /\ div' <= bytes < 1024 * div'.
Proof.
  revert n div exp. induction fuel as [|fuel IH]; intros n div exp He Hdiv Hn Hq Hb Hf.
  { cbn in Hf. lia. }
  assert (0 < div) as Hdpos by (subst div; apply Z.pow_pos_nonneg; lia).
  assert (div * n <= bytes) as Hlow.
  { subst n. apply Z.mul_div_le. lia. }
  assert (bytes < div * (n + 1)) as Hhigh.
  { subst n. pose proof (Z.mod_pos_bound bytes div Hdpos).
    pose proof (Z.div_mod bytes div). lia. }
  cbn [formatBytesLoop].
  destruct (Z.leb_spec 1024 n) as [Hge|Hlt].
  - assert (wrap64 (div * 1024) = div * 1024) as ->.
    { apply wrap64_small. nia. }
    rewrite Z.quot_div_nonneg by lia.
    destruct (IH (n / 1024) (div * 1024) (exp + 1)) as (div' & exp' & Hl & He' & Hd' & Hbd).
    + lia.
    + subst div. rewrite (Z.pow_add_r 1024 (exp + 1) 1) by lia. reflexivity.
    + apply Z.div_le_lower_bound; lia.
    + subst n. rewrite Z.div_div by lia. reflexivity.
    + assumption.
    + apply Z.div_lt_upper_bound; [lia|].
      rewrite Nat2Z.inj_succ, Z.pow_succ_r in Hf by lia. lia.
    + exists div', exp'. repeat split; try assumption; lia.
  - exists div, exp. repeat split; try assumption; nia.
Qed.

Lemma round53_bounds n a b :
  0 <= a -> a < b -> 2 ^ a <= n < 2 ^ b ->
  let '(m, e) := GoStrconv.round53 n in
  0 <= e /\ 0 < m /\ 2 ^ a <= m * 2 ^ e <= 2 ^ b.
Proof.
  intros Ha Hab [Hlo Hhi].
  assert (0 < 2 ^ a) by (apply Z.pow_pos_nonneg; lia).
  unfold GoStrconv.round53.
  destruct (Z.leb_spec (Z.log2 n + 1) 53) as [_|Hbits].
  { rewrite Z.pow_0_r. lia. }
  set (sh := Z.log2 n + 1 - 53). assert (0 < sh) by (unfold sh; lia).
  assert (0 < 2 ^ sh) as Hshpos by (apply Z.pow_pos_nonneg; lia).
  rewrite Z.shiftr_div_pow2 by lia.
  pose proof (Z.div_mod n (2 ^ sh) ltac:(lia)) as Hdm.
  pose proof (Z.mod_pos_bound n (2 ^ sh) Hshpos) as Hmod.
  set (q := n / 2 ^ sh) in *.
  assert (sh < b) as Hshb.
  { assert (Z.log2 n < b) by (apply Z.log2_lt_pow2; lia). unfold sh. lia. }
  assert (2 ^ b = 2 ^ (b - sh) * 2 ^ sh) as Eb.
  { rewrite <- Z.pow_add_r by lia. f_equal. lia. }
  assert (q < 2 ^ (b - sh)) as Hq.
  { apply Z.div_lt_upper_bound; lia. }
  assert (2 ^ 52 <= q) as Hq52.
  { apply Z.div_le_lower_bound; [lia|].
    rewrite Z.mul_comm, <- Z.pow_add_r by lia.
    replace (52 + sh) with (Z.log2 n) by (unfold sh; lia).
    apply Z.log2_spec. lia. }
  assert (2 ^ a <= q * 2 ^ sh) as Hlow.
  { destruct (Z.le_gt_cases sh a) as [Hsa|Hsa].
    - assert (2 ^ a = 2 ^ (a - sh) * 2 ^ sh) as Ea.
      { rewrite <- Z.pow_add_r by lia. f_equal. lia. }
      assert (2 ^ (a - sh) <= q).
      { apply Z.div_le_lower_bound; lia. }
      rewrite Ea. apply Z.mul_le_mono_nonneg_r; lia.
    - assert (2 ^ a < 2 ^ sh) by (apply Z.pow_lt_mono_r; lia).
      assert (1 <= q) by lia. nia. }
  assert (0 < 2 ^ (b - sh)) by (apply Z.pow_pos_nonneg; lia).
  destruct ((2 ^ (sh - 1) <? n mod 2 ^ sh) || ((n mod 2 ^ sh =? 2 ^ (sh - 1)) && Z.odd q)).
  - split; [lia|]. split; [lia|]. split; [nia|]. rewrite Eb. nia.
  - split; [lia|]. split; [lia|]. split; [lia|]. rewrite Eb. nia.
Qed.

Lemma FormatFloat1_tenths m E :
  0 < m -> (E < 0 -> 2 ^ (- E) <= m <= 1024 * 2 ^ (- E)) ->
  (0 <= E -> 1 <= m * 2 ^ E <= 1024) ->
  exists t, 10 <= t <= 10240 /\
            FormatFloat1 (Finite false m E) = FormatInt (t / 10) +:+ "." +:+ FormatInt (t mod 10).
Proof.
  intros Hm Hneg Hpos. unfold FormatFloat1.
  destruct (Z.leb_spec 0 E) as [HE|HE].
  - rewrite Z.div_1_r, Z.mod_1_r. cbn [Z.mul Z.eqb Z.ltb Z.compare orb andb].
    exists (10 * m * 2 ^ E). split; [specialize (Hpos HE); nia | reflexivity].
  - specialize (Hneg HE). set (den := 2 ^ (- E)) in *.
    assert (0 < den) by (apply Z.pow_pos_nonneg; lia).
    pose proof (Z.div_mod (10 * m) den ltac:(lia)) as Hdm.
    pose proof (Z.mod_pos_bound (10 * m) den ltac:(lia)) as Hmod.
    set (t := 10 * m / den) in *. set (r := (10 * m) mod den) in *.
    assert (10 <= t) by (apply Z.div_le_lower_bound; lia).
    assert (t <= 10240) by (apply Z.div_le_upper_bound; lia).
    destruct (Z.ltb_spec den (2 * r)) as [Hr|Hr]; cbn [orb].
    + exists (t + 1). split; [nia | reflexivity].
    + destruct ((2 * r =? den) && Z.odd t) eqn:Hodd.
      * exists (t + 1). split; [|reflexivity].
        apply andb_prop in Hodd as [Heq _]. apply Z.eqb_eq in Heq. nia.
      * exists t. split; [lia | reflexivity].
Qed.

(** [FormatBytes] never indexes the unit letters out of range on an int64.
    Below 1024 (negative values included) it prints the number of bytes.
    From 1024 on it picks the letter of the largest power of 1024 not above
    the value and prints a number with one decimal between 1.0 and 1024.0. *)
Theorem FormatBytes_unit_and_range (bytes : Z) :
  MinInt64 <= bytes <= MaxInt64 ->
  (bytes < 1024 -> FormatBytes bytes = Some (FormatInt bytes +:+ " B")) /\
  (1024 <= bytes ->
   exists exp c t,
     0 <= exp <= 5 /\
     String.get (Z.to_nat exp) "KMGTPE" = Some c /\
     1024 ^ (exp + 1) <= bytes < 1024 ^ (exp + 2) /\
     10 <= t <= 10240 /\
     FormatBytes bytes =
       Some (FormatInt (t / 10) +:+ "." +:+ FormatInt (t mod 10) +:+ " " +:+ String c "B")).
Proof.
  intros [Hmin Hmax]. unfold MaxInt64 in Hmax. unfold FormatBytes.
  split.
  { intros Hlt. destruct (Z.ltb_spec bytes 1024); [reflexivity | lia]. }
  intros Hge. destruct (Z.ltb_spec bytes 1024); [lia|].
  destruct (formatBytesLoop_exit 64 bytes (Z.quot bytes 1024) 1024 0)
    as (div & exp & Hl & He & Hdiv & Hlo & Hhi).
  { lia. } { reflexivity. }
  { rewrite Z.quot_div_nonneg by lia. apply Z.div_le_lower_bound; lia. }
  { rewrite Z.quot_div_nonneg by lia. reflexivity. }
  { lia. }
  { rewrite Z.quot_div_nonneg by lia. apply Z.div_lt_upper_bound; [lia|].
    assert (2 ^ 63 < 1024 * 1024 ^ Z.of_nat 64) by (vm_compute; reflexivity). lia. }
  rewrite Hl.
  assert (exp <= 5) as He5.
  { destruct (Z.le_gt_cases exp 5) as [|Hgt]; [assumption|].
    assert (1024 ^ 7 <= 1024 ^ (exp + 1)) by (apply Z.pow_le_mono_r; lia).
    assert (2 ^ 63 < 1024 ^ 7) by (vm_compute; reflexivity). lia. }
  set (k := 10 * (exp + 1)).
  assert (1024 ^ (exp + 1) = 2 ^ k) as Ek.
  { unfold k. change 1024 with (2 ^ 10). rewrite <- Z.pow_mul_r by lia. reflexivity. }
  assert (1024 * 2 ^ k = 2 ^ (k + 10)) as Ek10.
  { rewrite Z.pow_add_r by (unfold k; lia). change (2 ^ 10) with 1024. lia. }
  assert (exists c my ey,
             unitLetter exp = Some c /\ String.get (Z.to_nat exp) "KMGTPE" = Some c /\
             float64_of_int div = Finite false my ey /\ ey + Z.log2 my = k) as (c & my & ey & Hc & Hget & Hfd & Hk).
  { assert (exp = 0 \/ exp = 1 \/ exp = 2 \/ exp = 3 \/ exp = 4 \/ exp = 5) as Hcases by lia.
    destruct Hcases as [->|[->|[->|[->|[->| ->]]]]]; subst div k;
      eexists _, _, _; (split; [reflexivity|]); (split; [reflexivity|]);
      (split; [vm_compute; reflexivity|]); reflexivity. }
  rewrite Hc, Hfd. unfold float64_of_int.
  rewrite Z.abs_eq by lia. destruct (Z.ltb_spec bytes 0); [lia|].
  pose proof (round53_bounds bytes k (k + 10)) as Hr.
  destruct (GoStrconv.round53 bytes) as [m e].
  destruct Hr as (He0 & Hm & Hml & Hmh); [unfold k; lia | lia | rewrite <- Ek, <- Ek10, <- Ek, <- Hdiv; lia |].
  cbn [float64_div_pow2].
  replace (e - ey - Z.log2 my) with (e - k) by lia.
  assert (0 <= k) by (unfold k; lia).
  assert (0 < 2 ^ k) by (apply Z.pow_pos_nonneg; lia).
  assert (0 < 2 ^ e) by (apply Z.pow_pos_nonneg; lia).
  destruct (FormatFloat1_tenths m (e - k) Hm) as (t & Ht & Hfmt).
  { intros HE. replace (- (e - k)) with (k - e) by lia.
    assert (2 ^ k = 2 ^ (k - e) * 2 ^ e) as E1.
    { rewrite <- Z.pow_add_r by lia. f_equal. lia. }
    assert (0 < 2 ^ (k - e)) by (apply Z.pow_pos_nonneg; lia).
    rewrite <- Ek10, E1 in Hmh. rewrite E1 in Hml. nia. }
  { intros HE.
    assert (2 ^ e = 2 ^ (e - k) * 2 ^ k) as E1.
    { rewrite <- Z.pow_add_r by lia. f_equal. lia. }
    assert (0 < 2 ^ (e - k)) by (apply Z.pow_pos_nonneg; lia).
    rewrite <- Ek10, E1 in Hmh. rewrite E1 in Hml. nia. }
  exists exp, c, t. split; [lia|]. split; [exact Hget|]. split.
  { rewrite <- Hdiv. split; [lia|].
    replace (exp + 2) with (exp + 1 + 1) by lia.
    rewrite (Z.pow_add_r 1024 (exp + 1) 1) by lia. rewrite <- Hdiv. lia. }
  split; [exact Ht|]. rewrite Hfmt, !append_assoc. reflexivity.
Qed.

Lemma FormatBytes_unit_and_range_witness :
  FormatBytes 100 = Some "100 B" /\ FormatBytes 1536 = Some "1.5 KB" /\
  FormatBytes 1048575 = Some "1024.0 KB" /\ FormatBytes (-5) = Some "-5 B".
Proof.
  pose proof (FormatBytes_unit_and_range 100 ltac:(unfold MinInt64, MaxInt64; lia)) as [H _].
  split; [exact (H ltac:(lia))|]. repeat split; vm_compute; reflexivity.
Defined.

(** ** Discovery and execution *)

Lemma singleQuoted_eval (s : string) : word_eval Unquoted (singleQuoted s) = Some s.
Proof.
  unfold singleQuoted, squote.
  change "'" with (String "'"%char "") at 2. rewrite ReplaceAll_byte.
  cbn [String.append word_eval]. rewrite Ascii.eqb_refl.
  apply word_eval_single_quoted.
Qed.

Lemma nonempty_false (s : string) : nonempty s = false -> s = "".
Proof. unfold nonempty. destruct (String.eqb_spec s ""); [auto | discriminate]. Qed.

(** The resolution of the effective credential: an entry added for a
    non-empty name is what that name resolves to, every other name resolves
    as before, and the empty name always resolves to the default, also when
    the map has an entry for it. *)
Theorem getStoragePassword_insert (o : Options) (k v name : string) :
  getStoragePassword (withStoragePassword o k v) name =
    (if nonempty name && String.eqb k name then v else getStoragePassword o name) /\
  getStoragePassword o "" = StoragePassword o /\
  (StoragePasswords o !! name = None -> getStoragePassword o name = StoragePassword o).
Proof.
  unfold getStoragePassword, withStoragePassword. cbn [StoragePasswords StoragePassword].
  split; [|split].
  - destruct (nonempty name); cbn [andb]; [|reflexivity].
    destruct (String.eqb_spec k name) as [->|Hne].
    + now rewrite lookup_insert_eq.
    + now rewrite lookup_insert_ne.
  - reflexivity.
  - intros ->. destruct (nonempty name); reflexivity.
Qed.

Section Discovery.
Context {P : GoPlatform} {os : OS}.

Lemma discoverDuplicacyPath_done e w :
  discoverOnce e = true ->
  discoverDuplicacyPath e w = ((discoveredPath e, discoverErr e), e, w).
Proof.
  intros H. unfold discoverDuplicacyPath, mbind, run_bind, onceDo, getDiscovered.
  rewrite H. reflexivity.
Qed.

Lemma discoverDuplicacyPath_sets_done e w :
  discoverOnce (discoverDuplicacyPath e w).1.2 = true /\
  (discoverDuplicacyPath e w).1.1
    = (discoveredPath (discoverDuplicacyPath e w).1.2,
       discoverErr (discoverDuplicacyPath e w).1.2).
Proof.
  unfold discoverDuplicacyPath, mbind, run_bind, onceDo, getDiscovered.
  destruct (discoverOnce e) eqn:H; cbn; [auto|].
  destruct (discoverBody e w) as [[u e'] w']. cbn. auto.
Qed.

(** Discovery is memoized: whatever the first call found or failed with, in
    whatever state the executor was, every later call returns the same path
    and error, leaves the executor as it is, and neither launches a process
    nor prints. *)
Theorem discoverDuplicacyPath_memoized e w w' :
  discoverDuplicacyPath (discoverDuplicacyPath e w).1.2 w'
  = ((discoverDuplicacyPath e w).1.1, (discoverDuplicacyPath e w).1.2, w').
Proof.
  destruct (discoverDuplicacyPath_sets_done e w) as [Hdone Hres].
  rewrite (discoverDuplicacyPath_done _ w' Hdone), Hres. reflexivity.
Qed.

(** The resolution order on a new executor: an explicit path wins over
    everything; without it and without a container the bare program name is
    used; in both cases no process is launched.  In every case at most one
    process is launched. *)
Theorem discoverDuplicacyPath_resolution o w :
  (DuplicacyPath o <> "" ->
   (discoverDuplicacyPath (New o) w).1.1 = (DuplicacyPath o, None) /\
   (discoverDuplicacyPath (New o) w).2 = w) /\
  (DuplicacyPath o = "" -> DockerContainer o = "" ->
   (discoverDuplicacyPath (New o) w).1.1 = ("duplicacy", None) /\
   (discoverDuplicacyPath (New o) w).2 = w) /\
  (length (launched (discoverDuplicacyPath (New o) w).2) <= S (length (launched w)))%nat.
Proof.
  unfold discoverDuplicacyPath, mbind, run_bind, onceDo, getDiscovered, New.
  cbn [discoverOnce]. unfold discoverBody, mbind, run_bind, getOpts, setDiscovered. cbn [opts].
  split; [|split].
  - intros Hp. rewrite (nonempty_true _ Hp). cbn. auto.
  - intros -> ->. cbn. auto.
  - destruct (nonempty (DuplicacyPath o)); [cbn; lia|].
    destruct (nonempty (DockerContainer o)); cbn [negb]; [|cbn; lia].
    destruct (DryRun o); [cbn; lia|].
    unfold bash, launch, setDiscoverErr, when, printf, mret, run_ret.
    match goal with |- context [bash_c ?h ?c] => destruct (bash_c h c) as [[err|] out serr] end;
      cbn; [lia|].
    destruct (String.eqb _ ""); cbn; [lia|]. destruct (Verbose o); cbn; lia.
Qed.

(** Discovery inside a container is a hard requirement.  When the listing
    command (the container command, wrapped for the remote shell like every
    other command) fails or prints nothing but white space, the run returns
    a "cannot find duplicacy" error after launching the listing command
    only: the backup command itself is never launched.  The failure is
    remembered: every later run returns the same error and launches
    nothing. *)
Theorem discovery_failure_is_final o w storageName args :
  DuplicacyPath o = "" -> DockerContainer o <> "" -> DryRun o = false ->
  let r := bash_c (launched w) (remoteLayer o (searchCommand o)) in
  run_err r <> None \/ GoStrings.TrimSpace (run_stdout r) = "" ->
  exists err e',
    RunDuplicacyWithStorage storageName args (New o) w
      = (Some (wrapError "cannot find duplicacy" err), e',
         {| launched := remoteLayer o (searchCommand o) :: launched w;
            printed := printed w |}) /\
    forall w2 storageName2 args2,
      RunDuplicacyWithStorage storageName2 args2 e' w2
        = (Some (wrapError "cannot find duplicacy" err), e', w2) /\
      RunDuplicacyCaptureWithStorage storageName2 args2 e' w2
        = (("", Some (wrapError "cannot find duplicacy" err)), e', w2).
Proof.
  intros Hpath Hdock Hdry r Hfail.
  assert (Hdisc : exists err,
             discoverDuplicacyPath (New o) w
             = (("", Some err),
                {| opts := o; discoveredPath := ""; discoverOnce := true;
                   discoverErr := Some err |},
                {| launched := remoteLayer o (searchCommand o) :: launched w;
                   printed := printed w |})).
  { unfold discoverDuplicacyPath, mbind, run_bind, onceDo, getDiscovered, New.
    cbn [discoverOnce]. unfold discoverBody, mbind, run_bind, getOpts. cbn [opts].
    rewrite Hpath, (nonempty_true _ Hdock), Hdry. cbn [nonempty String.eqb negb].
    assert ((if nonempty (SSHHost o)
             then
               if nonempty (SSHPassword o)
               then "sshpass -p '" +:+
                    GoStrings.ReplaceAll (SSHPassword o) squote squote_escape +:+ "' " +:+
                    (ssh_prefix +:+ SSHHost o +:+ " '" +:+
                     GoStrings.ReplaceAll
                       ("docker exec " +:+ DockerContainer o +:+
                        " sh -c 'ls /config/bin/duplicacy_linux_x64_* 2>/dev/null | head -1'")
                       squote squote_escape +:+ "'")
               else ssh_prefix +:+ SSHHost o +:+ " '" +:+
                    GoStrings.ReplaceAll
                      ("docker exec " +:+ DockerContainer o +:+
                       " sh -c 'ls /config/bin/duplicacy_linux_x64_* 2>/dev/null | head -1'")
                      squote squote_escape +:+ "'"
             else "docker exec " +:+ DockerContainer o +:+
                  " sh -c 'ls /config/bin/duplicacy_linux_x64_* 2>/dev/null | head -1'")
            = remoteLayer o (searchCommand o)) as ->.
    { unfold remoteLayer, searchCommand, singleQuoted.
      destruct (nonempty (SSHHost o)), (nonempty (SSHPassword o));
        rewrite ?append_assoc; reflexivity. }
    unfold bash, launch. fold r.
    destruct Hfail as [Herr|Hblank].
    - destruct (run_err r) as [err|] eqn:He; [|contradiction].
      exists (wrapError "failed to discover duplicacy path" err). reflexivity.
    - destruct (run_err r) as [err|] eqn:He.
      + exists (wrapError "failed to discover duplicacy path" err). reflexivity.
      + exists (errorString "duplicacy CLI not found in /config/bin/").
        rewrite Hblank. reflexivity. }
  destruct Hdisc as (err & Hdisc). exists err. eexists.
  split.
  - unfold RunDuplicacyWithStorage, mbind, run_bind. rewrite Hdisc. reflexivity.
  - intros w2 n2 a2.
    unfold RunDuplicacyWithStorage, RunDuplicacyCaptureWithStorage, mbind, run_bind.
    rewrite discoverDuplicacyPath_done by reflexivity. cbn. split; reflexivity.
Qed.

(** With an explicit binary path and outside dry-run mode, a run on a new
    executor launches exactly one process, the command composed by
    [buildCommandWithStorage] for that path.  Its outcome is mapped as
    follows: success gives no error, an exit status gives the exit-code error
    with that status, and any other failure (the process could not be
    started) is returned as it is.  The capturing run also returns what the
    process wrote to standard output, in the three cases. *)
Theorem run_launches_composed_command o w storageName args :
  DuplicacyPath o <> "" -> DryRun o = false ->
  let cmd := buildCommandWithStorage o (DuplicacyPath o) args storageName in
  let r := bash_c (launched w) cmd in
  let mapped stderr :=
    match run_err r with
    | Some (ExitError code) => Some (exitCodeError code stderr)
    | other => other
    end in
  (RunDuplicacyWithStorage storageName args (New o) w).1.1 = mapped None /\
  launched (RunDuplicacyWithStorage storageName args (New o) w).2 = cmd :: launched w /\
  (RunDuplicacyCaptureWithStorage storageName args (New o) w).1.1
    = (run_stdout r, mapped (Some (run_stderr r))) /\
  launched (RunDuplicacyCaptureWithStorage storageName args (New o) w).2 = cmd :: launched w.
Proof.
  intros Hpath Hdry cmd r mapped.
  assert (Hdisc : discoverDuplicacyPath (New o) w
                  = ((DuplicacyPath o, None),
                     {| opts := o; discoveredPath := DuplicacyPath o; discoverOnce := true;
                        discoverErr := None |}, w)).
  { unfold discoverDuplicacyPath, mbind, run_bind, onceDo, getDiscovered, New.
    cbn [discoverOnce]. unfold discoverBody, mbind, run_bind, getOpts, setDiscovered.
    cbn [opts]. rewrite (nonempty_true _ Hpath). reflexivity. }
  unfold RunDuplicacyWithStorage, RunDuplicacyCaptureWithStorage, mbind, run_bind.
  rewrite Hdisc. unfold getOpts. cbn [opts]. rewrite Hdry, orb_false_r.
  fold cmd. unfold when, printf, execute, executeCapture, mbind, run_bind, bash, launch,
    mret, run_ret.
  destruct (Verbose o); cbn [launched print]; fold r; unfold mapped;
    destruct (run_err r) as [[]|]; cbn; auto.
Qed.
End Discovery.

Lemma discovery_failure_is_final_witness :
  exists err e',
    @RunDuplicacyWithStorage amd64 failingOS "gdrive" ["backup"] (New dockerOptions) emptyWorld
      = (Some (wrapError "cannot find duplicacy" err), e',
         {| launched :=
              ["docker exec Duplicacy sh -c 'ls /config/bin/duplicacy_linux_x64_* 2>/dev/null | head -1'"];
            printed := [] |}).
Proof.
  destruct (@discovery_failure_is_final amd64 failingOS dockerOptions emptyWorld
              "gdrive" ["backup"]) as (err & e' & H & _);
    [reflexivity | discriminate | reflexivity | left; discriminate |].
  exists err, e'. exact H.
Defined.

Lemma run_launches_composed_command_witness :
  (@RunDuplicacyWithStorage amd64 failingOS "gdrive" ["backup"]
     (New explicitPathOptions) emptyWorld).1.1 = Some (exitCodeError 1 None) /\
  launched (@RunDuplicacyWithStorage amd64 failingOS "gdrive" ["backup"]
              (New explicitPathOptions) emptyWorld).2
    = ["docker exec Duplicacy /usr/bin/duplicacy backup"].
Proof.
  destruct (@run_launches_composed_command amd64 failingOS explicitPathOptions emptyWorld
              "gdrive" ["backup"]) as (H1 & H2 & _); [discriminate | reflexivity |].
  split; [exact H1 | exact H2].
Defined.

Lemma discoverDuplicacyPath_resolution_witness :
  (@discoverDuplicacyPath failingOS (New explicitPathOptions) emptyWorld).1.1
    = ("/usr/bin/duplicacy", None).
Proof.
  apply (@discoverDuplicacyPath_resolution failingOS explicitPathOptions emptyWorld).
  discriminate.
Defined.

(** ** The stats writer *)

(** The writer wraps a container command for the remote shell the way the
    executor does: the docker command, built around the given shell
    command, is single-quoted for ssh (and so is the password for sshpass),
    and the POSIX shell reads each quoted word back as the original. *)
Theorem writer_buildDockerCommand_wrapping (w : writer.Writer) (shellCmd : string) :
  let docker := "docker exec " +:+ writer.DockerContainer w +:+ " sh -c '" +:+ shellCmd +:+ "'" in
  writer.buildDockerCommand w shellCmd =
    (if nonempty (writer.SSHHost w) then
       (if nonempty (writer.SSHPassword w)
        then "sshpass -p " +:+ singleQuoted (writer.SSHPassword w) +:+ " " else "") +:+
       ssh_prefix +:+ writer.SSHHost w +:+ " " +:+ singleQuoted docker
     else docker) /\
  word_eval Unquoted (singleQuoted docker) = Some docker /\
  word_eval Unquoted (singleQuoted (writer.SSHPassword w)) = Some (writer.SSHPassword w).
Proof.
  intros docker. split; [|split; apply singleQuoted_eval].
  unfold writer.buildDockerCommand, singleQuoted. fold docker.
  destruct (nonempty (writer.SSHHost w)), (nonempty (writer.SSHPassword w));
    rewrite ?append_assoc; reflexivity.
Qed.

Section Writer.
Context {os : OS} {env : writer.Env}.

Lemma readStatsFile_launches w path wd :
  launched (writer.readStatsFile w path wd).2
  = writer.buildDockerCommand w ("cat " +:+ path +:+ " 2>/dev/null || echo '{}'")
      :: launched wd.
Proof.
  unfold writer.readStatsFile, writer.executeCapture, launch.
  destruct (writer.Verbose w); cbn [launched print];
    destruct (run_err _); [reflexivity | | reflexivity |];
    destruct (writer.json_Unmarshal _); reflexivity.
Qed.

(** In dry-run mode [UpdateStorageStats] still reads the existing stats
    file: it launches exactly one process, the reading command, and never
    the writing one; it fails only if the encoding fails. *)
Theorem UpdateStorageStats_dry_run_reads_only w storage dayStats wd :
  writer.DryRun w = true ->
  launched (writer.UpdateStorageStats w storage dayStats wd).2
    = writer.readCommand w storage :: launched wd /\
  (forall err, (writer.UpdateStorageStats w storage dayStats wd).1
               = writer.Returned (Some err) ->
               exists e, err = writer.marshalFailed e).
Proof.
  intros Hdry. unfold writer.UpdateStorageStats, writer.readCommand.
  pose proof (readStatsFile_launches w
                (writer.StatsPath w +:+ "/" +:+ storage +:+ ".stats") wd) as Hl.
  assert (writer.buildDockerCommand w
            ("cat " +:+ (writer.StatsPath w +:+ "/" +:+ storage +:+ ".stats")
               +:+ " 2>/dev/null || echo '{}'")
          = writer.readCommand w storage) as Hcmd.
  { unfold writer.readCommand. now rewrite !append_assoc. }
  rewrite Hcmd in Hl. fold (writer.readCommand w storage).
  destruct (writer.readStatsFile w _ wd) as [[existing err] wd1]. cbn [snd] in Hl.
  assert (forall m,
             launched (writer.writeStatsFile w
                         (writer.StatsPath w +:+ "/" +:+ storage +:+ ".stats") m wd1).2
             = launched wd1 /\
             forall e, (writer.writeStatsFile w
                          (writer.StatsPath w +:+ "/" +:+ storage +:+ ".stats") m wd1).1
                       = Some e -> exists e', e = writer.marshalFailed e') as Hw.
  { intros m. unfold writer.writeStatsFile. rewrite Hdry.
    destruct (writer.json_MarshalIndent m) as [data [e|]]; cbn.
    - split; [reflexivity|]. intros e0 [= <-]. eauto.
    - split; [reflexivity|]. discriminate. }
  destruct err as [e|]; [|destruct existing as [m|]].
  - destruct (Hw (<[writer.TodayDate wd1 := dayStats]> ∅)) as [Hl2 He].
    destruct (writer.writeStatsFile w _ _ wd1) as [r wd2]. cbn in *.
    split; [congruence|]. intros e0 [= ->]. now apply He.
  - destruct (Hw (<[writer.TodayDate wd1 := dayStats]> m)) as [Hl2 He].
    destruct (writer.writeStatsFile w _ _ wd1) as [r wd2]. cbn in *.
    split; [congruence|]. intros e0 [= ->]. now apply He.
  - cbn. split; [congruence | discriminate].
Qed.

(** What [UpdateStorageStats] writes, by what the reading command gave.  If
    the command failed or its output does not decode, the file is started
    afresh with today's entry alone.  If the output decodes to a map, today's
    entry is set in it and the other days are kept.  If it decodes to a nil
    map (JSON null), the assignment of today's entry panics and nothing is
    written. *)
Theorem UpdateStorageStats_by_read_outcome w storage dayStats wd :
  let path := writer.StatsPath w +:+ "/" +:+ storage +:+ ".stats" in
  let wd0 := if writer.Verbose w
             then print ("    Reading stats: " +:+ path +:+ newline) wd else wd in
  let r := bash_c (launched wd0) (writer.readCommand w storage) in
  let wd1 := {| launched := writer.readCommand w storage :: launched wd0;
                printed := printed wd0 |} in
  let today := writer.TodayDate wd1 in
  let write m := let '(err, wd2) := writer.writeStatsFile w path m wd1 in
                 (writer.Returned err, wd2) in
  writer.UpdateStorageStats w storage dayStats wd =
    match run_err r with
    | Some _ => write {[today := dayStats]}
    | None =>
        match writer.json_Unmarshal (GoStrings.TrimSpace (run_stdout r)) with
        | writer.UnmarshalError _ => write {[today := dayStats]}
        | writer.UnmarshalMap m => write (<[today := dayStats]> m)
        | writer.UnmarshalNil => (writer.Panicked, wd1)
        end
    end.
Proof.
  intros path wd0 r wd1 today write.
  unfold writer.UpdateStorageStats, writer.readStatsFile, writer.executeCapture, launch.
  fold path. fold wd0.
  assert (writer.buildDockerCommand w ("cat " +:+ path +:+ " 2>/dev/null || echo '{}'")
          = writer.readCommand w storage) as ->.
  { unfold writer.readCommand, path. now rewrite !append_assoc. }
  fold r. fold wd1.
  destruct (run_err r); [reflexivity|].
  destruct (writer.json_Unmarshal _); reflexivity.
Qed.
End Writer.

Lemma UpdateStorageStats_dry_run_reads_only_witness :
  launched (@writer.UpdateStorageStats failingOS nullEnv
              {| writer.SSHHost := ""; writer.SSHPassword := "";
                 writer.DockerContainer := "Duplicacy";
                 writer.StatsPath := "/config/stats/storages";
                 writer.DryRun := true; writer.Verbose := false |}
              "gdrive" None emptyWorld).2
  = ["docker exec Duplicacy sh -c 'cat /config/stats/storages/gdrive.stats 2>/dev/null || echo '{}''"].
Proof.
  apply (@UpdateStorageStats_dry_run_reads_only failingOS nullEnv). reflexivity.
Defined.

(** A stats file that holds JSON null makes the update panic. *)
Lemma UpdateStorageStats_null_file_panics :
  (@writer.UpdateStorageStats silentOS nullEnv
     (writer.NewWriter "" "" "Duplicacy") "gdrive" None emptyWorld).1 = writer.Panicked.
Proof. rewrite (@UpdateStorageStats_by_read_outcome silentOS nullEnv). reflexivity. Defined.

(** ** More on the lexer and the parser *)

Lemma ParseInt_range (s : string) :
  MinInt64 <= fst (GoStrconv.ParseInt s) <= MaxInt64.
Proof.
  unfold GoStrconv.ParseInt, MinInt64, MaxInt64.
  assert (2 ^ 63 = 9223372036854775808) as E by reflexivity.
  destruct (match s with
            | String "+" r => (false, r)
            | String "-" r => (true, r)
            | _ => (false, s)
            end) as [neg body].
  destruct body as [|c r]; [cbn; lia|].
  destruct (all_digits (String c r)) eqn:Hd; [|cbn; lia].
  pose proof (decimal_value_nonneg _ Hd) as H0.
  destruct neg; cbn [negb andb].
  - destruct (Z.ltb_spec (2 ^ 63) (decimal_value (String c r))); cbn [fst]; lia.
  - destruct (Z.leb_spec (2 ^ 63) (decimal_value (String c r))); cbn [fst]; lia.
Qed.

(** [parseNumber] never yields a value outside int64, whatever the text.  On
    a token of digits and commas its only failure is the range error of a
    value above the largest int64, and the value returned with that error is
    the largest int64, not zero. *)
Theorem parseNumber_range :
  (forall s, MinInt64 <= fst (parseNumber s) <= MaxInt64) /\
  (forall t, commaDigits t = true ->
             parseNumber t =
               if decimal_value (stripCommas t) <=? MaxInt64
               then (decimal_value (stripCommas t), None)
               else (MaxInt64, Some (NumError "ParseInt" (stripCommas t) ErrRange))).
Proof.
  split.
  - intros s. unfold parseNumber.
    destruct (String.eqb _ ""); [unfold MinInt64, MaxInt64; cbn; lia | apply ParseInt_range].
  - intros t Ht.
    destruct (Z.leb_spec (decimal_value (stripCommas t)) MaxInt64) as [Hle|Hgt].
    { now apply parseNumber_commaDigits. }
    unfold parseNumber. rewrite (TrimSpace_token t (commaDigits_token t Ht)).
    change "," with (String ","%char "") at 1. rewrite ReplaceAll_byte.
    fold (stripCommas t).
    pose proof (stripCommas_digits t Ht) as Hd.
    destruct (stripCommas t) as [|c r] eqn:Es; [cbn in Hgt; unfold MaxInt64 in Hgt; lia|].
    cbn [String.eqb]. unfold GoStrconv.ParseInt.
    assert (Hc : is_digit c = true).
    { unfold all_digits in Hd. cbn in Hd. now apply andb_prop in Hd. }
    rewrite (digit_not_sign c r (String c r) Hc), Hd. cbn [negb andb].
    unfold MaxInt64 in Hgt.
    destruct (Z.leb_spec (2 ^ 63) (decimal_value (String c r))); [reflexivity | lia].
Qed.

Section ParserMore.
Context {P : GoPlatform}.

(** Tokens without digits: commas alone are worth zero, without an error,
    as a size and as a number; a suffix letter without digits is a size
    error, with value zero. *)
Theorem tokens_without_digits t :
  commaDigits t = true -> stripCommas t = "" ->
  parseSize t = (0, None) /\ parseNumber t = (0, None) /\
  forall c, cls_KMGT c = true ->
            parseSize (t +:+ String c "")
            = (0, Some (wrapErrorQ "failed to parse size" ""
                          (NumError "ParseFloat" "" ErrSyntax))).
Proof.
  intros Ht Hs.
  assert (Hrep : forall x, GoStrings.ReplaceAll (t +:+ x) "," "" = stripCommas x).
  { intros x. change "," with (String ","%char "") at 1.
    rewrite ReplaceAll_byte, subst_byte_app. fold (stripCommas t). now rewrite Hs. }
  split; [|split].
  - unfold parseSize. rewrite (TrimSpace_token t (commaDigits_token t Ht)).
    rewrite <- (append_empty_r t) at 1. rewrite Hrep. reflexivity.
  - unfold parseNumber. rewrite (TrimSpace_token t (commaDigits_token t Ht)).
    rewrite <- (append_empty_r t) at 1. rewrite Hrep. reflexivity.
  - intros c Hc.
    assert (token_bytes (t +:+ String c "") = true) as Htok.
    { unfold token_bytes.
      assert (list_ascii_of_string (t +:+ String c "")
              = (list_ascii_of_string t ++ [c])%list) as ->.
      { clear. induction t as [|x t IH]; [reflexivity|].
        change (String x t +:+ String c "") with (String x (t +:+ String c "")).
        cbn [list_ascii_of_string]. now rewrite IH. }
      rewrite forallb_app. fold (token_bytes t). rewrite (commaDigits_token t Ht).
      cbn. unfold token_byte. now rewrite Hc, orb_true_r. }
    unfold parseSize. rewrite (TrimSpace_token _ Htok), Hrep.
    assert (stripCommas (String c "") = String c "") as ->.
    { unfold stripCommas. cbn [subst_byte].
      destruct (Ascii.eqb_spec "," c) as [<-|_]; [discriminate Hc | reflexivity]. }
    unfold cls_KMGT in Hc. cbn [String.eqb last_byte drop_last].
    destruct (Ascii.eqb c "K"); [reflexivity|].
    destruct (Ascii.eqb c "M"); [reflexivity|].
    destruct (Ascii.eqb c "G"); [reflexivity|].
    destruct (Ascii.eqb c "T"); [reflexivity | discriminate Hc].
Qed.

Lemma parseLine_repositories_dom st line name :
  is_Some (Repositories (stats (parseLine st line)) !! name) <->
  is_Some (Repositories (stats st) !! name) \/ isAllRowOf name line = true.
Proof.
  rewrite parseLine_classify. unfold isAllRowOf.
  destruct (classify line) as [m|m|m|]; cbn [stats].
  - destruct (snd (parseSize (group m 1))), (snd (parseNumber (group m 2)));
      cbn; intuition discriminate.
  - intuition discriminate.
  - cbn [set_Repository Repositories].
    destruct (String.eqb_spec (group m 1) name) as [->|Hne].
    + rewrite lookup_insert_eq. split; [auto | intros _; eauto].
    + rewrite lookup_insert_ne by assumption. intuition discriminate.
  - intuition discriminate.
Qed.

Lemma fold_parseLine_repositories_dom lines st name :
  is_Some (Repositories (stats (fold_left parseLine lines st)) !! name) <->
  is_Some (Repositories (stats st) !! name) \/
  exists line, In line lines /\ isAllRowOf name line = true.
Proof.
  revert st. induction lines as [|l lines IH]; intros st; cbn [fold_left].
  - split; [auto | intros [H|(l & [] & _)]; exact H].
  - rewrite IH, parseLine_repositories_dom. split.
    + intros [[H|H]|(l' & Hin & Hl')]; [auto | right; exists l; cbn; auto
                                        | right; exists l'; cbn; auto].
    + intros [H|(l' & [<-|Hin] & Hl')]; [auto | auto | right; exists l'; auto].
Qed.

(** Parsing succeeds exactly when some line takes the "all" row branch, and
    then the entities of the result are exactly the names of those rows.  A
    line that also matches the summary or the revision pattern does not
    count: it is handled as a summary or revision line. *)
Theorem ParseCheckOutput_entities output :
  ((exists d, ParseCheckOutput output = (Some d, None)) <->
   exists line name, In line (GoStrings.Split output "010") /\ isAllRowOf name line = true) /\
  (forall d name,
      ParseCheckOutput output = (Some d, None) ->
      (is_Some (Repositories d !! name) <->
       exists line, In line (GoStrings.Split output "010") /\ isAllRowOf name line = true)).
Proof.
  unfold ParseCheckOutput.
  set (lines := GoStrings.Split output "010").
  set (st := fold_left parseLine lines initState).
  assert (Hdom : forall name,
             is_Some (Repositories (stats st) !! name) <->
             exists line, In line lines /\ isAllRowOf name line = true).
  { intros name. unfold st. rewrite fold_parseLine_repositories_dom.
    cbn [initState stats Repositories]. rewrite lookup_empty.
    split; [intros [[x Hx]|H]; [discriminate | exact H] | auto]. }
  split.
  - destruct (Nat.eqb_spec (size (Repositories (stats st))) 0) as [Hz|Hnz].
    + apply map_size_empty_inv in Hz. split; [intros [d Hd]; discriminate|].
      intros (line & name & Hin & Hrow).
      assert (is_Some (Repositories (stats st) !! name)) as [x Hx] by (apply Hdom; eauto).
      rewrite Hz, lookup_empty in Hx. discriminate.
    + split; [|eauto]. intros _.
      destruct (map_choose (Repositories (stats st))) as (name & r & Hr).
      { intros E. apply Hnz. rewrite E. apply map_size_empty. }
      destruct (proj1 (Hdom name)) as (line & Hin & Hrow); [eauto|]. eauto.
  - intros d name. destruct (Nat.eqb _ 0); [discriminate|]. intros [= <-]. apply Hdom.
Qed.

(** Without a summary line the day totals of a successful parse are zero. *)
Theorem ParseCheckOutput_no_summary output d :
  (forall line m, In line (GoStrings.Split output "010") -> classify line <> SummaryLine m) ->
  ParseCheckOutput output = (Some d, None) ->
  TotalSize d = 0 /\ TotalChunks d = 0.
Proof.
  intros Hn. unfold ParseCheckOutput. destruct (Nat.eqb _ 0); [discriminate|].
  intros [= <-]. apply (fold_parseLine_not_summary _ initState Hn).
Qed.
End ParserMore.

Lemma tokens_without_digits_witness :
  @parseSize amd64 ",," = (0, None) /\ parseNumber ",," = (0, None) /\
  @parseSize amd64 ",,K"
  = (0, Some (wrapErrorQ "failed to parse size" "" (NumError "ParseFloat" "" ErrSyntax))).
Proof.
  destruct (@tokens_without_digits amd64 ",," eq_refl eq_refl) as (H1 & H2 & H3).
  split; [exact H1|]. split; [exact H2|]. exact (H3 "K"%char eq_refl).
Defined.

Lemma ParseCheckOutput_no_summary_witness :
  exists d,
    @ParseCheckOutput amd64 (unlines (fiveRevisionsX ++ [allRowX])) = (Some d, None) /\
    TotalSize d = 0 /\ TotalChunks d = 0.
Proof.
  eexists. split; [vm_compute; reflexivity|].
  apply (@ParseCheckOutput_no_summary amd64 (unlines (fiveRevisionsX ++ [allRowX])));
    [|vm_compute; reflexivity].
  intros line m Hin. vm_compute in Hin.
  repeat (destruct Hin as [<-|Hin]; [vm_compute; discriminate|]).
  destruct Hin.
Defined.

(** ** What the patterns let through *)

Lemma match_lit_sound (l inp rest : string) :
  match_lit l inp = Some rest -> inp = l +:+ rest.
Proof.
  revert inp. induction l as [|a l IH]; intros inp H; cbn in H.
  - now injection H as ->.
  - destruct inp as [|b inp]; [discriminate|].
    destruct (Ascii.eqb_spec a b) as [->|]; [|discriminate].
    cbn. f_equal. now apply IH.
Qed.

Section MatcherSound.
Context {R : Type}.

Lemma match_star_sound cls pos inp (k : @cont R) r :
  match_star cls pos inp k = Some r ->
  exists s1 rest,
    inp = s1 +:+ rest /\ forallb cls (list_ascii_of_string s1) = true /\
    k (pos + String.length s1)%nat rest = Some r.
Proof.
  revert pos. induction inp as [|c inp IH]; intros pos H; cbn [match_star] in H.
  - exists "", "". rewrite Nat.add_0_r. auto.
  - destruct (cls c) eqn:Hc.
    + destruct (match_star cls (S pos) inp k) as [r'|] eqn:Hs.
      * injection H as ->. destruct (IH _ Hs) as (s1 & rest & -> & Hall & Hk).
        exists (String c s1), rest. cbn [String.length list_ascii_of_string forallb].
        rewrite Hc, Hall, <- plus_n_Sm. auto.
      * exists "", (String c inp). rewrite Nat.add_0_r. auto.
    + exists "", (String c inp). rewrite Nat.add_0_r. auto.
Qed.

Lemma match_atom_sound a pos inp (k : @cont R) r :
  match_atom a pos inp k = Some r ->
  exists s1 rest,
    inp = s1 +:+ rest /\ atom_lang a pos s1 /\ k (pos + String.length s1)%nat rest = Some r.
Proof.
  destruct a as [l|cls|cls|cls|]; cbn [match_atom atom_lang]; intros H.
  - destruct (match_lit l inp) as [rest|] eqn:Hl; [|discriminate].
    apply match_lit_sound in Hl. eauto.
  - now apply match_star_sound.
  - destruct inp as [|c inp]; [discriminate|]. destruct (cls c) eqn:Hc; [|discriminate].
    destruct (match_star_sound _ _ _ _ _ H) as (s1 & rest & -> & Hall & Hk).
    exists (String c s1), rest. cbn [String.length list_ascii_of_string forallb].
    rewrite Hc, Hall, <- plus_n_Sm. repeat split; [discriminate | exact Hk].
  - destruct inp as [|c inp].
    + exists "", "". rewrite Nat.add_0_r. auto.
    + destruct (cls c) eqn:Hc.
      * destruct (k (S pos) inp) as [r'|] eqn:Hk.
        -- injection H as ->. exists (String c ""), inp. cbn [String.length].
           rewrite Nat.add_1_r. cbn. eauto 6.
        -- exists "", (String c inp). rewrite Nat.add_0_r. auto.
      * exists "", (String c inp). rewrite Nat.add_0_r. auto.
  - destruct (Nat.eqb_spec pos 0) as [->|]; [|discriminate].
    exists "", inp. auto.
Qed.

Lemma match_atoms_sound l pos inp (k : @cont R) r :
  match_atoms l pos inp k = Some r ->
  exists s rest,
    inp = s +:+ rest /\ atoms_lang l pos s /\ k (pos + String.length s)%nat rest = Some r.
Proof.
  revert pos inp. induction l as [|a l IH]; intros pos inp H; cbn [match_atoms] in H.
  - exists "", inp. rewrite Nat.add_0_r. cbn. auto.
  - apply match_atom_sound in H as (s1 & rest1 & -> & Ha & H).
    apply IH in H as (s2 & rest & -> & Hl & H).
    exists (s1 +:+ s2), rest. split; [now rewrite append_assoc|].
    split; [cbn; eauto|].
    assert (String.length (s1 +:+ s2) = (String.length s1 + String.length s2)%nat) as ->.
    { clear. induction s1 as [|c s1 IH]; [reflexivity|]. cbn. now rewrite IH. }
    now rewrite Nat.add_assoc.
Qed.
End MatcherSound.

Lemma substring_prefix (s rest : string) :
  substring 0 (String.length s) (s +:+ rest) = s.
Proof.
  induction s as [|c s IH]; cbn.
  - destruct rest; reflexivity.
  - now rewrite IH.
Qed.

Lemma match_nodes_groups re pos inp caps p out :
  match_nodes re pos inp caps = Some (p, out) ->
  exists new, out = (rev caps ++ new)%list /\
              Forall2 (fun body s => exists q, atoms_lang body q s) (groups re) new.
Proof.
  revert pos inp caps. induction re as [|n re IH]; intros pos inp caps H; cbn [match_nodes] in H.
  - injection H as _ <-. exists []. rewrite app_nil_r. split; [reflexivity | constructor].
  - destruct n as [a|body].
    + apply match_atom_sound in H as (s1 & rest & _ & _ & H). cbn [groups]. eauto.
    + apply match_atoms_sound in H as (s & rest & -> & Hs & H).
      apply IH in H as (new & -> & Hnew).
      replace (pos + String.length s - pos)%nat with (String.length s) by lia.
      rewrite substring_prefix. cbn [rev groups].
      exists (s :: new). rewrite <- app_assoc. split; [reflexivity|].
      constructor; [eauto | assumption].
Qed.

Lemma FindStringSubmatch_groups re s m :
  FindStringSubmatch re s = Some m ->
  exists whole new, m = whole :: new /\
                    Forall2 (fun body s => exists q, atoms_lang body q s) (groups re) new.
Proof.
  unfold FindStringSubmatch. generalize 0%nat as pos.
  induction s as [|c s IH]; intros pos H; cbn [find_from] in H.
  - destruct (match_nodes re pos "" []) as [[p caps]|] eqn:Hm; [|discriminate].
    injection H as <-. apply match_nodes_groups in Hm as (new & -> & Hnew). eauto.
  - destruct (match_nodes re pos (String c s) []) as [[p caps]|] eqn:Hm.
    + injection H as <-. apply match_nodes_groups in Hm as (new & -> & Hnew). eauto.
    + eauto.
Qed.

Lemma plus_lang_number q s : atoms_lang [Plus cls_d_comma] q s -> number_token s.
Proof.
  cbn. intros (s1 & s2 & -> & [Hne Hall] & ->). rewrite append_empty_r. split; assumption.
Qed.

Lemma plus_opt_lang_size q s : atoms_lang [Plus cls_d_comma; Opt cls_KMGT] q s -> size_token s.
Proof.
  cbn. intros (s1 & s2 & -> & [Hne Hall] & s3 & s4 & -> & Hopt & ->).
  rewrite append_empty_r. exists s1, s3. split; [reflexivity|]. split; [split; assumption|].
  exact Hopt.
Qed.

Lemma captured_tokens_groups (line : string) (m : list string) :
  (FindStringSubmatch totalChunksRe line = Some m ->
   size_token (group m 1) /\ number_token (group m 2)) /\
  (FindStringSubmatch allRowRe line = Some m ->
   group m 1 <> "" /\ number_token (group m 2) /\ size_token (group m 3) /\
   number_token (group m 4) /\ size_token (group m 5)) /\
  (FindStringSubmatch revisionRe line = Some m -> group m 1 <> "").
Proof.
  split; [|split]; intros H; apply FindStringSubmatch_groups in H as (whole & new & -> & Hg);
    cbn [groups totalChunksRe allRowRe revisionRe] in Hg.
  - inversion Hg as [|b1 x1 l1 r1 [q1 H1] Hg1]; subst.
    inversion Hg1 as [|b2 x2 l2 r2 [q2 H2] Hg2]; subst.
    cbn [group nth]. split; [eapply plus_opt_lang_size | eapply plus_lang_number]; eassumption.
  - inversion Hg as [|b1 x1 l1 r1 [q1 H1] Hg1]; subst.
    inversion Hg1 as [|b2 x2 l2 r2 [q2 H2] Hg2]; subst.
    inversion Hg2 as [|b3 x3 l3 r3 [q3 H3] Hg3]; subst.
    inversion Hg3 as [|b4 x4 l4 r4 [q4 H4] Hg4]; subst.
    inversion Hg4 as [|b5 x5 l5 r5 [q5 H5] Hg5]; subst.
    cbn [group nth].
    split; [|split; [eapply plus_lang_number; eassumption|
             split; [eapply plus_opt_lang_size; eassumption|
             split; [eapply plus_lang_number | eapply plus_opt_lang_size]; eassumption]]].
    cbn in H1. destruct H1 as (s1 & s2 & -> & [Hne _] & ->). rewrite append_empty_r. exact Hne.
  - inversion Hg as [|b1 x1 l1 r1 [q1 H1] Hg1]; subst. cbn [group nth].
    cbn in H1. destruct H1 as (s1 & s2 & -> & [Hne _] & ->). rewrite append_empty_r. exact Hne.
Qed.

(** Whatever the line, the tokens the summary pattern and the "all" row
    pattern hand to the lexer are well formed: the size columns hold digits
    and commas (at least one) followed by at most one of K, M, G, T, and the
    count columns hold digits and commas (at least one) only.  No sign,
    fraction, exponent or other letter reaches [parseSize] or [parseNumber]
    from a report. *)
Theorem captured_tokens_are_well_formed (line : string) (m : list string) :
  (FindStringSubmatch totalChunksRe line = Some m ->
   size_token (group m 1) /\ number_token (group m 2)) /\
  (FindStringSubmatch allRowRe line = Some m ->
   group m 1 <> "" /\ number_token (group m 2) /\ size_token (group m 3) /\
   number_token (group m 4) /\ size_token (group m 5)) /\
  (FindStringSubmatch revisionRe line = Some m -> group m 1 <> "").
Proof. exact (captured_tokens_groups line m). Qed.

Section TokenFailures.
Context {P : GoPlatform}.

(** C3 (as amended): no token aborts the parse: the only error
    [ParseCheckOutput] returns is the one for a report without entity
    rows.  In an "all" row, a size token that fails to parse gives zero for
    its field; in a summary line, a token that fails to parse leaves its
    field as it was (zero unless an earlier summary line set it).  A token
    with a trailing letter never stands where an integer is expected: what
    the summary pattern and the "all" row pattern capture as a count is
    always a non-empty run of digits and commas.  A line on which no
    pattern matches leaves the result as it is. *)
Theorem ParseCheckOutput_token_failures output st line m :
  (ParseCheckOutput output
     = (None, Some (errorString "no repository statistics found in check output"))
   \/ exists d, ParseCheckOutput output = (Some d, None)) /\
  (classify line = AllRow m ->
   exists r,
     Repositories (stats (parseLine st line)) !! group m 1 = Some r /\
     (snd (parseSize (group m 3)) <> None -> RepoTotalSize r = 0) /\
     (snd (parseSize (group m 5)) <> None -> UniqueSize r = 0)) /\
  (classify line = SummaryLine m ->
   (snd (parseSize (group m 1)) <> None ->
    TotalSize (stats (parseLine st line)) = TotalSize (stats st)) /\
   (snd (parseNumber (group m 2)) <> None ->
    TotalChunks (stats (parseLine st line)) = TotalChunks (stats st))) /\
  (FindStringSubmatch totalChunksRe line = Some m ->
   group m 2 <> "" /\ commaDigits (group m 2) = true) /\
  (FindStringSubmatch allRowRe line = Some m ->
   (group m 2 <> "" /\ commaDigits (group m 2) = true) /\
   (group m 4 <> "" /\ commaDigits (group m 4) = true)) /\
  (classify line = OtherLine -> parseLine st line = st).
Proof.
  split; [|split; [|split; [|split; [|split]]]].
  - unfold ParseCheckOutput. destruct (Nat.eqb _ 0); [left|right; eexists]; reflexivity.
  - intros Hrow. rewrite parseLine_classify, Hrow.
    cbn [stats set_Repository Repositories]. rewrite lookup_insert_eq.
    eexists. split; [reflexivity|]. cbn [RepoTotalSize UniqueSize].
    assert (Hz : forall s, snd (parseSize s) <> None -> fst (parseSize s) = 0).
    { intros s. unfold parseSize.
      destruct (String.eqb _ ""); [cbn; congruence|].
      destruct (if Ascii.eqb _ "K" then _ else _) as [mult s'].
      destruct (GoStrconv.ParseFloat s') as [v [e|]]; cbn; congruence. }
    split; apply Hz.
  - intros Hrow. rewrite parseLine_classify, Hrow. cbn [stats].
    destruct (snd (parseSize (group m 1))), (snd (parseNumber (group m 2)));
      cbn; split; congruence.
  - intros Hm. exact (proj2 (proj1 (captured_tokens_groups line m) Hm)).
  - intros Hm.
    destruct (proj1 (proj2 (captured_tokens_groups line m)) Hm) as (_ & H2 & _ & H4 & _).
    split; assumption.
  - intros Hother. rewrite parseLine_classify, Hother. reflexivity.
Qed.
End TokenFailures.

Lemma ParseCheckOutput_token_failures_witness :
  (exists r,
      Repositories (stats (@parseLine amd64 initState
                             " X | all | | | | 25 | ,K | 25 | 4,608M | | |"))
        !! "X" = Some r /\
      RepoTotalSize r = 0) /\
  commaDigits "975" = true /\
  @parseLine amd64 initState "Total chunk size is 4,617M in 975K chunks" = initState.
Proof.
  split; [|split].
  - destruct (proj1 (proj2 (@ParseCheckOutput_token_failures amd64 "" initState
                " X | all | | | | 25 | ,K | 25 | 4,608M | | |"
                [" X | all | | | | 25 | ,K | 25 | 4,608M |"; "X"; "25"; ",K"; "25"; "4,608M"])))
      as (r & Hr & Hz & _).
    + vm_compute. reflexivity.
    + exists r. split; [exact Hr|]. apply Hz. vm_compute. discriminate.
  - apply (proj1 (proj2 (proj2 (proj2 (@ParseCheckOutput_token_failures amd64 "" initState
             summaryLine ["Total chunk size is 4,617M in 975 chunks"; "4,617M"; "975"]))))).
    vm_compute. reflexivity.
  - apply (proj2 (proj2 (proj2 (proj2 (proj2 (@ParseCheckOutput_token_failures amd64 ""
             initState "Total chunk size is 4,617M in 975K chunks" [])))))).
    vm_compute. reflexivity.
Defined.

Lemma ParseFloat_digits_indep (P1 P2 : GoPlatform) (s : string) :
  all_digits s = true -> @GoStrconv.ParseFloat P1 s = @GoStrconv.ParseFloat P2 s.
Proof.
  intros Hd. unfold GoStrconv.ParseFloat. destruct s as [|c s]; [reflexivity|].
  rewrite Hd. reflexivity.
Qed.

Lemma int64_of_float_indep (P1 P2 : GoPlatform) :
  (forall f, @int64_out_of_range P1 f = @int64_out_of_range P2 f) ->
  forall f, @int64_of_float P1 f = @int64_of_float P2 f.
Proof.
  intros Hag f. unfold int64_of_float. destruct f as [neg m e|neg|]; rewrite ?Hag; reflexivity.
Qed.

Lemma list_ascii_snoc (t : string) (c : ascii) :
  list_ascii_of_string (t +:+ String c "") = (list_ascii_of_string t ++ [c])%list.
Proof.
  induction t as [|x t IH]; [reflexivity|].
  change (String x t +:+ String c "") with (String x (t +:+ String c "")).
  cbn [list_ascii_of_string]. now rewrite IH.
Qed.

Lemma parseSize_token_indep (P1 P2 : GoPlatform) (s : string) :
  (forall f, @int64_out_of_range P1 f = @int64_out_of_range P2 f) ->
  size_token s -> @parseSize P1 s = @parseSize P2 s.
Proof.
  intros Hag (t & sfx & -> & [Hne Ht] & Hsfx).
  pose proof (stripCommas_digits t Ht) as Hd.
  assert (Hrep : forall x, GoStrings.ReplaceAll (t +:+ x) "," ""
                           = stripCommas t +:+ stripCommas x).
  { intros x. change "," with (String ","%char "") at 1. rewrite ReplaceAll_byte.
    apply subst_byte_app. }
  destruct Hsfx as [->|(c & -> & Hc)].
  - rewrite append_empty_r. unfold parseSize.
    rewrite (TrimSpace_token t (commaDigits_token t Ht)).
    assert (GoStrings.ReplaceAll t "," "" = stripCommas t) as ->.
    { change "," with (String ","%char "") at 1. apply ReplaceAll_byte. }
    destruct (String.eqb_spec (stripCommas t) "") as [E|E]; [reflexivity|].
    destruct (digit_not_suffix _ (last_byte_digit _ E Hd)) as (-> & -> & -> & ->).
    rewrite (ParseFloat_digits_indep P1 P2 _ Hd).
    destruct (GoStrconv.ParseFloat (stripCommas t)) as [v [e|]]; [reflexivity|].
    now rewrite (int64_of_float_indep P1 P2 Hag).
  - assert (token_bytes (t +:+ String c "") = true) as Htok.
    { unfold token_bytes. rewrite list_ascii_snoc, forallb_app.
      fold (token_bytes t). rewrite (commaDigits_token t Ht).
      cbn. unfold token_byte. now rewrite Hc, orb_true_r. }
    unfold parseSize. rewrite (TrimSpace_token _ Htok), !Hrep.
    assert (stripCommas (String c "") = String c "") as ->.
    { unfold stripCommas. cbn [subst_byte].
      destruct (Ascii.eqb_spec "," c) as [<-|_]; [discriminate Hc | reflexivity]. }
    assert (String.eqb (stripCommas t +:+ String c "") "" = false) as ->.
    { destruct (stripCommas t); reflexivity. }
    rewrite last_byte_snoc, drop_last_snoc.
    unfold cls_KMGT in Hc.
    destruct (Ascii.eqb c "K"); [|destruct (Ascii.eqb c "M");
      [|destruct (Ascii.eqb c "G"); [|destruct (Ascii.eqb c "T"); [|discriminate Hc]]]];
      rewrite (ParseFloat_digits_indep P1 P2 _ Hd);
      (destruct (GoStrconv.ParseFloat (stripCommas t)) as [v [e|]]; [reflexivity|]);
      now rewrite (int64_of_float_indep P1 P2 Hag).
Qed.

Lemma parseLine_indep (P1 P2 : GoPlatform) st line :
  (forall f, @int64_out_of_range P1 f = @int64_out_of_range P2 f) ->
  @parseLine P1 st line = @parseLine P2 st line.
Proof.
  intros Hag. rewrite !parseLine_classify. unfold classify.
  destruct (FindStringSubmatch totalChunksRe line) as [m|] eqn:Hs.
  - destruct (proj1 (captured_tokens_groups line m) Hs) as [H1 _].
    rewrite (parseSize_token_indep P1 P2 _ Hag H1). reflexivity.
  - destruct (FindStringSubmatch revisionRe line) as [m|]; [reflexivity|].
    destruct (FindStringSubmatch allRowRe line) as [m|] eqn:Ha; [|reflexivity].
    destruct (proj1 (proj2 (captured_tokens_groups line m)) Ha) as (_ & _ & H3 & _ & H5).
    rewrite (parseSize_token_indep P1 P2 _ Hag H3), (parseSize_token_indep P1 P2 _ Hag H5).
    reflexivity.
Qed.

(** The result of [ParseCheckOutput] depends on the platform only through
    the conversion of out-of-range floats to int64: how [strconv.ParseFloat]
    reads signs, fractions, exponents, hexadecimal or special values never
    matters, since no such text reaches it from a report. *)
Theorem ParseCheckOutput_needs_decimal_sizes_only (P1 P2 : GoPlatform) (output : string) :
  (forall f, @int64_out_of_range P1 f = @int64_out_of_range P2 f) ->
  @ParseCheckOutput P1 output = @ParseCheckOutput P2 output.
Proof.
  intros Hag. unfold ParseCheckOutput.
  assert (forall lines st, fold_left (@parseLine P1) lines st
                           = fold_left (@parseLine P2) lines st) as ->.
  { induction lines as [|l lines IH]; intros st; [reflexivity|].
    cbn [fold_left]. now rewrite IH, (parseLine_indep P1 P2 st l Hag). }
  reflexivity.
Qed.

Lemma captured_tokens_are_well_formed_witness :
  size_token "4,617M" /\ number_token "975".
Proof.
  apply (proj1 (captured_tokens_are_well_formed summaryLine
                  ["Total chunk size is 4,617M in 975 chunks"; "4,617M"; "975"])).
  vm_compute. reflexivity.
Defined.

Lemma ParseCheckOutput_needs_decimal_sizes_only_witness :
  @ParseCheckOutput amd64 (unlines (summaryLine :: fiveRevisionsX ++ [allRowX]))
  = @ParseCheckOutput
      {| ParseFloat_other := fun s => (Inf false, None);
         int64_out_of_range := fun _ => MinInt64;
         ToUpper_unicode := fun s => "" |}
      (unlines (summaryLine :: fiveRevisionsX ++ [allRowX])).
Proof.
  apply ParseCheckOutput_needs_decimal_sizes_only. intros f. reflexivity.
Defined.

(** ** The container layer and single quotes *)

Lemma word_eval_length (n : nat) :
  forall q w r,
    (String.length w < n)%nat -> word_eval q w = Some r ->
    (String.length r + closing_cost q <= String.length w)%nat /\
    (q = Unquoted -> w <> "" -> String.length r + 2 <= String.length w)%nat.
Proof.
  induction n as [|n IH]; intros q w r Hn H; [lia|].
  destruct w as [|c w].
  - destruct q; cbn in H; try discriminate. injection H as <-. cbn. split; [lia | congruence].
  - cbn [String.length] in Hn. destruct q; cbn [word_eval] in H.
    + destruct (Ascii.eqb c "'").
      * apply IH in H as [H _]; [|lia]. cbn in *. split; [lia | intros; lia].
      * destruct (Ascii.eqb c "034"); [|discriminate].
        apply IH in H as [H _]; [|lia]. cbn in *. split; [lia | intros; lia].
    + destruct (Ascii.eqb c "'").
      * apply IH in H as [H _]; [|lia]. cbn in *. split; [lia | discriminate].
      * destruct (word_eval InSingle w) as [r'|] eqn:Hr; [|discriminate].
        injection H as <-. apply IH in Hr as [Hr _]; [|lia].
        cbn in *. split; [lia | discriminate].
    + destruct (Ascii.eqb c "034").
      * apply IH in H as [H _]; [|lia]. cbn in *. split; [lia | discriminate].
      * destruct (Ascii.eqb c "092").
        -- destruct w as [|d w']; [discriminate|]. cbn [String.length] in Hn.
           destruct (dq_special d).
           ++ destruct (word_eval InDouble w') as [r'|] eqn:Hr; [|discriminate].
              injection H as <-. apply IH in Hr as [Hr _]; [|lia].
              cbn in *. split; [lia | discriminate].
           ++ destruct (Ascii.eqb d "010").
              ** apply IH in H as [H _]; [|lia]. cbn in *. split; [lia | discriminate].
              ** destruct (word_eval InDouble (String d w')) as [r'|] eqn:Hr; [|discriminate].
                 injection H as <-. apply IH in Hr as [Hr _]; [|cbn; lia].
                 cbn in *. split; [lia | discriminate].
        -- destruct (dq_special c); [discriminate|].
           destruct (word_eval InDouble w) as [r'|] eqn:Hr; [|discriminate].
           injection H as <-. apply IH in Hr as [Hr _]; [|lia].
           cbn in *. split; [lia | discriminate].
Qed.

Lemma append_length (a b : string) :
  String.length (a +:+ b) = (String.length a + String.length b)%nat.
Proof. induction a as [|c a IH]; [reflexivity|]. cbn. now rewrite IH. Qed.

Lemma word_eval_plain_single (s : string) :
  hasQuote s = false -> word_eval InSingle (s +:+ "'") = Some s.
Proof.
  unfold hasQuote. induction s as [|c s IH]; [reflexivity|].
  cbn [list_ascii_of_string existsb]. intros H. apply orb_false_elim in H as [Hc Hs].
  cbn [String.append word_eval]. rewrite Ascii.eqb_sym, Hc, (IH Hs). reflexivity.
Qed.

Lemma word_eval_quote_inside (s : string) :
  hasQuote s = true -> word_eval InSingle (s +:+ "'") <> Some s.
Proof.
  unfold hasQuote. induction s as [|c s IH]; [discriminate|].
  cbn [list_ascii_of_string existsb String.append word_eval]. intros H.
  destruct (Ascii.eqb_spec c "'") as [->|Hc].
  - intros Hev.
    destruct (word_eval_length (S (String.length (s +:+ "'"))) Unquoted (s +:+ "'")
                (String "'" s) ltac:(lia) Hev) as [_ H2].
    specialize (H2 eq_refl). rewrite append_length in H2. cbn in H2.
    assert (s +:+ "'" <> "") by (destruct s; discriminate). specialize (H2 H0). lia.
  - assert (Ascii.eqb "'" c = false) as E by (apply Ascii.eqb_neq; congruence).
    rewrite E in H. cbn [orb] in H. specialize (IH H).
    destruct (word_eval InSingle (s +:+ "'")) as [r|]; [|discriminate].
    cbn. intros [= ->]. now apply IH.
Qed.

Lemma hasQuote_app (a b : string) : hasQuote (a +:+ b) = hasQuote a || hasQuote b.
Proof.
  unfold hasQuote. induction a as [|c a IH]; [reflexivity|].
  change (String c a +:+ b) with (String c (a +:+ b)).
  cbn [list_ascii_of_string existsb]. now rewrite IH, orb_assoc.
Qed.

Lemma hasQuote_escapedPw (pw : string) : hasQuote (escapedPw pw) = hasQuote pw.
Proof.
  rewrite escapedPw_bytes. induction pw as [|c pw IH]; [reflexivity|].
  cbn [escape_bytes]. rewrite hasQuote_app, IH. unfold hasQuote at 3.
  cbn [list_ascii_of_string existsb]. f_equal.
  unfold escape_byte. destruct (dq_special c) eqn:Hc; unfold hasQuote; cbn; [|now rewrite orb_false_r].
  rewrite orb_false_r. destruct (Ascii.eqb_spec "'" c) as [<-|]; [discriminate Hc | reflexivity].
Qed.

Section ContainerQuotes.
Context {P : GoPlatform}.

(** The container layer puts the shell command between single quotes
    without escaping it.  The shell reads the quoted word back as the
    command exactly when the command holds no single quote; the escaping of
    the password leaves single quotes as they are, so with a container set,
    no remote host, and a single quote in the effective credential, the
    command reaching [sh -c] is not the one composed. *)
Theorem container_layer_quotes o duplicacyBin args storageName :
  (forall s, word_eval Unquoted ("'" +:+ s +:+ "'") = Some s <-> hasQuote s = false) /\
  (DockerContainer o <> "" -> SSHHost o = "" ->
   hasQuote (getStoragePassword o storageName) = true ->
   let inner := exportLayer o storageName (cdLayer o (baseCommand duplicacyBin args)) in
   buildCommandWithStorage o duplicacyBin args storageName
     = "docker exec " +:+ DockerContainer o +:+ " sh -c " +:+ ("'" +:+ inner +:+ "'") /\
   word_eval Unquoted ("'" +:+ inner +:+ "'") <> Some inner).
Proof.
  assert (Hq : forall s, word_eval Unquoted ("'" +:+ s +:+ "'") = Some s <-> hasQuote s = false).
  { intros s. cbn [String.append word_eval]. rewrite Ascii.eqb_refl. split.
    - intros H. destruct (hasQuote s) eqn:Hs; [|reflexivity].
      now apply word_eval_quote_inside in Hs.
    - apply word_eval_plain_single. }
  split; [exact Hq|]. intros Hc Hs Hpw inner.
  assert (getStoragePassword o storageName <> "") as Hne.
  { intros E. rewrite E in Hpw. discriminate. }
  split.
  - rewrite buildCommandWithStorage_layers. unfold remoteLayer, containerLayer.
    rewrite Hs, (nonempty_true _ Hc), (nonempty_true _ Hne), orb_true_r.
    cbn [nonempty String.eqb negb]. fold inner. rewrite ?append_assoc. reflexivity.
  - intros H. apply Hq in H. unfold inner, exportLayer in H.
    rewrite (nonempty_true _ Hne) in H.
    rewrite !hasQuote_app in H. unfold passwordExports in H.
    rewrite !hasQuote_app, hasQuote_escapedPw, Hpw in H.
    rewrite ?orb_true_r, ?orb_true_l in H. cbn in H.
    rewrite ?orb_true_r in H. discriminate.
Qed.
End ContainerQuotes.

Lemma container_layer_quotes_witness :
  @buildCommandWithStorage amd64 quotedPasswordOptions "duplicacy" ["backup"] ""
  = "docker exec Duplicacy sh -c 'export DUPLICACY_PASSWORD=" +:+ dquote +:+ "it's"
      +:+ dquote +:+ " && duplicacy backup'".
Proof.
  destruct (proj2 (@container_layer_quotes amd64 quotedPasswordOptions "duplicacy"
                     ["backup"] "")) as [H _];
    [discriminate | reflexivity | reflexivity |].
  rewrite H. reflexivity.
Defined.

(** ** Further edge cases *)

Section TokenExport.
Context {P : GoPlatform}.

(** The token path alone does not open a shell inside the container: with a
    container set but neither a working directory nor a credential, the
    command is the plain [docker exec] of the binary and the token-path
    variable is not exported, whatever the token path and the entity
    name. *)
Theorem token_alone_is_not_exported o duplicacyBin args storageName :
  DockerContainer o <> "" -> CacheDir o = "" -> RepoPath o = "" ->
  getStoragePassword o storageName = "" ->
  buildCommandWithStorage o duplicacyBin args storageName
  = remoteLayer o ("docker exec " +:+ DockerContainer o +:+ " " +:+ duplicacyBin +:+ " "
                     +:+ GoStrings.Join args " ").
Proof.
  intros Hc Hcd Hrp Hpw. rewrite buildCommandWithStorage_layers.
  unfold containerLayer, cdLayer, workDirOf, baseCommand.
  rewrite Hcd, Hrp, Hpw, (nonempty_true _ Hc). reflexivity.
Qed.
End TokenExport.

Lemma token_alone_is_not_exported_witness :
  @buildCommandWithStorage amd64 tokenOnlyOptions "duplicacy" ["backup"] "gdrive"
  = "docker exec Duplicacy duplicacy backup".
Proof.
  rewrite (@token_alone_is_not_exported amd64 tokenOnlyOptions "duplicacy" ["backup"] "gdrive");
    [reflexivity | discriminate | reflexivity | reflexivity | reflexivity].
Defined.

(** The retention of a storage is found exactly when the storage is a key
    of the map; a miss returns the zero retention, and a configuration
    without storage-level retention misses for every storage. *)
Theorem GetStorageRetention_lookup (c : config.Config) (storage : string) :
  ((config.GetStorageRetention c storage).2 = true <->
   is_Some (config.Storages c !! storage)) /\
  ((config.GetStorageRetention c storage).2 = false ->
   config.GetStorageRetention c storage = (config.zeroRetention, false)) /\
  (config.HasStorageLevelRetention c = false ->
   config.GetStorageRetention c storage = (config.zeroRetention, false)).
Proof.
  unfold config.GetStorageRetention, config.HasStorageLevelRetention.
  split; [|split].
  - destruct (config.Storages c !! storage); cbn; split; intros H; eauto;
      try discriminate; destruct H; discriminate.
  - destruct (config.Storages c !! storage); cbn; [discriminate | reflexivity].
  - intros H. apply Nat.ltb_ge in H.
    assert (config.Storages c = ∅) as -> by (apply map_size_empty_inv; lia).
    rewrite lookup_empty. reflexivity.
Qed.

Lemma toPruneOptions_boundaries_witness :
  config.ToPruneOptions
    {| config.Daily := 7; config.Weekly := 4; config.Monthly := 12;
       config.Days := 0; config.Weeks := 0 |}
  = "-keep 0:395 -keep 30:35 -keep 7:7 -keep 1:1 -a".
Proof.
  destruct (toPruneOptions_boundaries
              {| config.Daily := 7; config.Weekly := 4; config.Monthly := 12;
                 config.Days := 0; config.Weeks := 0 |} true)
    as (d & w & m & -> & -> & -> & _ & _ & H); cbn; try lia.
  exact H.
Defined.

(** ** Examples for the further properties *)

Lemma applyDefaults_keeps_prune_options_witness :
  config.ToPruneOptions (config.GetBackupRetention sampleConfig "unknown")
  = config.ToPruneOptions config.zeroRetention.
Proof.
  apply (proj2 (applyDefaults_keeps_prune_options sampleConfig "unknown" true)).
  reflexivity.
Defined.

Lemma GetStorageRetention_lookup_witness :
  config.GetStorageRetention sampleConfig "gdrive" = (config.zeroRetention, false).
Proof.
  apply (proj2 (proj2 (GetStorageRetention_lookup sampleConfig "gdrive"))). reflexivity.
Defined.

Lemma getStoragePassword_insert_witness :
  getStoragePassword passwordOnly "gdrive" = "secret123".
Proof.
  apply (proj2 (proj2 (getStoragePassword_insert passwordOnly "k" "v" "gdrive"))). reflexivity.
Defined.

Lemma parseNumber_range_witness :
  parseNumber "99999999999999999999"
  = (9223372036854775807, Some (NumError "ParseInt" "99999999999999999999" ErrRange)).
Proof.
  rewrite (proj2 parseNumber_range "99999999999999999999" eq_refl). reflexivity.
Defined.

Lemma ParseCheckOutput_entities_witness :
  exists d r,
    @ParseCheckOutput amd64 (unlines (fiveRevisionsX ++ [allRowX])) = (Some d, None) /\
    Repositories d !! "X" = Some r.
Proof.
  destruct (proj2 (proj1 (@ParseCheckOutput_entities amd64
                            (unlines (fiveRevisionsX ++ [allRowX])))))
    as (d & Hd).
  { exists allRowX, "X". split; [vm_compute; auto 10 | vm_compute; reflexivity]. }
  destruct (proj2 (proj2 (@ParseCheckOutput_entities amd64
                            (unlines (fiveRevisionsX ++ [allRowX]))) d "X" Hd))
    as (r & Hr).
  { exists allRowX. split; [vm_compute; auto 10 | vm_compute; reflexivity]. }
  exists d, r. split; assumption.
Defined.

Lemma sampleConfig_values :
  config.AllStorages sampleConfig = ["gdrive"; "local"; "offsite"] /\
  config.BackupsForStorage sampleConfig "gdrive" = ["appdata"] /\
  config.Validate sampleConfig = None /\
  config.Host (config.Connection (config.applyDefaults sampleConfig)) = "root@nas".
Proof. repeat split; vm_compute; reflexivity. Qed.
